(** * memos-api-mcp: the MemOS protocol adapter, embedded and verified

    A shallow embedding of [src/index.ts] (the canonical adapter) and of the
    remote variant found beside it, with the properties its specification
    states about configuration checks, identifier derivation, the request
    dispatcher and the tool handlers.

    Conventions of the embedding.
    - A JavaScript string is a [string]: the sequence of its UTF-8 bytes.
      Concatenation, equality and length-zero tests agree with JavaScript on
      well-formed text.
    - Built-ins and dependencies whose result the properties look into are
      embedded ([Md5.hashStr], [dayjs().format], [JSON.stringify]); the
      others ([toUpperCase], [JSON.parse], [Number.prototype.toString],
      [new URL], the clock, the two transports) are fields of the
      [Runtime] the adapter runs against, and nothing is assumed of them.
    - [string | undefined] is [option string]; [number] is [spec_float], the
      IEEE 754 values of the Standard Library.
    - The handlers are asynchronous and effectful: they read the wall clock and
      call the network.  They run in a small state-and-exception monad [M]
      whose state [World] is the trace of what the invocation did; what the
      outside answers is the read-only [Runtime].  A run in [M] ends: the
      runs it describes are those in which the transport settles, with a
      response or with a failure.  The [https] transport of the dispatcher
      sets no timeout; which of its exchanges settle is the matter of the
      module [Https].
    - The parameter schemas of the tools, which the protocol layer checks
      before it calls a handler, are the module [Registry]; the handlers
      themselves are called through [Canonical.invoke] with arguments of
      the types they declare.
    - The texts the adapter writes (digest, timestamp, JSON) come with
      decoders ([Hex], [Timestamp], [Wire]) that are no part of the adapter:
      the facts about them say that a text determines what it was written
      from. *)

From Stdlib Require Import ZArith NArith List String Ascii Bool Lia.
From Stdlib Require Import DecimalString SpecFloat.
Import ListNotations.

Local Open Scope string_scope.
Local Open Scope Z_scope.

(* ===================================================================== *)
(** * Strings *)
(* ===================================================================== *)

Module Str.

(** The double quote, the backslash and the line feed as characters. *)
Definition dquote : ascii := "034"%char.
Definition backslash : ascii := "092"%char.
Definition LF : ascii := "010"%char.
Definition nl : string := String LF EmptyString.

(** [String(n)] for an integer [n]: its decimal digits, with a minus sign. *)
Definition of_Z (z : Z) : string := NilZero.string_of_int (Z.to_int z).

(** [hay.includes(needle)] as a proposition ... *)
Definition contains (needle hay : string) : Prop :=
  exists pre post, hay = pre ++ needle ++ post.

(** ... and as the test it is. *)
Fixpoint includes (needle hay : string) : bool :=
  String.prefix needle hay ||
  match hay with
  | EmptyString => false
  | String _ rest => includes needle rest
  end.

(** [s.padStart(width, "0")]. *)
Definition padStart0 (width : nat) (s : string) : string :=
  String.concat "" (repeat "0" (width - String.length s)) ++ s.

(** [String.prototype.toUpperCase] on ASCII text: [a]..[z] go to [A]..[Z],
    every other byte stays.  The sample runtime upper-cases with it. *)
Definition upper_ascii (c : ascii) : ascii :=
  let n := nat_of_ascii c in
  if (97 <=? n)%nat && (n <=? 122)%nat then ascii_of_nat (n - 32) else c.

Fixpoint toUpperCase (s : string) : string :=
  match s with
  | EmptyString => EmptyString
  | String c rest => String (upper_ascii c) (toUpperCase rest)
  end.

Fixpoint to_list (s : string) : list ascii :=
  match s with
  | EmptyString => []
  | String c rest => c :: to_list rest
  end.

End Str.

(* ===================================================================== *)
(** * MD5 (the [ts-md5] dependency)

    [Md5.hashStr(input)] of the [ts-md5] package: the MD5 digest of RFC 1321
    over the UTF-8 bytes of [input], printed as 32 lowercase hexadecimal
    digits.  Words are 32-bit integers held in [Z], wrap-around written out. *)
(* ===================================================================== *)

Module Md5.

Definition mask32 : Z := 0xFFFFFFFF.

Definition add32 (a b : Z) : Z := Z.land (a + b) mask32.

Definition not32 (a : Z) : Z := Z.lxor a mask32.

Definition rotl32 (x c : Z) : Z :=
  Z.lor (Z.land (Z.shiftl x c) mask32) (Z.shiftr x (32 - c)).

(** The sine table: [K i = floor (2^32 * abs (sin (i + 1)))]. *)
Definition K : list Z :=
  [ 0xd76aa478; 0xe8c7b756; 0x242070db; 0xc1bdceee;
    0xf57c0faf; 0x4787c62a; 0xa8304613; 0xfd469501;
    0x698098d8; 0x8b44f7af; 0xffff5bb1; 0x895cd7be;
    0x6b901122; 0xfd987193; 0xa679438e; 0x49b40821;
    0xf61e2562; 0xc040b340; 0x265e5a51; 0xe9b6c7aa;
    0xd62f105d; 0x02441453; 0xd8a1e681; 0xe7d3fbc8;
    0x21e1cde6; 0xc33707d6; 0xf4d50d87; 0x455a14ed;
    0xa9e3e905; 0xfcefa3f8; 0x676f02d9; 0x8d2a4c8a;
    0xfffa3942; 0x8771f681; 0x6d9d6122; 0xfde5380c;
    0xa4beea44; 0x4bdecfa9; 0xf6bb4b60; 0xbebfbc70;
    0x289b7ec6; 0xeaa127fa; 0xd4ef3085; 0x04881d05;
    0xd9d4d039; 0xe6db99e5; 0x1fa27cf8; 0xc4ac5665;
    0xf4292244; 0x432aff97; 0xab9423a7; 0xfc93a039;
    0x655b59c3; 0x8f0ccc92; 0xffeff47d; 0x85845dd1;
    0x6fa87e4f; 0xfe2ce6e0; 0xa3014314; 0x4e0811a1;
    0xf7537e82; 0xbd3af235; 0x2ad7d2bb; 0xeb86d391 ].

(** Per-round left rotations. *)
Definition S : list Z :=
  [ 7; 12; 17; 22; 7; 12; 17; 22; 7; 12; 17; 22; 7; 12; 17; 22;
    5;  9; 14; 20; 5;  9; 14; 20; 5;  9; 14; 20; 5;  9; 14; 20;
    4; 11; 16; 23; 4; 11; 16; 23; 4; 11; 16; 23; 4; 11; 16; 23;
    6; 10; 15; 21; 6; 10; 15; 21; 6; 10; 15; 21; 6; 10; 15; 21 ].

Record state := mk_state { sA : Z; sB : Z; sC : Z; sD : Z }.

Definition init : state :=
  mk_state 0x67452301 0xefcdab89 0x98badcfe 0x10325476.

(** The round function and the message-word index of step [i]. *)
Definition mix (i : nat) (b c d : Z) : Z :=
  if (i <? 16)%nat then Z.lor (Z.land b c) (Z.land (not32 b) d)
  else if (i <? 32)%nat then Z.lor (Z.land d b) (Z.land (not32 d) c)
  else if (i <? 48)%nat then Z.lxor (Z.lxor b c) d
  else Z.lxor c (Z.lor b (not32 d)).

Definition word_index (i : nat) : nat :=
  if (i <? 16)%nat then i
  else if (i <? 32)%nat then (5 * i + 1) mod 16
  else if (i <? 48)%nat then (3 * i + 5) mod 16
  else (7 * i) mod 16.

Definition step (m : list Z) (st : state) (i : nat) : state :=
  let f := add32 (add32 (add32 (mix i (sB st) (sC st) (sD st)) (sA st))
                        (nth i K 0)) (nth (word_index i) m 0) in
  mk_state (sD st) (add32 (sB st) (rotl32 f (nth i S 0))) (sB st) (sC st).

(** One 64-byte block, given as its 16 little-endian words. *)
Definition compress (st : state) (m : list Z) : state :=
  let r := fold_left (step m) (seq 0 64) st in
  mk_state (add32 (sA st) (sA r)) (add32 (sB st) (sB r))
           (add32 (sC st) (sC r)) (add32 (sD st) (sD r)).

(** Little-endian bytes of an integer, and back. *)
Fixpoint le_bytes (n : nat) (x : Z) : list Z :=
  match n with
  | O => []
  | Datatypes.S n' => Z.land x 0xFF :: le_bytes n' (Z.shiftr x 8)
  end.

Fixpoint le_word (bs : list Z) : Z :=
  match bs with
  | [] => 0
  | b :: rest => Z.lor b (Z.shiftl (le_word rest) 8)
  end.

(** Padding: a [0x80] byte, zeros up to 56 modulo 64, the bit length on
    eight bytes. *)
Definition pad (msg : list Z) : list Z :=
  let len := Z.of_nat (List.length msg) in
  msg ++ [0x80] ++ repeat 0 (Z.to_nat ((55 - len) mod 64))
      ++ le_bytes 8 (8 * len).

(** Cut a byte list into groups of [n]. *)
Fixpoint chunks (fuel n : nat) (l : list Z) : list (list Z) :=
  match fuel, l with
  | O, _ | _, [] => []
  | Datatypes.S fuel', _ => firstn n l :: chunks fuel' n (skipn n l)
  end.

Definition words_of_block (block : list Z) : list Z :=
  map le_word (chunks 16 4 block).

Definition digest (msg : list Z) : state :=
  let p := pad msg in
  fold_left compress (map words_of_block (chunks (List.length p) 64 p)) init.

(** Lowercase hexadecimal printing. *)
Definition hex_digit (n : Z) : ascii :=
  match n with
  | 0 => "0" | 1 => "1" | 2 => "2" | 3 => "3" | 4 => "4" | 5 => "5"
  | 6 => "6" | 7 => "7" | 8 => "8" | 9 => "9" | 10 => "a" | 11 => "b"
  | 12 => "c" | 13 => "d" | 14 => "e" | _ => "f"
  end%char.

Definition hex_byte (b : Z) (rest : string) : string :=
  String (hex_digit (Z.land (Z.shiftr b 4) 15))
         (String (hex_digit (Z.land b 15)) rest).

Definition hex_word (w : Z) (rest : string) : string :=
  fold_right hex_byte rest (le_bytes 4 w).

Definition hex (st : state) : string :=
  hex_word (sA st) (hex_word (sB st) (hex_word (sC st) (hex_word (sD st) ""))).

Definition bytes_of_string (s : string) : list Z :=
  map (fun c => Z.of_nat (nat_of_ascii c)) (Str.to_list s).

Definition hashStr (input : string) : string :=
  hex (digest (bytes_of_string input)).

End Md5.

(* ===================================================================== *)
(** * JavaScript values and JSON *)
(* ===================================================================== *)

(** The values the adapter builds and receives.  An object is the list of its
    own properties in creation order, the order [JSON.stringify] follows;
    its keys are pairwise distinct.  (Keys that are array indices, which
    JavaScript enumerates first, do not occur in the adapter.) *)
#[warnings="-register-all"]
Inductive JsVal : Type :=
| JUndefined
| JNull
| JBool (b : bool)
| JNum (n : spec_float)
| JStr (s : string)
| JArr (items : list JsVal)
| JObj (members : list (string * JsVal)).

Definition JsObject : Type := list (string * JsVal).

Module Num.

(** The number an integer literal denotes, as a binary64 value. *)
Definition of_Z (z : Z) : spec_float := binary_normalize 53 1024 z 0 false.

(** [ToBoolean] on a number: [+0], [-0] and [NaN] are falsy. *)
Definition truthy (n : spec_float) : bool :=
  match n with
  | S754_zero _ | S754_nan => false
  | S754_infinity _ | S754_finite _ _ _ => true
  end.

Definition is_zero (n : spec_float) : bool :=
  match n with S754_zero _ => true | _ => false end.

Definition is_nan (n : spec_float) : bool :=
  match n with S754_nan => true | _ => false end.

Definition is_finite (n : spec_float) : bool :=
  match n with
  | S754_zero _ | S754_finite _ _ _ => true
  | S754_infinity _ | S754_nan => false
  end.

(** [n || d] where [n] may be [undefined]. *)
Definition or_else (n : option spec_float) (d : spec_float) : spec_float :=
  match n with
  | Some x => if truthy x then x else d
  | None => d
  end.

End Num.

Module Obj.

Fixpoint get (k : string) (o : JsObject) : option JsVal :=
  match o with
  | [] => None
  | (k', v) :: rest => if String.eqb k k' then Some v else get k rest
  end.

(** Define or overwrite property [k]: an existing property keeps its place,
    a new one goes last. *)
Fixpoint set (k : string) (v : JsVal) (o : JsObject) : JsObject :=
  match o with
  | [] => [(k, v)]
  | (k', v') :: rest =>
      if String.eqb k k' then (k', v) :: rest else (k', v') :: set k v rest
  end.

Definition keys (o : JsObject) : list string := map fst o.

(** The object model's invariant: no key twice. *)
Definition wf (o : JsObject) : Prop := NoDup (keys o).

End Obj.

Module JSON.

(** [JSON.stringify], first half: the JSON document a value is written as.
    [undefined] has none; an [undefined] property is left out, an
    [undefined] array element and a non-finite number become [null]. *)
Fixpoint toJSON (v : JsVal) : option JsVal :=
  match v with
  | JUndefined => None
  | JNull => Some JNull
  | JBool b => Some (JBool b)
  | JNum n => Some (if Num.is_finite n then JNum n else JNull)
  | JStr s => Some (JStr s)
  | JArr items =>
      Some (JArr (map (fun x => match toJSON x with
                                | Some j => j
                                | None => JNull
                                end) items))
  | JObj members =>
      Some (JObj ((fix props (ms : JsObject) : JsObject :=
                     match ms with
                     | [] => []
                     | (k, x) :: rest =>
                         match toJSON x with
                         | Some j => (k, j) :: props rest
                         | None => props rest
                         end
                     end) members))
  end.

(** The same walk over the properties, by name. *)
Fixpoint props (ms : JsObject) : JsObject :=
  match ms with
  | [] => []
  | (k, x) :: rest =>
      match toJSON x with
      | Some j => (k, j) :: props rest
      | None => props rest
      end
  end.

(** [QuoteJSONString]: the two-character escapes, [\u00xx] for the other
    control characters, everything else as it is. *)
Definition escape (c : ascii) (rest : string) : string :=
  let n := nat_of_ascii c in
  let esc (x : ascii) := String Str.backslash (String x rest) in
  if (n =? 34)%nat then esc Str.dquote
  else if (n =? 92)%nat then esc Str.backslash
  else if (n =? 8)%nat then esc "b"%char
  else if (n =? 9)%nat then esc "t"%char
  else if (n =? 10)%nat then esc "n"%char
  else if (n =? 12)%nat then esc "f"%char
  else if (n =? 13)%nat then esc "r"%char
  else if (n <? 32)%nat then
    String Str.backslash
      (String "u"%char ("00" ++ Md5.hex_byte (Z.of_nat n) rest))
  else String c rest.

Definition quote (s : string) : string :=
  String Str.dquote
    (fold_right escape (String Str.dquote EmptyString) (Str.to_list s)).

Section Write.

(** [Number.prototype.toString] on a finite number is left to the runtime. *)
Variable Number_toString : spec_float -> string.

(** [JSON.stringify], second half: the text of a document. *)
Fixpoint write (v : JsVal) : string :=
  match v with
  | JUndefined | JNull => "null"
  | JBool true => "true"
  | JBool false => "false"
  | JNum n => if Num.is_finite n then Number_toString n else "null"
  | JStr s => quote s
  | JArr items => "[" ++ String.concat "," (map write items) ++ "]"
  | JObj members =>
      "{" ++ String.concat ","
               (map (fun kv => quote (fst kv) ++ ":" ++ write (snd kv)) members)
          ++ "}"
  end.

Definition stringify (v : JsVal) : option string :=
  option_map write (toJSON v).

(** [JSON.stringify] on an object: always a text. *)
Definition stringify_object (o : JsObject) : string :=
  write (JObj (props o)).

End Write.

End JSON.

(* ===================================================================== *)
(** * The wall clock and [dayjs().format] *)
(* ===================================================================== *)

(** A reading of the clock, as the local-time getters of [Date] give it
    ([getMonth] counts from 0). *)
Record JsDate : Type := mk_date {
  getFullYear : Z;
  getMonth : Z;
  getDate : Z;
  getHours : Z;
  getMinutes : Z;
  getSeconds : Z;
  getMilliseconds : Z
}.

Module Dayjs.

(** What the getters of a [Date] within the four-digit years return. *)
Definition in_range (d : JsDate) : Prop :=
  0 <= getFullYear d <= 9999 /\ 0 <= getMonth d <= 11 /\
  1 <= getDate d <= 31 /\ 0 <= getHours d <= 23 /\
  0 <= getMinutes d <= 59 /\ 0 <= getSeconds d <= 59 /\
  0 <= getMilliseconds d <= 999.

Definition field (width : nat) (z : Z) : string :=
  Str.padStart0 width (Str.of_Z z).

(** [format("YYYY-MM-DD HH:mm:ss.SSS")]. *)
Definition format (d : JsDate) : string :=
  field 4 (getFullYear d) ++ "-" ++ field 2 (getMonth d + 1) ++ "-"
  ++ field 2 (getDate d) ++ " " ++ field 2 (getHours d) ++ ":"
  ++ field 2 (getMinutes d) ++ ":" ++ field 2 (getSeconds d) ++ "."
  ++ field 3 (getMilliseconds d).

Definition is_digit (c : ascii) : bool :=
  let n := nat_of_ascii c in (48 <=? n)%nat && (n <=? 57)%nat.

(** Does [s] follow a pattern, where [9] in the pattern stands for any digit
    and every other character for itself? *)
Fixpoint matches (pattern s : string) : bool :=
  match pattern, s with
  | EmptyString, EmptyString => true
  | String p pattern', String c s' =>
      (if Ascii.eqb p "9" then is_digit c else Ascii.eqb p c)
      && matches pattern' s'
  | _, _ => false
  end.

(** The shape [YYYY-MM-DD HH:mm:ss.SSS]. *)
Definition is_chat_time (s : string) : bool :=
  matches "9999-99-99 99:99:99.999" s.

End Dayjs.

(* ===================================================================== *)
(** * The process: configuration, runtime, effects *)
(* ===================================================================== *)

(** [process.env], at the keys the adapter reads. *)
Record Env : Type := mk_env {
  env_MEMOS_API_KEY : option string;
  env_MEMOS_USER_ID : option string;
  env_MEMOS_CHANNEL : option string;
  env_MEMOS_BASE_URL : option string;
  env_MEMOS_CONVERSATION_ID : option string
}.

Module Js.

(** [!s] for [s : string | undefined]: [undefined] and the empty string. *)
Definition falsy (s : option string) : bool :=
  match s with
  | Some (String _ _) => false
  | Some EmptyString | None => true
  end.

(** The string a [string | undefined] contributes to a [+] or a template. *)
Definition str (s : option string) : string :=
  match s with
  | Some x => x
  | None => "undefined"
  end.

(** [a || b] on [string | undefined]. *)
Definition or_else (a b : option string) : option string :=
  if falsy a then b else a.

(** A [string | undefined] as a value. *)
Definition val (s : option string) : JsVal :=
  match s with
  | Some x => JStr x
  | None => JUndefined
  end.

Definition val_bool (b : option bool) : JsVal :=
  match b with
  | Some x => JBool x
  | None => JUndefined
  end.

Definition val_strings (l : option (list string)) : JsVal :=
  match l with
  | Some xs => JArr (map JStr xs)
  | None => JUndefined
  end.

(** [list.includes(x)] on strings. *)
Definition includes (l : list string) (x : string) : bool :=
  existsb (String.eqb x) l.

End Js.

(** What a [throw] or a rejected promise carries: an [Error] with its
    message, or some other value. *)
Inductive Exn : Type :=
| Error (message : string)
| NotAnError (v : JsVal).

(** An outbound HTTP request as handed to [fetch] or to [https.request]. *)
Record Request : Type := mk_request {
  req_url : string;
  req_method : string;
  req_headers : list (string * string);
  req_body : string
}.

(** The [Response] of [fetch]: [ok] is its status being 200 to 299;
    [text()] gives the body or rejects; [json()] parses that body. *)
Record FetchResponse : Type := mk_response {
  res_status : Z;
  res_statusText : string;
  res_body : Exn + string
}.

(** The [IncomingMessage] of [https.request], with the chunks of its
    ["data"] events up to ["end"]. *)
Record IncomingMessage : Type := mk_incoming {
  statusCode : option Z;
  statusMessage : option string;
  data_chunks : list string
}.

(** The outside of the process.  [toUpperCase] is the method of strings;
    [global_fetch] is [globalThis.fetch], absent on an old Node; [now k] is
    the clock at its [k]-th reading; [new_URL] and [JSON_parse] return what
    the built-in returns or what it throws; [https_request] answers with
    the response or with its ["error"] event.

    Both transports stand for exchanges that settle: [global_fetch] for a
    promise that is fulfilled or rejected, [https_request] for a response
    that came with its ["end"], or for the request's ["error"].  An
    exchange that does neither leaves the invocation pending, and has no
    run here; the module [Https] below follows the second transport event
    by event and says which exchanges settle. *)
Record Runtime : Type := mk_runtime {
  toUpperCase : string -> string;
  Number_toString : spec_float -> string;
  JSON_parse : string -> Exn + JsVal;
  now : nat -> JsDate;
  global_fetch : option (Request -> Exn + FetchResponse);
  new_URL : string -> Exn + string;
  https_request : Request -> Exn + IncomingMessage
}.

(** A call of the dispatcher, as the handler made it. *)
Record Query : Type := mk_query {
  q_path : string;
  q_body : JsObject;
  q_apiKey : option string
}.

(** The trace of one invocation: how often the clock was read, the calls of
    [queryMemos], the requests put on the network. *)
Record World : Type := mk_world {
  clock_reads : nat;
  queries : list Query;
  requests : list Request
}.

Definition fresh : World := mk_world 0 [] [].

(** Computations that read the clock, use the network and may throw. *)
Definition M (A : Type) : Type := World -> (Exn + A) * World.

Definition ret {A : Type} (a : A) : M A := fun w => (inr a, w).

Definition bind {A B : Type} (c : M A) (k : A -> M B) : M B :=
  fun w => match c w with
           | (inr a, w') => k a w'
           | (inl e, w') => (inl e, w')
           end.

Definition throw {A : Type} (e : Exn) : M A := fun w => (inl e, w).

(** [try { c } catch (e) { h e }]. *)
Definition try_catch {A : Type} (c : M A) (h : Exn -> M A) : M A :=
  fun w => match c w with
           | (inr a, w') => (inr a, w')
           | (inl e, w') => h e w'
           end.

(** A result the outside already decided: returned or thrown. *)
Definition settle {A : Type} (r : Exn + A) : M A :=
  match r with
  | inr a => ret a
  | inl e => throw e
  end.

(** [if (cond) throw new Error(message)]. *)
Definition throw_if (cond : bool) (message : string) : M unit :=
  if cond then throw (Error message) else ret tt.

Declare Scope js_scope.
Delimit Scope js_scope with js.
Notation "x <- c ;; k" := (bind c (fun x => k))
  (at level 61, c at next level, right associativity) : js_scope.
Notation "c ;; k" := (bind c (fun _ => k))
  (at level 61, right associativity) : js_scope.
Local Open Scope js_scope.

Definition read_clock : M nat :=
  fun w => (inr (clock_reads w),
            mk_world (Datatypes.S (clock_reads w)) (queries w) (requests w)).

Definition log_query (q : Query) : M unit :=
  fun w => (inr tt, mk_world (clock_reads w) (queries w ++ [q]) (requests w)).

Definition log_request (r : Request) : M unit :=
  fun w => (inr tt, mk_world (clock_reads w) (queries w) (requests w ++ [r])).

(** [array.map(f)] with an effectful [f], left to right. *)
Fixpoint mapM {A B : Type} (f : A -> M B) (l : list A) : M (list B) :=
  match l with
  | [] => ret []
  | x :: rest => y <- f x ;; ys <- mapM f rest ;; ret (y :: ys)
  end.

(** [res.ok], [res.text()] and [res.json()] of a [fetch] response. *)
Definition res_ok (res : FetchResponse) : bool :=
  (200 <=? res_status res) && (res_status res <=? 299).

Definition res_text (res : FetchResponse) : M string :=
  settle (res_body res).

Definition res_json (rt : Runtime) (res : FetchResponse) : M JsVal :=
  txt <- res_text res ;; settle (JSON_parse rt txt).

(** What a tool hands back to the protocol layer. *)
Record ToolResponse : Type := mk_tool_response {
  content_text : option string;
  structuredContent : option JsVal;
  isError : bool
}.

(** A message of [add_message]. *)
Record Message : Type := mk_message {
  role : string;
  content : string;
  chat_time : option string
}.

(** Code shared by every variant. *)

Definition stringToMd5 (input : string) : string := Md5.hashStr input.

Definition generateChatTime (rt : Runtime) : M string :=
  k <- read_clock ;; ret (Dayjs.format (now rt k)).

Definition MEMOS_BASE_URL (env : Env) : string :=
  Js.str (Js.or_else (env_MEMOS_BASE_URL env)
                     (Some "https://memos.memtensor.cn/api/openmem/v1")).

(** The [catch] of every handler. *)
Definition on_error (e : Exn) : M ToolResponse :=
  ret (mk_tool_response
         (Some ("Error: " ++ match e with
                             | Error message => message
                             | NotAnError _ => "Unknown error"
                             end))
         None true).

(** The [return] of every handler. *)
Definition on_success (rt : Runtime) (data : JsVal) : M ToolResponse :=
  ret (mk_tool_response (JSON.stringify (Number_toString rt) data)
                        (Some data) false).

Definition not_set (name : string) : string :=
  name ++ " is not set, please set it in the environment variables "
       ++ "or mcp.json file".

(** [messages.map(message => ({ role, content, chat_time: message.chat_time
    || generateChatTime() }))]. *)
Definition stamp (rt : Runtime) (message : Message) : M JsVal :=
  t <- (if Js.falsy (chat_time message) then generateChatTime rt
        else ret (Js.str (chat_time message))) ;;
  ret (JObj [("role", JStr (role message));
             ("content", JStr (content message));
             ("chat_time", JStr t)]).

(* ===================================================================== *)
(** * The canonical adapter: [src/index.ts]

    (The second unnamed source file carries the same code, prompt texts and
    version string apart.) *)
(* ===================================================================== *)

Module Canonical.

Definition MEMOS_CHANNEL_ID (rt : Runtime) (env : Env) : string :=
  match env_MEMOS_CHANNEL env with
  | Some c => toUpperCase rt c
  | None => "MEMOS"
  end.

Definition candidateChannelId : list string :=
  ["MODELSCOPE"; "MCPSO"; "MCPMARKETCN"; "MCPMARKETCOM"; "MEMOS"].

(** [JSON.stringify({ ...body, source: "MCP" })]. *)
Definition payload_of (rt : Runtime) (body : JsObject) : string :=
  JSON.stringify_object (Number_toString rt)
    (Obj.set "source" (JStr "MCP") body).

(** [log_query] and [log_request] write the trace; the rest is the source,
    statement by statement: the [fetch] path when the global exists, the
    [https] path otherwise. *)
Definition queryMemos (rt : Runtime) (env : Env)
    (path : string) (body : JsObject) (apiKey : option string) : M JsVal :=
  log_query (mk_query path body apiKey) ;;
  let payload := payload_of rt body in
  let url := MEMOS_BASE_URL env ++ path in
  match global_fetch rt with
  | Some f =>
      let req := mk_request url "POST"
                   [("Content-Type", "application/json");
                    ("Authorization", "Token " ++ Js.str apiKey)]
                   payload in
      log_request req ;;
      res <- settle (f req) ;;
      if negb (res_ok res) then
        txt <- try_catch (res_text res) (fun _ => ret "") ;;
        throw (Error ("HTTP " ++ Str.of_Z (res_status res) ++ " "
                        ++ res_statusText res ++ ": " ++ txt))
      else res_json rt res
  | None =>
      u <- settle (new_URL rt url) ;;
      let req := mk_request u "POST"
                   [("Content-Type", "application/json");
                    ("Authorization", "Token " ++ Js.str apiKey);
                    ("Content-Length",
                     Str.of_Z (Z.of_nat (String.length payload)))]
                   payload in
      log_request req ;;
      res <- settle (https_request rt req) ;;
      let txt := String.concat "" (data_chunks res) in
      let sc := match statusCode res with
                | Some n => if n =? 0 then 0 else n
                | None => 0
                end in
      if (200 <=? sc) && (sc <? 300) then
        match JSON_parse rt txt with
        | inr v => ret v
        | inl _ => ret (JStr txt)
        end
      else
        throw (Error ("HTTP " ++ Str.of_Z sc ++ " "
                        ++ Js.str (Js.or_else (statusMessage res) (Some ""))
                        ++ ": " ++ txt))
  end.

Definition actualConversationId (env : Env)
    (conversation_first_message : string) : option string :=
  Js.or_else
    (Some (stringToMd5 (Js.str (env_MEMOS_USER_ID env) ++ Str.nl
                          ++ conversation_first_message)))
    (env_MEMOS_CONVERSATION_ID env).

Definition actualUserId (rt : Runtime) (env : Env) : option string :=
  if String.eqb (MEMOS_CHANNEL_ID rt env) "MEMOS" then env_MEMOS_USER_ID env
  else Some (Js.str (env_MEMOS_USER_ID env) ++ "-" ++ MEMOS_CHANNEL_ID rt env).

Definition add_message (rt : Runtime) (env : Env)
    (conversation_first_message : string) (messages : list Message)
    : M ToolResponse :=
  try_catch
    (throw_if (Js.falsy (env_MEMOS_API_KEY env)) (not_set "MEMOS_API_KEY") ;;
     throw_if (Js.falsy (env_MEMOS_USER_ID env)) (not_set "MEMOS_USER_ID") ;;
     throw_if (negb (Js.includes candidateChannelId (MEMOS_CHANNEL_ID rt env)))
              ("Unknown channel: " ++ MEMOS_CHANNEL_ID rt env) ;;
     newMessages <- mapM (stamp rt) messages ;;
     data <- queryMemos rt env "/add/message"
               [("user_id", Js.val (actualUserId rt env));
                ("conversation_id",
                 Js.val (actualConversationId env conversation_first_message));
                ("messages", JArr newMessages)]
               (env_MEMOS_API_KEY env) ;;
     on_success rt data)
    on_error.

Definition search_memory (rt : Runtime) (env : Env)
    (query conversation_first_message : string)
    (memory_limit_number : option spec_float) : M ToolResponse :=
  try_catch
    (throw_if (Js.falsy (env_MEMOS_API_KEY env)) (not_set "MEMOS_API_KEY") ;;
     throw_if (Js.falsy (env_MEMOS_USER_ID env)) (not_set "MEMOS_USER_ID") ;;
     throw_if (negb (Js.includes candidateChannelId (MEMOS_CHANNEL_ID rt env)))
              ("Unknown channel: " ++ MEMOS_CHANNEL_ID rt env) ;;
     data <- queryMemos rt env "/search/memory"
               [("query", JStr query);
                ("user_id", Js.val (actualUserId rt env));
                ("conversation_id",
                 Js.val (actualConversationId env conversation_first_message));
                ("memory_limit_number",
                 JNum (Num.or_else memory_limit_number (Num.of_Z 6)))]
               (env_MEMOS_API_KEY env) ;;
     on_success rt data)
    on_error.

Definition delete_memory (rt : Runtime) (env : Env)
    (memory_ids : list string) : M ToolResponse :=
  try_catch
    (throw_if (Js.falsy (env_MEMOS_API_KEY env)) (not_set "MEMOS_API_KEY") ;;
     throw_if (Js.falsy (env_MEMOS_USER_ID env)) (not_set "MEMOS_USER_ID") ;;
     throw_if (negb (Js.includes candidateChannelId (MEMOS_CHANNEL_ID rt env)))
              ("Unknown channel: " ++ MEMOS_CHANNEL_ID rt env) ;;
     data <- queryMemos rt env "/delete/memory"
               [("user_ids", JArr [Js.val (actualUserId rt env)]);
                ("memory_ids", JArr (map JStr memory_ids))]
               (env_MEMOS_API_KEY env) ;;
     on_success rt data)
    on_error.

Definition add_feedback (rt : Runtime) (env : Env)
    (conversation_first_message feedback_content : string)
    (agent_id app_id feedback_time : option string)
    (allow_public : option bool)
    (allow_knowledgebase_ids : option (list string)) : M ToolResponse :=
  try_catch
    (throw_if (Js.falsy (env_MEMOS_API_KEY env)) (not_set "MEMOS_API_KEY") ;;
     throw_if (Js.falsy (env_MEMOS_USER_ID env)) (not_set "MEMOS_USER_ID") ;;
     throw_if (negb (Js.includes candidateChannelId (MEMOS_CHANNEL_ID rt env)))
              ("Unknown channel: " ++ MEMOS_CHANNEL_ID rt env) ;;
     data <- queryMemos rt env "/add/feedback"
               [("user_id", Js.val (actualUserId rt env));
                ("conversation_id",
                 Js.val (actualConversationId env conversation_first_message));
                ("feedback_content", JStr feedback_content);
                ("agent_id", Js.val agent_id);
                ("app_id", Js.val app_id);
                ("feedback_time", Js.val feedback_time);
                ("allow_public", Js.val_bool allow_public);
                ("allow_knowledgebase_ids",
                 Js.val_strings allow_knowledgebase_ids)]
               (env_MEMOS_API_KEY env) ;;
     on_success rt data)
    on_error.

(** A call of a tool's handler, with the arguments typed as the handler
    declares them ([memory_limit_number: number | undefined] for
    [search_memory]).  Which of these calls the protocol layer makes is
    decided by the parameter schemas: see [Registry] below, where
    [tools/call] is modelled with the schema check in front of the
    handler. *)
Inductive Invocation : Type :=
| AddMessage (conversation_first_message : string) (messages : list Message)
| SearchMemory (query conversation_first_message : string)
               (memory_limit_number : option spec_float)
| DeleteMemory (memory_ids : list string)
| AddFeedback (conversation_first_message feedback_content : string)
              (agent_id app_id feedback_time : option string)
              (allow_public : option bool)
              (allow_knowledgebase_ids : option (list string)).

Definition invoke (rt : Runtime) (env : Env) (i : Invocation)
    : M ToolResponse :=
  match i with
  | AddMessage c ms => add_message rt env c ms
  | SearchMemory q c n => search_memory rt env q c n
  | DeleteMemory ids => delete_memory rt env ids
  | AddFeedback c f a p t pub kbs => add_feedback rt env c f a p t pub kbs
  end.

End Canonical.

(* ===================================================================== *)
(** * The remote variant: the first unnamed source file

    Three tools, [fetch] only, the channel tag sent as the provenance field
    and the user identifier sent as configured. *)
(* ===================================================================== *)

Module Remote.

Definition MEMOS_CHANNEL (rt : Runtime) (env : Env) : string :=
  match env_MEMOS_CHANNEL env with
  | Some c => toUpperCase rt c
  | None => "MODELSCOPE_REMOTE"
  end.

Definition candidateChannelId : list string :=
  ["MODELSCOPE"; "MCPSO"; "MCPMARKETCN"; "MCPMARKETCOM"; "MEMOS"; "GITHUB";
   "GLAMA"; "PULSEMCP"; "MCPSERVERS"; "LOBEHUB"; "MODELSCOPE_REMOTE"].

(** [JSON.stringify({ ...body, source: source })]. *)
Definition payload_of (rt : Runtime) (body : JsObject) (source : string)
    : string :=
  JSON.stringify_object (Number_toString rt)
    (Obj.set "source" (JStr source) body).

(** Here [fetch] is the bare global: where it is absent, naming it throws a
    [ReferenceError]. *)
Definition queryMemos (rt : Runtime) (env : Env)
    (path : string) (body : JsObject) (apiKey : option string)
    (source : string) : M JsVal :=
  log_query (mk_query path body apiKey) ;;
  match global_fetch rt with
  | Some f =>
      let req := mk_request (MEMOS_BASE_URL env ++ path) "POST"
                   [("Content-Type", "application/json");
                    ("Authorization", "Token " ++ Js.str apiKey)]
                   (payload_of rt body source) in
      log_request req ;;
      res <- settle (f req) ;;
      if negb (res_ok res) then
        txt <- try_catch (res_text res) (fun _ => ret "") ;;
        throw (Error ("HTTP " ++ Str.of_Z (res_status res) ++ " "
                        ++ res_statusText res ++ ": " ++ txt))
      else res_json rt res
  | None => throw (Error "fetch is not defined")
  end.

Definition actualConversationId (env : Env)
    (conversation_first_message : string) : option string :=
  Js.or_else
    (Some (stringToMd5 (Js.str (env_MEMOS_USER_ID env) ++ Str.nl
                          ++ conversation_first_message)))
    (env_MEMOS_CONVERSATION_ID env).

Definition add_message (rt : Runtime) (env : Env)
    (conversation_first_message : string) (messages : list Message)
    : M ToolResponse :=
  try_catch
    (throw_if (Js.falsy (env_MEMOS_API_KEY env)) (not_set "MEMOS_API_KEY") ;;
     throw_if (Js.falsy (env_MEMOS_USER_ID env)) (not_set "MEMOS_USER_ID") ;;
     throw_if (negb (Js.includes candidateChannelId (MEMOS_CHANNEL rt env)))
              ("Unknown channel: " ++ MEMOS_CHANNEL rt env ++ ", candidates: "
                 ++ String.concat ", " candidateChannelId) ;;
     newMessages <- mapM (stamp rt) messages ;;
     data <- queryMemos rt env "/add/message"
               [("user_id", Js.val (env_MEMOS_USER_ID env));
                ("conversation_id",
                 Js.val (actualConversationId env conversation_first_message));
                ("messages", JArr newMessages)]
               (env_MEMOS_API_KEY env) (MEMOS_CHANNEL rt env) ;;
     on_success rt data)
    on_error.

Definition search_memory (rt : Runtime) (env : Env)
    (query conversation_first_message : string)
    (memory_limit_number : option spec_float) : M ToolResponse :=
  try_catch
    (throw_if (Js.falsy (env_MEMOS_API_KEY env)) (not_set "MEMOS_API_KEY") ;;
     throw_if (Js.falsy (env_MEMOS_USER_ID env)) (not_set "MEMOS_USER_ID") ;;
     throw_if (negb (Js.includes candidateChannelId (MEMOS_CHANNEL rt env)))
              ("Unknown channel: " ++ MEMOS_CHANNEL rt env) ;;
     data <- queryMemos rt env "/search/memory"
               [("query", JStr query);
                ("user_id", Js.val (env_MEMOS_USER_ID env));
                ("conversation_id",
                 Js.val (actualConversationId env conversation_first_message));
                ("memory_limit_number",
                 JNum (Num.or_else memory_limit_number (Num.of_Z 6)))]
               (env_MEMOS_API_KEY env) (MEMOS_CHANNEL rt env) ;;
     on_success rt data)
    on_error.

Definition get_message (rt : Runtime) (env : Env)
    (conversation_first_message : string) : M ToolResponse :=
  try_catch
    (throw_if (Js.falsy (env_MEMOS_API_KEY env)) (not_set "MEMOS_API_KEY") ;;
     throw_if (Js.falsy (env_MEMOS_USER_ID env)) (not_set "MEMOS_USER_ID") ;;
     throw_if (negb (Js.includes candidateChannelId (MEMOS_CHANNEL rt env)))
              ("Unknown channel: " ++ MEMOS_CHANNEL rt env) ;;
     data <- queryMemos rt env "/get/message"
               [("user_id", Js.val (env_MEMOS_USER_ID env));
                ("conversation_id",
                 Js.val (actualConversationId env conversation_first_message))]
               (env_MEMOS_API_KEY env) (MEMOS_CHANNEL rt env) ;;
     on_success rt data)
    on_error.

(** The calls of this variant's three handlers. *)
Inductive Invocation : Type :=
| AddMessage (conversation_first_message : string) (messages : list Message)
| SearchMemory (query conversation_first_message : string)
               (memory_limit_number : option spec_float)
| GetMessage (conversation_first_message : string).

Definition invoke (rt : Runtime) (env : Env) (i : Invocation)
    : M ToolResponse :=
  match i with
  | AddMessage c ms => add_message rt env c ms
  | SearchMemory q c n => search_memory rt env q c n
  | GetMessage c => get_message rt env c
  end.

End Remote.

(* ===================================================================== *)
(** * A runtime to run the adapter against *)
(* ===================================================================== *)

Module Sample.

(** A test double for [JSON.parse]: it knows the literals and takes any
    other text for malformed. *)
Definition parse_literal (txt : string) : Exn + JsVal :=
  if String.eqb txt "null" then inr JNull
  else if String.eqb txt "true" then inr (JBool true)
  else if String.eqb txt "false" then inr (JBool false)
  else inl (Error "Unexpected token in JSON at position 0").

(** A test double for [Number.prototype.toString]: exact on the integers,
    the only numbers of the sample runs. *)
Definition show_integer (n : spec_float) : string :=
  match n with
  | S754_zero _ => "0"
  | S754_finite s m e =>
      let v := if 0 <=? e then Z.pos m * 2 ^ e else Z.pos m / 2 ^ (- e) in
      (if s then "-" else "") ++ Str.of_Z v
  | S754_infinity s => (if s then "-" else "") ++ "Infinity"
  | S754_nan => "NaN"
  end.

Definition noon : JsDate := mk_date 2026 10 2 12 0 0 0.

(** Configurations: complete on the default channel; complete on another
    listed channel; complete on an unlisted channel; without an API key and
    on an unlisted channel. *)
Definition env : Env :=
  mk_env (Some "key") (Some "alice") None None (Some "fallback-conversation").

Definition env_mcpso : Env :=
  mk_env (Some "key") (Some "alice") (Some "mcpso") None None.

Definition env_bogus : Env :=
  mk_env (Some "key") (Some "alice") (Some "bogus") None None.

Definition env_no_key : Env :=
  mk_env None (Some "alice") (Some "bogus") None None.

(** A runtime whose server answers every request with [status] and [body];
    [with_fetch] says which transport the process has. *)
Definition server (with_fetch : bool) (status : Z) (statusText body : string)
    : Runtime :=
  mk_runtime
    Str.toUpperCase
    show_integer
    parse_literal
    (fun _ => noon)
    (if with_fetch
     then Some (fun _ => inr (mk_response status statusText (inr body)))
     else None)
    (fun url => inr url)
    (fun _ => inr (mk_incoming (Some status) (Some statusText) [body])).

End Sample.

(* ===================================================================== *)
(** * Vocabulary of the specification *)
(* ===================================================================== *)

Module Spec.



(** The configuration passes the three checks of a canonical handler. *)
Definition valid_config (rt : Runtime) (env : Env) : Prop :=
  Js.falsy (env_MEMOS_API_KEY env) = false /\
  Js.falsy (env_MEMOS_USER_ID env) = false /\
  Js.includes Canonical.candidateChannelId (Canonical.MEMOS_CHANNEL_ID rt env)
  = true.

(** The same for the remote variant. *)
Definition valid_remote_config (rt : Runtime) (env : Env) : Prop :=
  Js.falsy (env_MEMOS_API_KEY env) = false /\
  Js.falsy (env_MEMOS_USER_ID env) = false /\
  Js.includes Remote.candidateChannelId (Remote.MEMOS_CHANNEL rt env) = true.

(** The first message of a conversation-scoped invocation. *)
Definition first_message (i : Canonical.Invocation) : option string :=
  match i with
  | Canonical.AddMessage c _ => Some c
  | Canonical.SearchMemory _ c _ => Some c
  | Canonical.DeleteMemory _ => None
  | Canonical.AddFeedback c _ _ _ _ _ _ => Some c
  end.

(** The user identifier a request body carries: its [user_id], or the one
    element of its [user_ids]. *)
Definition user_id_of (body : JsObject) : option JsVal :=
  match Obj.get "user_id" body with
  | Some v => Some v
  | None =>
      match Obj.get "user_ids" body with
      | Some (JArr [v]) => Some v
      | _ => None
      end
  end.

(** The effective user identifier as the specification words it. *)
Definition effective_user_id (default_channel configured channel : string)
    : string :=
  if String.eqb channel default_channel then configured
  else configured ++ "-" ++ channel.

(** The remote endpoint answers every request of this process with the
    given status line and body. *)
Definition answers (rt : Runtime) (status : Z) (statusText body : string)
    : Prop :=
  match global_fetch rt with
  | Some f =>
      forall req, f req = inr (mk_response status statusText (inr body))
  | None =>
      (forall url, exists u, new_URL rt url = inr u) /\
      (forall req, exists chunks,
          https_request rt req
          = inr (mk_incoming (Some status) (Some statusText) chunks)
          /\ String.concat "" chunks = body)
  end.

(** A success status. *)
Definition is_2xx (status : Z) : Prop := 200 <= status <= 299.

(** A text [JSON.parse] throws on. *)
Definition malformed (rt : Runtime) (txt : string) : Prop :=
  exists e, JSON_parse rt txt = inl e.

(** A message as [add_message] must send it: [role] and [content] kept, and
    as [chat_time] either the supplied one, or a reading [now rt k] of the
    clock made between the readings [lo] and [hi]. *)
Definition stamped (rt : Runtime) (lo hi : nat) (m : Message) (o : JsVal)
    : Prop :=
  exists t,
    o = JObj [("role", JStr (role m)); ("content", JStr (content m));
              ("chat_time", JStr t)]
    /\ (forall s, chat_time m = Some s -> s <> "" -> t = s)
    /\ (chat_time m = None \/ chat_time m = Some "" ->
        exists k, (lo <= k < hi)%nat /\ t = Dayjs.format (now rt k)).

(** The same, with the shape of a generated timestamp spelled out. *)
Definition well_stamped (rt : Runtime) (lo hi : nat) (m : Message)
    (o : JsVal) : Prop :=
  exists t,
    o = JObj [("role", JStr (role m)); ("content", JStr (content m));
              ("chat_time", JStr t)]
    /\ (forall s, chat_time m = Some s -> s <> "" -> t = s)
    /\ (chat_time m = None ->
        Dayjs.is_chat_time t = true
        /\ exists k, (lo <= k < hi)%nat /\ t = Dayjs.format (now rt k)).

(** The body each canonical handler hands to the dispatcher. *)
Definition body_shape (rt : Runtime) (env : Env)
    (i : Canonical.Invocation) (lo hi : nat)
    (path : string) (body : JsObject) : Prop :=
  match i with
  | Canonical.AddMessage c ms =>
      path = "/add/message" /\
      exists objs,
        body = [("user_id", Js.val (Canonical.actualUserId rt env));
                ("conversation_id",
                 Js.val (Canonical.actualConversationId env c));
                ("messages", JArr objs)]
        /\ Forall2 (stamped rt lo hi) ms objs
  | Canonical.SearchMemory q c n =>
      path = "/search/memory" /\
      body = [("query", JStr q);
              ("user_id", Js.val (Canonical.actualUserId rt env));
              ("conversation_id",
               Js.val (Canonical.actualConversationId env c));
              ("memory_limit_number", JNum (Num.or_else n (Num.of_Z 6)))]
  | Canonical.DeleteMemory ids =>
      path = "/delete/memory" /\
      body = [("user_ids", JArr [Js.val (Canonical.actualUserId rt env)]);
              ("memory_ids", JArr (map JStr ids))]
  | Canonical.AddFeedback c f a p t pub kbs =>
      path = "/add/feedback" /\
      body = [("user_id", Js.val (Canonical.actualUserId rt env));
              ("conversation_id",
               Js.val (Canonical.actualConversationId env c));
              ("feedback_content", JStr f);
              ("agent_id", Js.val a);
              ("app_id", Js.val p);
              ("feedback_time", Js.val t);
              ("allow_public", Js.val_bool pub);
              ("allow_knowledgebase_ids", Js.val_strings kbs)]
  end.

(** A value JSON can carry as it is: no [undefined], no [NaN], no
    infinity, at any depth. *)
Fixpoint json_value (v : JsVal) : bool :=
  match v with
  | JUndefined => false
  | JNull | JBool _ | JStr _ => true
  | JNum n => Num.is_finite n
  | JArr items => forallb json_value items
  | JObj members =>
      (fix all (ms : JsObject) : bool :=
         match ms with
         | [] => true
         | (_, x) :: rest => json_value x && all rest
         end) members
  end.

(** The response of the [catch] for an [Error] with this message. *)
Definition failure (message : string) : ToolResponse :=
  mk_tool_response (Some ("Error: " ++ message)) None true.

(** The shape of a canonical handler: its three configuration checks, then
    the rest, all inside the [try]. *)
Definition guarded (rt : Runtime) (env : Env)
    (channel_message : string) (rest : M ToolResponse) : M ToolResponse :=
  try_catch
    (throw_if (Js.falsy (env_MEMOS_API_KEY env)) (not_set "MEMOS_API_KEY") ;;
     throw_if (Js.falsy (env_MEMOS_USER_ID env)) (not_set "MEMOS_USER_ID") ;;
     throw_if (negb (Js.includes Canonical.candidateChannelId
                                 (Canonical.MEMOS_CHANNEL_ID rt env)))
              channel_message ;;
     rest)
    on_error.

End Spec.

(* ===================================================================== *)
(** * Start-up: the version string and the transport

    [getPackageVersion] and [startServer] of [src/index.ts], with the end of
    the module that calls it. *)
(* ===================================================================== *)

Module Startup.

(** [value[key]] for a key that is no built-in property of strings, arrays
    and the like: a [TypeError] on [null] and [undefined], the own
    property of an object, [undefined] elsewhere. *)
Definition member (value : JsVal) (key : string) : Exn + JsVal :=
  match value with
  | JUndefined | JNull =>
      inl (Error ("Cannot read properties of null (reading '" ++ key ++ "')"))
  | JObj o =>
      inr match Obj.get key o with
          | Some x => x
          | None => JUndefined
          end
  | JBool _ | JNum _ | JStr _ | JArr _ => inr JUndefined
  end.

(** The [try] block of [getPackageVersion]: what it returns ([Some]), that
    it falls through ([None]), or what it throws.  [package_json] is what
    [new URL] and [readFileSync] give for [../package.json]: the text of the
    file, or what either throws. *)
Definition read_version (rt : Runtime) (package_json : Exn + string)
    : Exn + option string :=
  match package_json with
  | inl e => inl e
  | inr raw =>
      match JSON_parse rt raw with
      | inl e => inl e
      | inr parsed =>
          match member parsed "version" with
          | inl e => inl e
          | inr (JStr (String c rest)) => inr (Some (String c rest))
          | inr _ => inr None
          end
      end
  end.

(** [npm_package_version] is [process.env.npm_package_version]. *)
Definition getPackageVersion (rt : Runtime)
    (npm_package_version : option string) (package_json : Exn + string)
    : string :=
  if negb (Js.falsy npm_package_version) then Js.str npm_package_version
  else
    match read_version rt package_json with
    | inr (Some version) => version
    | inr None | inl _ => "0.0.0"
    end.

(** The process as start-up leaves it: the lines written by
    [console.error], and the status [process.exit] was called with. *)
Record Process : Type := mk_process {
  stderr : list string;
  exit_code : option Z
}.

Definition console_error (line : string) (p : Process) : Process :=
  mk_process (stderr p ++ [line]) (exit_code p).

Definition process_exit (code : Z) (p : Process) : Process :=
  mk_process (stderr p) (Some code).

(** [JSON.stringify({ error: error, details: String(cause) })]; [String] of
    a thrown value is the runtime's. *)
Definition diagnostic (rt : Runtime) (to_String : Exn -> string)
    (error : string) (cause : Exn) : string :=
  JSON.stringify_object (Number_toString rt)
    [("error", JStr error); ("details", JStr (to_String cause))].

(** [connect] is what creating the transport and [server.connect] come
    to. *)
Definition startServer (rt : Runtime) (to_String : Exn -> string)
    (connect : Exn + unit) (p : Process) : (Exn + unit) * Process :=
  match connect with
  | inr tt => (inr tt, p)
  | inl error =>
      (inl error,
       console_error
         (diagnostic rt to_String "Error occurred while starting server"
            error) p)
  end.

(** [startServer().catch(error => { console.error(...); process.exit(1) })]. *)
Definition main (rt : Runtime) (to_String : Exn -> string)
    (connect : Exn + unit) (p : Process) : Process :=
  match startServer rt to_String connect p with
  | (inr _, p') => p'
  | (inl error, p') =>
      process_exit 1
        (console_error
           (diagnostic rt to_String "Server failed to start" error) p')
  end.

End Startup.

(* ===================================================================== *)
(** * More vocabulary, and more runtimes to run against *)
(* ===================================================================== *)

Module Extra.

(** The three configuration checks of a canonical handler, as one test. *)
Definition config_ok (rt : Runtime) (env : Env) : bool :=
  negb (Js.falsy (env_MEMOS_API_KEY env))
  && negb (Js.falsy (env_MEMOS_USER_ID env))
  && Js.includes Canonical.candidateChannelId
       (Canonical.MEMOS_CHANNEL_ID rt env).

(** The endpoint of each tool. *)
Definition endpoint (i : Canonical.Invocation) : string :=
  match i with
  | Canonical.AddMessage _ _ => "/add/message"
  | Canonical.SearchMemory _ _ _ => "/search/memory"
  | Canonical.DeleteMemory _ => "/delete/memory"
  | Canonical.AddFeedback _ _ _ _ _ _ _ => "/add/feedback"
  end.

(** How many timestamps an invocation has to generate: one for each
    message of [add_message] whose [chat_time] is missing or empty. *)
Definition generated (i : Canonical.Invocation) : nat :=
  match i with
  | Canonical.AddMessage _ ms =>
      List.length (filter (fun m => Js.falsy (chat_time m)) ms)
  | _ => 0%nat
  end.

(** The response of the [catch] for whatever was thrown. *)
Definition caught (e : Exn) : ToolResponse :=
  mk_tool_response
    (Some ("Error: " ++ match e with
                        | Error message => message
                        | NotAnError _ => "Unknown error"
                        end))
    None true.

(** The response of the [return] for the data received. *)
Definition returned (rt : Runtime) (data : JsVal) : ToolResponse :=
  mk_tool_response (JSON.stringify (Number_toString rt) data)
                   (Some data) false.

(** No request of this process reaches the remote endpoint: the transport
    fails each time with [e]. *)
Definition unreachable (rt : Runtime) (e : Exn) : Prop :=
  match global_fetch rt with
  | Some f => forall req, f req = inl e
  | None =>
      (forall url, exists u, new_URL rt url = inr u) /\
      (forall req, https_request rt req = inl e)
  end.

(** The body each handler of the remote variant hands to the dispatcher. *)
Definition remote_body_shape (rt : Runtime) (env : Env)
    (j : Remote.Invocation) (lo hi : nat)
    (path : string) (body : JsObject) : Prop :=
  match j with
  | Remote.AddMessage c ms =>
      path = "/add/message" /\
      exists objs,
        body = [("user_id", Js.val (env_MEMOS_USER_ID env));
                ("conversation_id",
                 Js.val (Remote.actualConversationId env c));
                ("messages", JArr objs)]
        /\ Forall2 (Spec.stamped rt lo hi) ms objs
  | Remote.SearchMemory q c n =>
      path = "/search/memory" /\
      body = [("query", JStr q);
              ("user_id", Js.val (env_MEMOS_USER_ID env));
              ("conversation_id",
               Js.val (Remote.actualConversationId env c));
              ("memory_limit_number", JNum (Num.or_else n (Num.of_Z 6)))]
  | Remote.GetMessage c =>
      path = "/get/message" /\
      body = [("user_id", Js.val (env_MEMOS_USER_ID env));
              ("conversation_id",
               Js.val (Remote.actualConversationId env c))]
  end.

End Extra.

Module Probe.

(** A runtime whose transport fails every request with [e]. *)
Definition offline (with_fetch : bool) (e : Exn) : Runtime :=
  mk_runtime
    Str.toUpperCase Sample.show_integer Sample.parse_literal
    (fun _ => Sample.noon)
    (if with_fetch then Some (fun _ => inl e) else None)
    (fun url => inr url)
    (fun _ => inl e).

(** A runtime with [fetch] whose responses have [status] and a body that
    cannot be read. *)
Definition unreadable (status : Z) (statusText : string) (e : Exn)
    : Runtime :=
  mk_runtime
    Str.toUpperCase Sample.show_integer Sample.parse_literal
    (fun _ => Sample.noon)
    (Some (fun _ => inr (mk_response status statusText (inl e))))
    (fun url => inr url)
    (fun _ => inl e).

(** A runtime without [fetch] whose [new URL] rejects every address. *)
Definition bad_url : Runtime :=
  mk_runtime
    Str.toUpperCase Sample.show_integer Sample.parse_literal
    (fun _ => Sample.noon)
    None
    (fun _ => inl (Error "Invalid URL"))
    (fun _ => inr (mk_incoming (Some 200) (Some "OK") ["null"])).

(** A runtime without [fetch] whose responses carry no status code. *)
Definition no_status (body : string) : Runtime :=
  mk_runtime
    Str.toUpperCase Sample.show_integer Sample.parse_literal
    (fun _ => Sample.noon)
    None
    (fun url => inr url)
    (fun _ => inr (mk_incoming None None [body])).

(** A [package.json], and a test double for [JSON.parse] that knows it. *)
Definition package : JsObject :=
  [("name", JStr "@memtensor/memos-api-mcp"); ("version", JStr "1.0.0")].

Definition package_text : string :=
  JSON.stringify_object Sample.show_integer package.

Definition reads_package : Runtime :=
  mk_runtime
    Str.toUpperCase Sample.show_integer
    (fun txt => if String.eqb txt package_text then inr (JObj package)
                else Sample.parse_literal txt)
    (fun _ => Sample.noon)
    None
    (fun url => inr url)
    (fun _ => inl (Error "offline")).

(** [String(error)] for the errors of the sample runs. *)
Definition to_String (e : Exn) : string :=
  match e with
  | Error message => "Error: " ++ message
  | NotAnError _ => "[object Object]"
  end.

(** A configuration with a base URL of its own. *)
Definition env_local : Env :=
  mk_env (Some "key") (Some "alice") None (Some "http://localhost:8000") None.

(** A configuration without a user identifier. *)
Definition env_no_user : Env :=
  mk_env (Some "key") (Some "") (Some "bogus") None None.

End Probe.

(* ===================================================================== *)
(** * Reading back what was written

    Decoders for the three kinds of text the adapter produces: the
    hexadecimal digest, the timestamp and the JSON document.  They are no
    part of the adapter; the facts about them say that each text determines
    what it was written from. *)
(* ===================================================================== *)

Module Opt.

(** Go on with the result, if there is one. *)
Definition and_then {A B : Type} (o : option A) (k : A -> option B)
    : option B :=
  match o with
  | Some a => k a
  | None => None
  end.

End Opt.

Module Hex.

(** The value of a lowercase hexadecimal digit. *)
Definition nibble (c : ascii) : option Z :=
  let n := Z.of_nat (nat_of_ascii c) in
  if (48 <=? n) && (n <=? 57) then Some (n - 48)
  else if (97 <=? n) && (n <=? 102) then Some (n - 87)
  else None.



End Hex.

Module Timestamp.

Import Opt.

(** The number a run of decimal digits denotes, continuing from [acc]. *)
Fixpoint digits (acc : Z) (s : string) : option Z :=
  match s with
  | EmptyString => Some acc
  | String c rest =>
      if Dayjs.is_digit c
      then digits (10 * acc + (Z.of_nat (nat_of_ascii c) - 48)) rest
      else None
  end.

(** The first [n] characters, and what follows them. *)
Fixpoint split (n : nat) (s : string) : option (string * string) :=
  match n, s with
  | O, _ => Some (EmptyString, s)
  | Datatypes.S _, EmptyString => None
  | Datatypes.S n', String c rest =>
      match split n' rest with
      | Some (a, b) => Some (String c a, b)
      | None => None
      end
  end.

(** A number of [width] digits at the front. *)
Definition number (width : nat) (s : string) : option (Z * string) :=
  and_then (split width s) (fun '(a, rest) =>
  and_then (digits 0 a) (fun z => Some (z, rest))).

(** The separator [c] at the front. *)
Definition expect (c : ascii) (s : string) : option string :=
  match s with
  | String c' rest => if Ascii.eqb c c' then Some rest else None
  | EmptyString => None
  end.

(** The clock reading a text of the form [YYYY-MM-DD HH:mm:ss.SSS] shows
    ([getMonth] counts from 0, the text from 1). *)
Definition read (s : string) : option JsDate :=
  and_then (number 4 s) (fun '(year, s) =>
  and_then (expect "-" s) (fun s =>
  and_then (number 2 s) (fun '(month, s) =>
  and_then (expect "-" s) (fun s =>
  and_then (number 2 s) (fun '(day, s) =>
  and_then (expect " " s) (fun s =>
  and_then (number 2 s) (fun '(hours, s) =>
  and_then (expect ":" s) (fun s =>
  and_then (number 2 s) (fun '(minutes, s) =>
  and_then (expect ":" s) (fun s =>
  and_then (number 2 s) (fun '(seconds, s) =>
  and_then (expect "." s) (fun s =>
  and_then (number 3 s) (fun '(milliseconds, s) =>
  match s with
  | EmptyString =>
      Some (mk_date year (month - 1) day hours minutes seconds milliseconds)
  | String _ _ => None
  end))))))))))))).

End Timestamp.

Module Wire.

(** The character a two-character escape stands for. *)
Definition unescape (e : ascii) : option ascii :=
  if Ascii.eqb e Str.dquote then Some Str.dquote
  else if Ascii.eqb e Str.backslash then Some Str.backslash
  else if Ascii.eqb e "/" then Some "/"%char
  else if Ascii.eqb e "b" then Some "008"%char
  else if Ascii.eqb e "t" then Some "009"%char
  else if Ascii.eqb e "n" then Some "010"%char
  else if Ascii.eqb e "f" then Some "012"%char
  else if Ascii.eqb e "r" then Some "013"%char
  else None.

(** The character [\u00hl] stands for, within ASCII. *)
Definition unicode (h3 h2 h l : ascii) : option ascii :=
  match Hex.nibble h3, Hex.nibble h2, Hex.nibble h, Hex.nibble l with
  | Some 0, Some 0, Some a, Some b =>
      if a <? 8 then Some (ascii_of_nat (Z.to_nat (16 * a + b))) else None
  | _, _, _, _ => None
  end.

Definition push (c : option ascii) (r : option (string * string))
    : option (string * string) :=
  match c, r with
  | Some x, Some (t, out) => Some (String x t, out)
  | _, _ => None
  end.

(** A JSON string from behind its opening quote: the string it denotes and
    the text behind its closing quote.  A bare control character ends the
    reading, as JSON has none. *)
Fixpoint read_string (s : string) : option (string * string) :=
  match s with
  | EmptyString => None
  | String c rest =>
      if Ascii.eqb c Str.dquote then Some (EmptyString, rest)
      else if Ascii.eqb c Str.backslash then
        match rest with
        | EmptyString => None
        | String e rest1 =>
            if Ascii.eqb e "u" then
              match rest1 with
              | String h3 (String h2 (String h (String l rest5))) =>
                  push (unicode h3 h2 h l) (read_string rest5)
              | _ => None
              end
            else push (unescape e) (read_string rest1)
        end
      else if (nat_of_ascii c <? 32)%nat then None
      else push (Some c) (read_string rest)
  end.

(** Where a number may start, and what may follow a value. *)
Definition number_start (c : ascii) : bool :=
  Dayjs.is_digit c || Ascii.eqb c "-".

Definition boundary (s : string) : bool :=
  match s with
  | EmptyString => true
  | String c _ => Ascii.eqb c "," || Ascii.eqb c "]" || Ascii.eqb c "}"
  end.

(** The nodes of a document: the fuel its reading takes. *)
Fixpoint size (v : JsVal) : nat :=
  match v with
  | JArr items =>
      Datatypes.S
        (fold_right (fun x n => Datatypes.S (size x + n)%nat) O items)
  | JObj members =>
      Datatypes.S
        (fold_right (fun kv n => Datatypes.S (size (snd kv) + n)%nat) O
           members)
  | _ => 1%nat
  end.

(** The numbers of a document. *)
Fixpoint numbers (v : JsVal) : list spec_float :=
  match v with
  | JNum n => [n]
  | JArr items => flat_map numbers items
  | JObj members => flat_map (fun kv => numbers (snd kv)) members
  | _ => []
  end.

Section Read.

(** Reading a number is left to the runtime, as writing one is. *)
Variable Number_read : string -> option (spec_float * string).

(** A JSON text at the front of [s]: the document and what follows it. *)
Fixpoint read (fuel : nat) (s : string) {struct fuel}
    : option (JsVal * string) :=
  match fuel with
  | O => None
  | Datatypes.S fuel' =>
      match s with
      | EmptyString => None
      | String c rest =>
          if number_start c then
            match Number_read s with
            | Some (n, out) => Some (JNum n, out)
            | None => None
            end
          else if Ascii.eqb c Str.dquote then
            match read_string rest with
            | Some (t, out) => Some (JStr t, out)
            | None => None
            end
          else if Ascii.eqb c "[" then
            match rest with
            | EmptyString => None
            | String c' rest' =>
                if Ascii.eqb c' "]" then Some (JArr [], rest')
                else
                  match read_items fuel' rest with
                  | Some (items, out) => Some (JArr items, out)
                  | None => None
                  end
            end
          else if Ascii.eqb c "{" then
            match rest with
            | EmptyString => None
            | String c' rest' =>
                if Ascii.eqb c' "}" then Some (JObj [], rest')
                else
                  match read_members fuel' rest with
                  | Some (members, out) => Some (JObj members, out)
                  | None => None
                  end
            end
          else if Ascii.eqb c "n" then
            match rest with
            | String "u" (String "l" (String "l" out)) => Some (JNull, out)
            | _ => None
            end
          else if Ascii.eqb c "t" then
            match rest with
            | String "r" (String "u" (String "e" out)) =>
                Some (JBool true, out)
            | _ => None
            end
          else if Ascii.eqb c "f" then
            match rest with
            | String "a" (String "l" (String "s" (String "e" out))) =>
                Some (JBool false, out)
            | _ => None
            end
          else None
      end
  end
with read_items (fuel : nat) (s : string) {struct fuel}
    : option (list JsVal * string) :=
  match fuel with
  | O => None
  | Datatypes.S fuel' =>
      match read fuel' s with
      | Some (v, String c rest) =>
          if Ascii.eqb c "," then
            match read_items fuel' rest with
            | Some (vs, out) => Some (v :: vs, out)
            | None => None
            end
          else if Ascii.eqb c "]" then Some ([v], rest)
          else None
      | _ => None
      end
  end
with read_members (fuel : nat) (s : string) {struct fuel}
    : option (JsObject * string) :=
  match fuel with
  | O => None
  | Datatypes.S fuel' =>
      match s with
      | String q rest =>
          if Ascii.eqb q Str.dquote then
            match read_string rest with
            | Some (k, String colon rest1) =>
                if Ascii.eqb colon ":" then
                  match read fuel' rest1 with
                  | Some (v, String c rest2) =>
                      if Ascii.eqb c "," then
                        match read_members fuel' rest2 with
                        | Some (ms, out) => Some ((k, v) :: ms, out)
                        | None => None
                        end
                      else if Ascii.eqb c "}" then Some ([(k, v)], rest2)
                      else None
                  | _ => None
                  end
                else None
            | _ => None
            end
          else None
      | EmptyString => None
      end
  end.

(** The whole of a text read as one document.  A document has fewer nodes
    than its text has characters. *)
Definition parse (s : string) : option JsVal :=
  match read (String.length s) s with
  | Some (v, EmptyString) => Some v
  | _ => None
  end.

End Read.

(** The runtime's reader of numbers reads back what its printer writes for
    [n], wherever a value may stand. *)
Definition readable (Number_toString : spec_float -> string)
    (Number_read : string -> option (spec_float * string))
    (n : spec_float) : Prop :=
  (exists c s, Number_toString n = String c s /\ number_start c = true)
  /\ forall rest, boundary rest = true ->
       Number_read (Number_toString n ++ rest) = Some (n, rest).

End Wire.

(* ===================================================================== *)
(** * The registered tools: parameter schemas and the call of a tool

    [server.tool(name, description, schema, handler)] of [src/index.ts].
    The protocol layer (the MCP SDK) parses the arguments of a call against
    the tool's schema, an object of [zod] types, and calls the handler with
    the parsed arguments; arguments the schema rejects never reach the
    handler.  The [zod] types are read as [zod] 3 defines them: a property
    that is absent counts as [undefined]; [z.string()], [z.number()] and
    [z.boolean()] accept values of that type only, [z.number()] no [NaN];
    [.optional()] accepts [undefined] as well; unknown properties are
    dropped. *)
(* ===================================================================== *)

Module Registry.

Import Opt.

(** [args[k]]. *)
Definition field (args : JsObject) (k : string) : JsVal :=
  match Obj.get k args with
  | Some v => v
  | None => JUndefined
  end.

Definition z_string (v : JsVal) : option string :=
  match v with
  | JStr s => Some s
  | _ => None
  end.

Definition z_number (v : JsVal) : option spec_float :=
  match v with
  | JNum n => if Num.is_nan n then None else Some n
  | _ => None
  end.

Definition z_boolean (v : JsVal) : option bool :=
  match v with
  | JBool b => Some b
  | _ => None
  end.

Definition z_optional {A : Type} (z : JsVal -> option A) (v : JsVal)
    : option (option A) :=
  match v with
  | JUndefined => Some None
  | _ => option_map Some (z v)
  end.

Definition z_array {A : Type} (z : JsVal -> option A) (v : JsVal)
    : option (list A) :=
  match v with
  | JArr items =>
      fold_right (fun x acc =>
                    and_then (z x) (fun a =>
                    and_then acc (fun l => Some (a :: l))))
                 (Some []) items
  | _ => None
  end.

(** [z.object({ role: z.string(), content: z.string(),
    chat_time: z.string().optional() })]. *)
Definition z_message (v : JsVal) : option Message :=
  match v with
  | JObj o =>
      and_then (z_string (field o "role")) (fun role =>
      and_then (z_string (field o "content")) (fun content =>
      and_then (z_optional z_string (field o "chat_time")) (fun chat_time =>
      Some (mk_message role content chat_time))))
  | _ => None
  end.

(** The four schemas, each with the handler call its parsed arguments
    make. *)
Definition add_message (args : JsObject) : option Canonical.Invocation :=
  and_then (z_string (field args "conversation_first_message")) (fun c =>
  and_then (z_array z_message (field args "messages")) (fun messages =>
  Some (Canonical.AddMessage c messages))).

Definition search_memory (args : JsObject) : option Canonical.Invocation :=
  and_then (z_string (field args "query")) (fun query =>
  and_then (z_string (field args "conversation_first_message")) (fun c =>
  and_then (z_number (field args "memory_limit_number")) (fun limit =>
  Some (Canonical.SearchMemory query c (Some limit))))).

Definition delete_memory (args : JsObject) : option Canonical.Invocation :=
  and_then (z_array z_string (field args "memory_ids")) (fun memory_ids =>
  Some (Canonical.DeleteMemory memory_ids)).

Definition add_feedback (args : JsObject) : option Canonical.Invocation :=
  and_then (z_string (field args "conversation_first_message")) (fun c =>
  and_then (z_string (field args "feedback_content")) (fun feedback =>
  and_then (z_optional z_string (field args "agent_id")) (fun agent_id =>
  and_then (z_optional z_string (field args "app_id")) (fun app_id =>
  and_then (z_optional z_string (field args "feedback_time")) (fun time =>
  and_then (z_optional z_boolean (field args "allow_public")) (fun pub =>
  and_then (z_optional (z_array z_string)
              (field args "allow_knowledgebase_ids")) (fun kbs =>
  Some (Canonical.AddFeedback c feedback agent_id app_id time pub
          kbs)))))))).

(** The tools by name. *)
Definition schema (name : string)
    : option (JsObject -> option Canonical.Invocation) :=
  if String.eqb name "add_message" then Some add_message
  else if String.eqb name "search_memory" then Some search_memory
  else if String.eqb name "delete_memory" then Some delete_memory
  else if String.eqb name "add_feedback" then Some add_feedback
  else None.

(** How a call of a tool ends: with the handler's response, with what the
    handler threw, or before the handler with the arguments rejected or the
    tool not found. *)
Inductive Reply : Type :=
| Answered (response : ToolResponse)
| Thrown (e : Exn)
| InvalidArguments
| UnknownTool.

(** [tools/call] with a tool name and its arguments. *)
Definition call (rt : Runtime) (env : Env) (name : string)
    (arguments : JsVal) (w : World) : Reply * World :=
  match schema name with
  | None => (UnknownTool, w)
  | Some parse =>
      match arguments with
      | JObj args =>
          match parse args with
          | None => (InvalidArguments, w)
          | Some i =>
              match Canonical.invoke rt env i w with
              | (inr response, w') => (Answered response, w')
              | (inl e, w') => (Thrown e, w')
              end
          end
      | _ => (InvalidArguments, w)
      end
  end.

End Registry.

(* ===================================================================== *)
(** * The [https] exchange, event by event

    The dispatcher's second transport (index.ts 164-200) listens to the
    request's ["error"], to the response callback and to the response's
    ["data"] and ["end"], and to nothing else; it sets no timeout.  The
    runtime's [https_request] stands for the exchanges that come to an end:
    this module says which those are. *)
(* ===================================================================== *)

Module Https.

Inductive Event : Type :=
| Response (statusCode : option Z) (statusMessage : option string)
| Data (chunk : string)
| Ended
| RequestError (e : Exn).

(** The promise [queryMemos] returns: still pending, with the response
    seen so far and its chunks, or settled for good. *)
Inductive Promise : Type :=
| Pending (response : option (option Z * option string))
          (chunks : list string)
| Settled (outcome : Exn + JsVal).

(** The ["end"] listener. *)
Definition on_end (rt : Runtime) (res : IncomingMessage) : Exn + JsVal :=
  let txt := String.concat "" (data_chunks res) in
  let sc := match statusCode res with
            | Some n => if n =? 0 then 0 else n
            | None => 0
            end in
  if (200 <=? sc) && (sc <? 300) then
    match JSON_parse rt txt with
    | inr v => inr v
    | inl _ => inr (JStr txt)
    end
  else
    inl (Error ("HTTP " ++ Str.of_Z sc ++ " "
                  ++ Js.str (Js.or_else (statusMessage res) (Some ""))
                  ++ ": " ++ txt)).

(** One event.  [resolve] and [reject] do nothing on a settled promise; the
    listeners on the response exist from the callback on. *)
Definition on (rt : Runtime) (p : Promise) (e : Event) : Promise :=
  match p with
  | Settled outcome => Settled outcome
  | Pending response chunks =>
      match e with
      | RequestError error => Settled (inl error)
      | Response sc sm => Pending (Some (sc, sm)) []
      | Data chunk =>
          match response with
          | Some _ => Pending response (chunks ++ [chunk])
          | None => Pending None chunks
          end
      | Ended =>
          match response with
          | Some (sc, sm) => Settled (on_end rt (mk_incoming sc sm chunks))
          | None => Pending None chunks
          end
      end
  end.

Definition exchange (rt : Runtime) (events : list Event) : Promise :=
  fold_left (on rt) events (Pending None []).

(** The events that settle a promise on their own account. *)
Definition settles (e : Event) : bool :=
  match e with
  | Ended | RequestError _ => true
  | Response _ _ | Data _ => false
  end.

End Https.

(* ===================================================================== *)
(** * Vocabulary and runtimes for the facts about texts *)
(* ===================================================================== *)

Module Terms.

(** A message as [add_message] sends it, with the generated timestamp tied
    to the clock: the text is the format of a reading made between the
    readings [lo] and [hi], it has the shape [YYYY-MM-DD HH:mm:ss.SSS], and
    read as a date it is that reading. *)
Definition clock_stamped (rt : Runtime) (lo hi : nat) (m : Message)
    (o : JsVal) : Prop :=
  exists t,
    o = JObj [("role", JStr (role m)); ("content", JStr (content m));
              ("chat_time", JStr t)]
    /\ (forall s, chat_time m = Some s -> s <> "" -> t = s)
    /\ (chat_time m = None ->
        Dayjs.is_chat_time t = true
        /\ exists k, (lo <= k < hi)%nat
                     /\ t = Dayjs.format (now rt k)
                     /\ Timestamp.read t = Some (now rt k)).


(** The document the canonical dispatcher writes for a body. *)
Definition document (body : JsObject) : JsObject :=
  JSON.props (Obj.set "source" (JStr "MCP") body).

(** The arguments of a [search_memory] call. *)
Definition search_arguments (query c : string) (limit : option JsVal)
    : JsObject :=
  ([("query", JStr query); ("conversation_first_message", JStr c)]
   ++ match limit with
      | Some v => [("memory_limit_number", v)]
      | None => []
      end)%list.

End Terms.

Module Bench.

(** A clock that shows another second at each reading. *)
Definition tick (k : nat) : JsDate :=
  mk_date 2026 10 2 12 0 (7 + Z.of_nat (k mod 50)) 0.

Definition ticking : Runtime :=
  mk_runtime
    Str.toUpperCase Sample.show_integer Sample.parse_literal
    tick
    (Some (fun _ => inr (mk_response 200 "OK" (inr "null"))))
    (fun url => inr url)
    (fun _ => inl (Error "offline")).

(** A test double for the reading of numbers: the decimal integers, as
    [Sample.show_integer] writes them. *)
Fixpoint span_digits (s : string) : string * string :=
  match s with
  | EmptyString => (EmptyString, EmptyString)
  | String c rest =>
      if Dayjs.is_digit c
      then let (ds, out) := span_digits rest in (String c ds, out)
      else (EmptyString, s)
  end.

Definition read_natural (s : string) : option (Z * string) :=
  match span_digits s with
  | (EmptyString, _) => None
  | (ds, out) =>
      match Timestamp.digits 0 ds with
      | Some z => Some (z, out)
      | None => None
      end
  end.

Definition read_integer (s : string) : option (spec_float * string) :=
  match s with
  | String "-" rest =>
      match read_natural rest with
      | Some (z, out) => Some (Num.of_Z (- z), out)
      | None => None
      end
  | _ =>
      match read_natural s with
      | Some (z, out) => Some (Num.of_Z z, out)
      | None => None
      end
  end.

End Bench.

(* ===================================================================== *)
(** * Facts: strings *)
(* ===================================================================== *)

Section StringFacts.

Lemma append_nil_r (s : string) : s ++ "" = s.
Proof. induction s as [|c s IH]; simpl; [reflexivity | now rewrite IH]. Qed.

Lemma append_assoc (a b c : string) : (a ++ b) ++ c = a ++ (b ++ c).
Proof. induction a as [|x a IH]; simpl; [reflexivity | now rewrite IH]. Qed.

Lemma length_append (a b : string) :
  String.length (a ++ b) = (String.length a + String.length b)%nat.
Proof. induction a as [|x a IH]; simpl; [reflexivity | now rewrite IH]. Qed.

Lemma append_tail_neq (a b : string) : b <> "" -> a ++ b <> a.
Proof.
  intros Hb Heq. apply (f_equal String.length) in Heq.
  rewrite length_append in Heq. destruct b; [congruence | simpl in Heq; lia].
Qed.

Lemma contains_refl (s : string) : Str.contains s s.
Proof. exists "", "". simpl. now rewrite append_nil_r. Qed.

Lemma contains_app_l (n a b : string) :
  Str.contains n b -> Str.contains n (a ++ b).
Proof.
  intros (pre & post & ->). exists (a ++ pre), post.
  now rewrite append_assoc.
Qed.

Lemma contains_app_r (n a b : string) :
  Str.contains n a -> Str.contains n (a ++ b).
Proof.
  intros (pre & post & ->). exists pre, (post ++ b).
  now rewrite !append_assoc.
Qed.

Lemma prefix_spec (n h : string) :
  String.prefix n h = true <-> exists post, h = n ++ post.
Proof.
  revert h. induction n as [|c n IH]; intros h.
  - split; [intros _; now exists h | intros _; now destruct h].
  - destruct h as [|d h]; simpl.
    + split; [discriminate | intros (post & H); discriminate].
    + destruct (Ascii.ascii_dec c d) as [->|Hne].
      * rewrite IH. split; intros (post & H); exists post; congruence.
      * split; [discriminate | intros (post & H); congruence].
Qed.

Lemma includes_spec (n h : string) :
  Str.includes n h = true <-> Str.contains n h.
Proof.
  induction h as [|d h IH]; cbn [Str.includes].
  - rewrite orb_false_r. split.
    + intros H. apply prefix_spec in H as (post & H).
      exists "", post. exact H.
    + intros (pre & post & H). apply prefix_spec.
      destruct pre; simpl in H; [now exists post | discriminate].
  - rewrite orb_true_iff. split.
    + intros [H | H].
      * apply prefix_spec in H as (post & H). exists "", post. exact H.
      * apply IH in H as (pre & post & H).
        exists (String d pre), post. simpl. now rewrite H.
    + intros (pre & post & H). destruct pre as [|c pre]; simpl in H.
      * left. apply prefix_spec. now exists post.
      * right. apply IH. exists pre, post. congruence.
Qed.

Lemma includes_In (l : list string) (x : string) :
  Js.includes l x = true <-> In x l.
Proof.
  unfold Js.includes. rewrite existsb_exists. split.
  - intros (y & Hy & He). apply String.eqb_eq in He. now subst.
  - intros H. exists x. split; [exact H | apply String.eqb_refl].
Qed.

End StringFacts.

(* ===================================================================== *)
(** * Facts: the digest *)
(* ===================================================================== *)

Section DigestFacts.

(** The test suite of RFC 1321, appendix A.5. *)
Example hashStr_empty : Md5.hashStr "" = "d41d8cd98f00b204e9800998ecf8427e".
Proof. vm_compute. reflexivity. Qed.

Example hashStr_a : Md5.hashStr "a" = "0cc175b9c0f1b6a831c399e269772661".
Proof. vm_compute. reflexivity. Qed.

Example hashStr_abc : Md5.hashStr "abc" = "900150983cd24fb0d6963f7d28e17f72".
Proof. vm_compute. reflexivity. Qed.

Example hashStr_message_digest :
  Md5.hashStr "message digest" = "f96b697d7cb7938d525a2f31aaf161d0".
Proof. vm_compute. reflexivity. Qed.

Example hashStr_alphabet :
  Md5.hashStr "abcdefghijklmnopqrstuvwxyz"
  = "c3fcd3d76192e4007dfb496cca67e13b".
Proof. vm_compute. reflexivity. Qed.

Example hashStr_alnum :
  Md5.hashStr
    "ABCDEFGHIJKLMNOPQRSTUVWXYZabcdefghijklmnopqrstuvwxyz0123456789"
  = "d174ab98d277d9f5a5611c2c9f419d9f".
Proof. vm_compute. reflexivity. Qed.

Example hashStr_digits :
  Md5.hashStr ("1234567890123456789012345678901234567890"
               ++ "1234567890123456789012345678901234567890")
  = "57edf4a22be3c955ac49da2e2107b67a".
Proof. vm_compute. reflexivity. Qed.


Lemma hex_length (st : Md5.state) : String.length (Md5.hex st) = 32%nat.
Proof. reflexivity. Qed.


Lemma stringToMd5_length (input : string) :
  String.length (stringToMd5 input) = 32%nat.
Proof. apply hex_length. Qed.

Lemma stringToMd5_truthy (input : string) :
  Js.falsy (Some (stringToMd5 input)) = false.
Proof.
  pose proof (stringToMd5_length input) as H.
  destruct (stringToMd5 input); [discriminate | reflexivity].
Qed.

End DigestFacts.

(** The digest text spells the sixteen bytes of the digest. *)
Section HexFacts.






End HexFacts.

(* ===================================================================== *)
(** * Facts: the timestamp format *)
(* ===================================================================== *)

Section FormatFacts.

Example format_sample :
  Dayjs.format (mk_date 2026 0 5 9 3 7 42) = "2026-01-05 09:03:07.042".
Proof. vm_compute. reflexivity. Qed.

Lemma matches_app (p1 p2 s1 s2 : string) :
  Dayjs.matches p1 s1 = true -> Dayjs.matches p2 s2 = true ->
  Dayjs.matches (p1 ++ p2) (s1 ++ s2) = true.
Proof.
  revert s1. induction p1 as [|p p1 IH]; intros [|c s1]; simpl;
    try discriminate; [auto|].
  intros H H2. apply andb_true_iff in H as [Hc H1].
  rewrite Hc. simpl. now apply IH.
Qed.

(** A padded field has its shape on a whole range when it has it at every
    point of the range: checked by running the printer. *)
Lemma field_by_enumeration (p : string) (width : nat) (bound : Z) :
  forallb (fun n => Dayjs.matches p (Dayjs.field width (Z.of_nat n)))
          (seq 0 (Z.to_nat bound)) = true ->
  forall z, 0 <= z < bound ->
            Dayjs.matches p (Dayjs.field width z) = true.
Proof.
  intros H z Hz. rewrite forallb_forall in H.
  specialize (H (Z.to_nat z)). rewrite Z2Nat.id in H by lia.
  apply H, in_seq. lia.
Qed.

Lemma field4 (z : Z) :
  0 <= z <= 9999 -> Dayjs.matches "9999" (Dayjs.field 4 z) = true.
Proof.
  intros H. apply (field_by_enumeration "9999" 4 10000); [|lia].
  vm_compute. reflexivity.
Qed.

Lemma field3 (z : Z) :
  0 <= z <= 999 -> Dayjs.matches "999" (Dayjs.field 3 z) = true.
Proof.
  intros H. apply (field_by_enumeration "999" 3 1000); [|lia].
  vm_compute. reflexivity.
Qed.

Lemma field2 (z : Z) :
  0 <= z <= 99 -> Dayjs.matches "99" (Dayjs.field 2 z) = true.
Proof.
  intros H. apply (field_by_enumeration "99" 2 100); [|lia].
  vm_compute. reflexivity.
Qed.

Lemma format_is_chat_time (d : JsDate) :
  Dayjs.in_range d -> Dayjs.is_chat_time (Dayjs.format d) = true.
Proof.
  intros (Hy & Hm & Hd & Hh & Hmin & Hs & Hms).
  unfold Dayjs.is_chat_time, Dayjs.format.
  change "9999-99-99 99:99:99.999"
    with ("9999" ++ "-" ++ "99" ++ "-" ++ "99" ++ " " ++ "99" ++ ":"
          ++ "99" ++ ":" ++ "99" ++ "." ++ "999").
  repeat first
    [ apply matches_app; [first [ apply field4 | apply field3 | apply field2
                                | reflexivity ]; lia |]
    | apply field3; lia ].
Qed.

End FormatFacts.

(** The timestamp text shows the clock reading it was written from. *)
Section TimestampFacts.

Lemma split_append (a rest : string) :
  Timestamp.split (String.length a) (a ++ rest) = Some (a, rest).
Proof.
  induction a as [|c a IH]; [reflexivity|].
  cbn [String.length append Timestamp.split]. now rewrite IH.
Qed.

Lemma field_reads_back (width : nat) (bound : Z) :
  forallb (fun n => let z := Z.of_nat n in
                    (String.length (Dayjs.field width z) =? width)%nat
                    && match Timestamp.digits 0 (Dayjs.field width z) with
                       | Some z' => z' =? z
                       | None => false
                       end)
          (seq 0 (Z.to_nat bound)) = true ->
  forall z rest, 0 <= z < bound ->
    Timestamp.number width (Dayjs.field width z ++ rest) = Some (z, rest).
Proof.
  intros Hall z rest Hz.
  rewrite forallb_forall in Hall.
  specialize (Hall (Z.to_nat z)). rewrite Z2Nat.id in Hall by lia.
  cbv zeta in Hall.
  destruct (andb_prop _ _ (Hall ltac:(apply in_seq; lia))) as [Hlen Hdig].
  apply Nat.eqb_eq in Hlen.
  unfold Timestamp.number. rewrite <- Hlen at 1. rewrite split_append.
  cbn [Opt.and_then].
  destruct (Timestamp.digits 0 (Dayjs.field width z)) as [z'|];
    [|discriminate].
  apply Z.eqb_eq in Hdig. now subst.
Qed.

Lemma number4 (z : Z) (rest : string) :
  0 <= z <= 9999 ->
  Timestamp.number 4 (Dayjs.field 4 z ++ rest) = Some (z, rest).
Proof.
  intros H. apply (field_reads_back 4 10000); [vm_compute; reflexivity | lia].
Qed.

Lemma number3 (z : Z) (rest : string) :
  0 <= z <= 999 ->
  Timestamp.number 3 (Dayjs.field 3 z ++ rest) = Some (z, rest).
Proof.
  intros H. apply (field_reads_back 3 1000); [vm_compute; reflexivity | lia].
Qed.

Lemma number2 (z : Z) (rest : string) :
  0 <= z <= 99 ->
  Timestamp.number 2 (Dayjs.field 2 z ++ rest) = Some (z, rest).
Proof.
  intros H. apply (field_reads_back 2 100); [vm_compute; reflexivity | lia].
Qed.

Lemma format_reads_back (d : JsDate) :
  Dayjs.in_range d -> Timestamp.read (Dayjs.format d) = Some d.
Proof.
  intros (Hy & Hmo & Hd & Hh & Hmi & Hs & Hms).
  destruct d as [y mo dd h mi s ms].
  cbn [getFullYear getMonth getDate getHours getMinutes getSeconds
       getMilliseconds] in *.
  unfold Timestamp.read, Dayjs.format.
  cbn [getFullYear getMonth getDate getHours getMinutes getSeconds
       getMilliseconds].
  rewrite number4 by lia.
  cbn [Opt.and_then append Timestamp.expect Ascii.eqb Bool.eqb].
  do 5 (rewrite number2 by lia;
        cbn [Opt.and_then append Timestamp.expect Ascii.eqb
             Bool.eqb]).
  rewrite <- (append_nil_r (Dayjs.field 3 ms)).
  rewrite number3 by lia. cbn [Opt.and_then].
  do 2 f_equal. lia.
Qed.

End TimestampFacts.

(* ===================================================================== *)
(** * Facts: objects and their JSON documents *)
(* ===================================================================== *)

Section ObjectFacts.

Lemma get_set_same (k : string) (v : JsVal) (o : JsObject) :
  Obj.get k (Obj.set k v o) = Some v.
Proof.
  induction o as [|[k' v'] o IH]; simpl.
  - now rewrite String.eqb_refl.
  - destruct (String.eqb k k') eqn:E; simpl; rewrite E;
      [reflexivity | exact IH].
Qed.

Lemma get_set_other (k k' : string) (v : JsVal) (o : JsObject) :
  k' <> k -> Obj.get k' (Obj.set k v o) = Obj.get k' o.
Proof.
  intros Hne. induction o as [|[k0 v0] o IH]; simpl.
  - apply String.eqb_neq in Hne. now rewrite Hne.
  - destruct (String.eqb k k0) eqn:E; simpl.
    + apply String.eqb_eq in E. subst k0.
      apply String.eqb_neq in Hne. now rewrite Hne.
    + now rewrite IH.
Qed.

Lemma get_None (k : string) (o : JsObject) :
  ~ In k (Obj.keys o) -> Obj.get k o = None.
Proof.
  induction o as [|[k' v'] o IH]; simpl; [reflexivity|].
  intros H. destruct (String.eqb_spec k k') as [->|Hne].
  - exfalso. apply H. now left.
  - apply IH. intros Hin. apply H. now right.
Qed.

Lemma keys_set (k : string) (v : JsVal) (o : JsObject) :
  Obj.keys (Obj.set k v o)
  = if Js.includes (Obj.keys o) k then Obj.keys o
    else (Obj.keys o ++ [k])%list.
Proof.
  unfold Js.includes. induction o as [|[k' v'] o IH]; simpl; [reflexivity|].
  destruct (String.eqb k k') eqn:E; simpl; [reflexivity|].
  rewrite IH. now destruct (existsb (String.eqb k) (Obj.keys o)).
Qed.

Lemma set_wf (k : string) (v : JsVal) (o : JsObject) :
  Obj.wf o -> Obj.wf (Obj.set k v o).
Proof.
  unfold Obj.wf. intros H. rewrite keys_set.
  destruct (Js.includes (Obj.keys o) k) eqn:E; [exact H|].
  assert (Hnot : ~ In k (Obj.keys o)).
  { intros Hin. apply includes_In in Hin. congruence. }
  clear E. induction (Obj.keys o) as [|x l IH]; simpl.
  - constructor; [intros [] | constructor].
  - inversion H as [|? ? Hx Hl]; subst. constructor.
    + rewrite in_app_iff. intros [Hin | [-> | []]]; [auto|].
      apply Hnot. now left.
    + apply IH; [exact Hl|]. intros Hin. apply Hnot. now right.
Qed.

Lemma toJSON_obj (ms : JsObject) :
  JSON.toJSON (JObj ms) = Some (JObj (JSON.props ms)).
Proof. reflexivity. Qed.

Lemma stringify_obj (num : spec_float -> string) (ms : JsObject) :
  JSON.stringify num (JObj ms) = Some (JSON.stringify_object num ms).
Proof. unfold JSON.stringify. now rewrite toJSON_obj. Qed.

(** A control character without a short escape is written [\u00xx], once. *)
Example quote_control_character :
  JSON.quote (String "a" (String "001" (String "b" EmptyString)))
  = String Str.dquote
      ("a" ++ String Str.backslash ("u0001b" ++ String Str.dquote ""))
  /\ JSON.quote (String "031" (String "127" (String "009" EmptyString)))
     = String Str.dquote
         (String Str.backslash
            ("u001f" ++ String "127"
               (String Str.backslash ("t" ++ String Str.dquote "")))).
Proof. split; reflexivity. Qed.

Lemma keys_props (k : string) (o : JsObject) :
  In k (Obj.keys (JSON.props o)) -> In k (Obj.keys o).
Proof.
  induction o as [|[k' x] o IH]; simpl; [auto|].
  destruct (JSON.toJSON x); simpl; intuition.
Qed.

(** A property of the document is the document of the property. *)
Lemma get_props (k : string) (o : JsObject) :
  Obj.wf o ->
  Obj.get k (JSON.props o)
  = match Obj.get k o with
    | Some v => JSON.toJSON v
    | None => None
    end.
Proof.
  unfold Obj.wf. induction o as [|[k' x] o IH]; simpl; [reflexivity|].
  intros H. inversion H as [|? ? Hk Ho]; subst.
  destruct (String.eqb_spec k k') as [->|Hne].
  - destruct (JSON.toJSON x) eqn:E; simpl.
    + now rewrite String.eqb_refl.
    + apply get_None. intros Hin. now apply Hk, keys_props.
  - destruct (JSON.toJSON x) eqn:E; simpl.
    + apply String.eqb_neq in Hne. rewrite Hne. now apply IH.
    + now apply IH.
Qed.

Lemma props_wf (o : JsObject) : Obj.wf o -> Obj.wf (JSON.props o).
Proof.
  unfold Obj.wf. induction o as [|[k x] o IH]; simpl; [auto|].
  intros H. inversion H as [|? ? Hk Ho]; subst.
  destruct (JSON.toJSON x); simpl; [|now apply IH].
  constructor; [|now apply IH].
  intros Hin. now apply Hk, keys_props.
Qed.

End ObjectFacts.

(* ===================================================================== *)
(** * Facts: running the handlers *)
(* ===================================================================== *)

Section RunFacts.

Variable rt : Runtime.
Variable env : Env.

Lemma guarded_no_key (m : string) (rest : M ToolResponse) (w : World) :
  Js.falsy (env_MEMOS_API_KEY env) = true ->
  Spec.guarded rt env m rest w
  = (inr (Spec.failure (not_set "MEMOS_API_KEY")), w).
Proof. intros H. unfold Spec.guarded. rewrite H. reflexivity. Qed.

Lemma guarded_no_user (m : string) (rest : M ToolResponse) (w : World) :
  Js.falsy (env_MEMOS_API_KEY env) = false ->
  Js.falsy (env_MEMOS_USER_ID env) = true ->
  Spec.guarded rt env m rest w
  = (inr (Spec.failure (not_set "MEMOS_USER_ID")), w).
Proof. intros H1 H2. unfold Spec.guarded. rewrite H1, H2. reflexivity. Qed.

Lemma guarded_unknown_channel (m : string) (rest : M ToolResponse)
    (w : World) :
  Js.falsy (env_MEMOS_API_KEY env) = false ->
  Js.falsy (env_MEMOS_USER_ID env) = false ->
  Js.includes Canonical.candidateChannelId (Canonical.MEMOS_CHANNEL_ID rt env)
  = false ->
  Spec.guarded rt env m rest w = (inr (Spec.failure m), w).
Proof.
  intros H1 H2 H3. unfold Spec.guarded. rewrite H1, H2, H3. reflexivity.
Qed.

Lemma guarded_valid (m : string) (rest : M ToolResponse) :
  Spec.valid_config rt env ->
  Spec.guarded rt env m rest = try_catch rest on_error.
Proof.
  intros (H1 & H2 & H3). unfold Spec.guarded. rewrite H1, H2, H3. reflexivity.
Qed.

(** Every canonical handler is its checks followed by its request. *)
Lemma invoke_guarded (i : Canonical.Invocation) :
  exists rest,
    Canonical.invoke rt env i
    = Spec.guarded rt env
        ("Unknown channel: " ++ Canonical.MEMOS_CHANNEL_ID rt env) rest.
Proof. destruct i; eexists; reflexivity. Qed.

(** Stamping the messages cannot throw and only reads the clock. *)
Lemma stamped_widen (lo hi lo' hi' : nat) (m : Message) (o : JsVal) :
  (lo' <= lo)%nat -> (hi <= hi')%nat ->
  Spec.stamped rt lo hi m o -> Spec.stamped rt lo' hi' m o.
Proof.
  intros Hlo Hhi (t & Ho & Hkeep & Hgen). exists t. repeat split; auto.
  intros H. destruct (Hgen H) as (k & Hk & Ht). exists k. split; [lia | auto].
Qed.

Lemma stamp_run (m : Message) (w : World) :
  exists o hi,
    stamp rt m w = (inr o, mk_world hi (queries w) (requests w))
    /\ (clock_reads w <= hi)%nat
    /\ Spec.stamped rt (clock_reads w) hi m o.
Proof.
  unfold stamp, generateChatTime, bind, read_clock, ret.
  destruct w as [k qs rs]; simpl.
  destruct (chat_time m) as [[|c s]|] eqn:E; simpl.
  - eexists _, _. split; [reflexivity|]. split; [lia|].
    eexists. split; [reflexivity|]. split.
    + intros s' H Hs. congruence.
    + intros _. exists k. split; [lia | reflexivity].
  - eexists _, _. split; [reflexivity|]. split; [lia|].
    eexists. split; [reflexivity|]. split.
    + intros s' H _. congruence.
    + intros [H | H]; congruence.
  - eexists _, _. split; [reflexivity|]. split; [lia|].
    eexists. split; [reflexivity|]. split.
    + intros s' H. congruence.
    + intros _. exists k. split; [lia | reflexivity].
Qed.

Lemma mapM_stamp_run (ms : list Message) (w : World) :
  exists objs hi,
    mapM (stamp rt) ms w = (inr objs, mk_world hi (queries w) (requests w))
    /\ (clock_reads w <= hi)%nat
    /\ Forall2 (Spec.stamped rt (clock_reads w) hi) ms objs.
Proof.
  revert w. induction ms as [|m ms IH]; intros w.
  - exists [], (clock_reads w). destruct w. simpl. repeat split; auto.
  - destruct (stamp_run m w) as (o & mid & Ho & Hmid & Hst).
    destruct (IH (mk_world mid (queries w) (requests w)))
      as (objs & hi & Hobjs & Hhi & Hall).
    simpl in Hobjs, Hhi, Hall.
    exists (o :: objs), hi. cbn [mapM]. unfold bind at 1. rewrite Ho.
    unfold bind at 1. rewrite Hobjs. split; [reflexivity|].
    split; [lia|]. constructor.
    + eapply stamped_widen; [| |exact Hst]; lia.
    + eapply Forall2_impl; [|exact Hall].
      intros a b H. eapply stamped_widen; [| |exact H]; lia.
Qed.

(** What one call of the dispatcher leaves in the trace. *)
Lemma queryMemos_trace (path : string) (body : JsObject)
    (apiKey : option string) (w : World) :
  let w' := snd (Canonical.queryMemos rt env path body apiKey w) in
  clock_reads w' = clock_reads w
  /\ queries w' = (queries w ++ [mk_query path body apiKey])%list
  /\ exists sent, requests w' = (requests w ++ sent)%list
       /\ Forall (fun r => req_body r = Canonical.payload_of rt body) sent.
Proof.
  assert (Hone : forall (rs : list Request) r,
             req_body r = Canonical.payload_of rt body ->
             exists sent, (rs ++ [r])%list = (rs ++ sent)%list
               /\ Forall (fun r => req_body r = Canonical.payload_of rt body)
                         sent).
  { intros rs r Hr. exists [r]. split; [reflexivity | now constructor]. }
  assert (Hnone : forall rs : list Request,
             exists sent, rs = (rs ++ sent)%list
               /\ Forall (fun r => req_body r = Canonical.payload_of rt body)
                         sent).
  { intros rs. exists []. split; [now rewrite app_nil_r | constructor]. }
  unfold Canonical.queryMemos, res_json, res_text, try_catch, bind,
    log_query, log_request, settle, throw, ret. simpl.
  destruct (global_fetch rt) as [f|]; simpl.
  - match goal with |- context [f ?r] => destruct (f r) as [e|res] end; simpl.
    + repeat split; auto.
    + destruct (negb (res_ok res)); simpl.
      * destruct (res_body res); simpl; auto.
      * destruct (res_body res) as [e|txt]; simpl; auto.
        destruct (JSON_parse rt txt); simpl; auto.
  - destruct (new_URL rt (MEMOS_BASE_URL env ++ path)) as [e|u]; simpl.
    + repeat split; auto.
    + match goal with
      | |- context [https_request rt ?r] =>
          destruct (https_request rt r) as [e|res]
      end; simpl.
      * repeat split; auto.
      * match goal with
        | |- context [if ?c then _ else _] => destruct c
        end; simpl.
        -- destruct (JSON_parse rt _); simpl; repeat split; auto.
        -- repeat split; auto.
Qed.

Lemma try_catch_bind_run {A B : Type} (c : M A) (k : A -> M B)
    (h : Exn -> M B) (w w1 : World) (a : A) :
  c w = (inr a, w1) ->
  try_catch (x <- c ;; k x) h w = try_catch (k a) h w1.
Proof. intros H. unfold try_catch, bind. now rewrite H. Qed.

(** The tail of a handler: a call, then [return] or [catch]. *)
Lemma call_then_respond (call : M JsVal) (w : World) :
  try_catch (data <- call ;; on_success rt data) on_error w
  = (inr match fst (call w) with
         | inr data => mk_tool_response
                         (JSON.stringify (Number_toString rt) data)
                         (Some data) false
         | inl e => mk_tool_response
                      (Some ("Error: " ++ match e with
                                          | Error message => message
                                          | NotAnError _ => "Unknown error"
                                          end)) None true
         end,
     snd (call w)).
Proof.
  unfold try_catch, bind, on_success, on_error, ret.
  destruct (call w) as [[e|data] w']; reflexivity.
Qed.

End RunFacts.

(* ===================================================================== *)
(** * Facts: the canonical handlers under a valid configuration *)
(* ===================================================================== *)

Section CanonicalRuns.

Variable rt : Runtime.
Variable env : Env.
Hypothesis valid : Spec.valid_config rt env.

(** A valid invocation is one call of the dispatcher, made after the clock
    readings of the handler, followed by [return] or [catch]. *)
Lemma invoke_valid (i : Canonical.Invocation) (w : World) :
  exists hi path body,
    (clock_reads w <= hi)%nat
    /\ Spec.body_shape rt env i (clock_reads w) hi path body
    /\ Canonical.invoke rt env i w
       = try_catch
           (data <- Canonical.queryMemos rt env path body
                      (env_MEMOS_API_KEY env) ;;
            on_success rt data)
           on_error (mk_world hi (queries w) (requests w)).
Proof.
  destruct valid as (H1 & H2 & H3).
  destruct i as [c ms | q c n | ids | c f a p t pub kbs];
    cbn [Canonical.invoke].
  - destruct (mapM_stamp_run rt ms w) as (objs & hi & Hrun & Hhi & Hall).
    exists hi, "/add/message". eexists. split; [exact Hhi|].
    split; [split; [reflexivity|]; exists objs;
            split; [reflexivity | exact Hall]|].
    unfold Canonical.add_message. rewrite H1, H2, H3.
    unfold try_catch, throw_if, negb.
    unfold bind at 1 2 3 4. unfold ret at 1 2 3.
    rewrite Hrun. reflexivity.
  - exists (clock_reads w), "/search/memory". eexists.
    split; [lia|]. split; [split; reflexivity|].
    unfold Canonical.search_memory. rewrite H1, H2, H3.
    destruct w; reflexivity.
  - exists (clock_reads w), "/delete/memory". eexists.
    split; [lia|]. split; [split; reflexivity|].
    unfold Canonical.delete_memory. rewrite H1, H2, H3.
    destruct w; reflexivity.
  - exists (clock_reads w), "/add/feedback". eexists.
    split; [lia|]. split; [split; reflexivity|].
    unfold Canonical.add_feedback. rewrite H1, H2, H3.
    destruct w; reflexivity.
Qed.

(** The bodies the handlers build have distinct keys. *)
Lemma body_shape_wf (i : Canonical.Invocation) (lo hi : nat)
    (path : string) (body : JsObject) :
  Spec.body_shape rt env i lo hi path body -> Obj.wf body.
Proof.
  unfold Obj.wf.
  destruct i as [c ms | q c n | ids | c f a p t pub kbs];
    cbn [Spec.body_shape].
  - intros (_ & objs & -> & _).
    repeat constructor; cbn; intuition discriminate.
  - intros (_ & ->). repeat constructor; cbn; intuition discriminate.
  - intros (_ & ->). repeat constructor; cbn; intuition discriminate.
  - intros (_ & ->). repeat constructor; cbn; intuition discriminate.
Qed.

(** Its trace: one more query, the clock where the handler left it. *)
Lemma invoke_valid_trace (i : Canonical.Invocation) (w : World) :
  exists hi path body,
    (clock_reads w <= hi)%nat
    /\ Spec.body_shape rt env i (clock_reads w) hi path body
    /\ clock_reads (snd (Canonical.invoke rt env i w)) = hi
    /\ queries (snd (Canonical.invoke rt env i w))
       = (queries w ++ [mk_query path body (env_MEMOS_API_KEY env)])%list
    /\ fst (Canonical.invoke rt env i w)
       = fst (try_catch
                (data <- Canonical.queryMemos rt env path body
                           (env_MEMOS_API_KEY env) ;;
                 on_success rt data)
                on_error (mk_world hi (queries w) (requests w))).
Proof.
  destruct (invoke_valid i w) as (hi & path & body & Hhi & Hshape & Hrun).
  exists hi, path, body. rewrite Hrun, call_then_respond. cbn [fst snd].
  destruct (queryMemos_trace rt env path body (env_MEMOS_API_KEY env)
              (mk_world hi (queries w) (requests w))) as (Hc & Hq & _).
  cbn [clock_reads queries] in Hc, Hq. auto.
Qed.

End CanonicalRuns.

(* ===================================================================== *)
(** * Facts: what the dispatcher returns *)
(* ===================================================================== *)

Section DispatcherFacts.

Variable rt : Runtime.
Variable env : Env.

Lemma not_2xx (status : Z) :
  ~ Spec.is_2xx status -> (200 <=? status) && (status <=? 299) = false.
Proof.
  unfold Spec.is_2xx. intros H.
  destruct (Z.leb_spec 200 status), (Z.leb_spec status 299);
    simpl; try reflexivity. lia.
Qed.

Lemma status_or_zero (status : Z) :
  (if status =? 0 then 0 else status) = status.
Proof. destruct (Z.eqb_spec status 0); congruence. Qed.

Lemma message_or_empty (m : string) :
  Js.str (Js.or_else (Some m) (Some "")) = m.
Proof. now destruct m. Qed.

(** A non-success answer makes the dispatcher throw the status line and
    the body, on either transport. *)
Lemma queryMemos_remote_error (path : string) (body : JsObject)
    (apiKey : option string) (w : World) (status : Z)
    (statusText txt : string) :
  Spec.answers rt status statusText txt -> ~ Spec.is_2xx status ->
  fst (Canonical.queryMemos rt env path body apiKey w)
  = inl (Error ("HTTP " ++ Str.of_Z status ++ " " ++ statusText
                  ++ ": " ++ txt)).
Proof.
  unfold Spec.answers. intros Hans Hbad.
  unfold Canonical.queryMemos, res_json, res_text, try_catch, bind,
    log_query, log_request, settle, throw, ret.
  destruct (global_fetch rt) as [f|].
  - rewrite Hans. unfold res_ok. cbn [res_status res_statusText res_body].
    rewrite (not_2xx _ Hbad). reflexivity.
  - destruct Hans as (Hurl & Hres).
    destruct (Hurl (MEMOS_BASE_URL env ++ path)) as (u & ->).
    match goal with
    | |- context [https_request rt ?r] =>
        destruct (Hres r) as (chunks & -> & Hcat)
    end.
    cbn [statusCode statusMessage data_chunks]. rewrite Hcat.
    rewrite status_or_zero, message_or_empty.
    assert (Hrange : (200 <=? status) && (status <? 300) = false).
    { rewrite <- (not_2xx _ Hbad). f_equal.
      destruct (Z.ltb_spec status 300), (Z.leb_spec status 299);
        try reflexivity; lia. }
    rewrite Hrange. reflexivity.
Qed.

(** A malformed success body on the [https] transport: the literal text. *)
Lemma queryMemos_https_lenient (path : string) (body : JsObject)
    (apiKey : option string) (w : World) (status : Z)
    (statusText txt : string) :
  global_fetch rt = None ->
  Spec.answers rt status statusText txt -> Spec.is_2xx status ->
  Spec.malformed rt txt ->
  fst (Canonical.queryMemos rt env path body apiKey w) = inr (JStr txt).
Proof.
  unfold Spec.answers, Spec.malformed, Spec.is_2xx.
  intros Hnone Hans Hok (e & He). rewrite Hnone in Hans.
  unfold Canonical.queryMemos, res_json, res_text, try_catch, bind,
    log_query, log_request, settle, throw, ret.
  rewrite Hnone. destruct Hans as (Hurl & Hres).
  destruct (Hurl (MEMOS_BASE_URL env ++ path)) as (u & ->).
  match goal with
  | |- context [https_request rt ?r] =>
      destruct (Hres r) as (chunks & -> & Hcat)
  end.
  cbn [statusCode statusMessage data_chunks]. rewrite Hcat.
  rewrite status_or_zero.
  assert (Hrange : (200 <=? status) && (status <? 300) = true).
  { apply andb_true_iff. split; [apply Z.leb_le | apply Z.ltb_lt]; lia. }
  rewrite Hrange, He. reflexivity.
Qed.

(** The same body on the [fetch] transport: the parse error is thrown. *)
Lemma queryMemos_fetch_strict (path : string) (body : JsObject)
    (apiKey : option string) (w : World) (status : Z)
    (statusText txt : string) (e : Exn) :
  global_fetch rt <> None ->
  Spec.answers rt status statusText txt -> Spec.is_2xx status ->
  JSON_parse rt txt = inl e ->
  fst (Canonical.queryMemos rt env path body apiKey w) = inl e.
Proof.
  unfold Spec.answers, Spec.is_2xx. intros Hsome Hans Hok He.
  unfold Canonical.queryMemos, res_json, res_text, try_catch, bind,
    log_query, log_request, settle, throw, ret.
  destruct (global_fetch rt) as [f|]; [|congruence].
  rewrite Hans. unfold res_ok. cbn [res_status res_statusText res_body].
  assert (Hrange : (200 <=? status) && (status <=? 299) = true).
  { apply andb_true_iff. split; apply Z.leb_le; lia. }
  rewrite Hrange, He. reflexivity.
Qed.

End DispatcherFacts.

(* ===================================================================== *)
(** * The claims of the specification *)
(* ===================================================================== *)

(** C1.  Without an API key (unset or empty), every tool invocation of the
    canonical adapter returns an error-flagged response whose text contains
    [MEMOS_API_KEY], and leaves the trace as it found it: [queryMemos] is
    not called and no request is sent. *)
Theorem no_api_key_fails_before_any_call :
  forall (rt : Runtime) (env : Env) (i : Canonical.Invocation) (w : World),
    Js.falsy (env_MEMOS_API_KEY env) = true ->
    exists text,
      fst (Canonical.invoke rt env i w)
      = inr (mk_tool_response (Some text) None true)
      /\ Str.contains "MEMOS_API_KEY" text
      /\ queries (snd (Canonical.invoke rt env i w)) = queries w
      /\ requests (snd (Canonical.invoke rt env i w)) = requests w.
Proof.
  intros rt env i w H.
  destruct (invoke_guarded rt env i) as (rest & ->).
  rewrite guarded_no_key by exact H.
  eexists. split; [reflexivity|]. split; [|split; reflexivity].
  exists "Error: ",
    " is not set, please set it in the environment variables or mcp.json file".
  reflexivity.
Qed.

Lemma no_api_key_witness :
  exists text,
    fst (Canonical.invoke (Sample.server true 200 "OK" "null")
           Sample.env_no_key (Canonical.DeleteMemory ["m1"]) fresh)
    = inr (mk_tool_response (Some text) None true)
    /\ Str.contains "MEMOS_API_KEY" text
    /\ queries (snd (Canonical.invoke (Sample.server true 200 "OK" "null")
                       Sample.env_no_key (Canonical.DeleteMemory ["m1"])
                       fresh)) = []
    /\ requests (snd (Canonical.invoke (Sample.server true 200 "OK" "null")
                        Sample.env_no_key (Canonical.DeleteMemory ["m1"])
                        fresh)) = [].
Proof.
  apply (no_api_key_fails_before_any_call
           (Sample.server true 200 "OK" "null") Sample.env_no_key
           (Canonical.DeleteMemory ["m1"]) fresh).
  reflexivity.
Defined.


(** C9.  [stringToMd5] always returns 32 characters, so the fallback
    [|| process.env.MEMOS_CONVERSATION_ID] is never taken: the derived
    identifier is the digest whatever that variable holds, and every query
    a conversation-scoped handler makes carries the digest as its
    [conversation_id] ([delete_memory], not conversation-scoped, carries
    none). *)
Theorem conversation_id_fallback_is_dead :
  (forall input, String.length (stringToMd5 input) = 32%nat)
  /\ (forall env c,
         Canonical.actualConversationId env c
         = Some (stringToMd5 (Js.str (env_MEMOS_USER_ID env) ++ Str.nl ++ c)))
  /\ (forall rt env i,
         Forall (fun q =>
                   Obj.get "conversation_id" (q_body q)
                   = option_map
                       (fun c => JStr (stringToMd5
                                         (Js.str (env_MEMOS_USER_ID env)
                                            ++ Str.nl ++ c)))
                       (Spec.first_message i))
                (queries (snd (Canonical.invoke rt env i fresh)))).
Proof.
  assert (Hdead : forall env c,
             Canonical.actualConversationId env c
             = Some (stringToMd5
                       (Js.str (env_MEMOS_USER_ID env) ++ Str.nl ++ c))).
  { intros env c. unfold Canonical.actualConversationId, Js.or_else.
    now rewrite stringToMd5_truthy. }
  split; [exact stringToMd5_length|]. split; [exact Hdead|].
  intros rt env i.
  destruct (Js.falsy (env_MEMOS_API_KEY env)) eqn:H1;
    [destruct (invoke_guarded rt env i) as (rest & ->);
     rewrite guarded_no_key by exact H1; constructor|].
  destruct (Js.falsy (env_MEMOS_USER_ID env)) eqn:H2;
    [destruct (invoke_guarded rt env i) as (rest & ->);
     rewrite guarded_no_user by assumption; constructor|].
  destruct (Js.includes Canonical.candidateChannelId
              (Canonical.MEMOS_CHANNEL_ID rt env)) eqn:H3;
    [|destruct (invoke_guarded rt env i) as (rest & ->);
      rewrite guarded_unknown_channel by assumption; constructor].
  destruct (invoke_valid_trace rt env (conj H1 (conj H2 H3)) i fresh)
    as (hi & path & body & _ & Hshape & _ & Hq & _).
  rewrite Hq. cbn [queries app]. constructor; [|constructor].
  cbn [q_body].
  destruct i as [c ms | q c n | ids | c f a p t pub kbs];
    cbn [Spec.body_shape Spec.first_message option_map] in *.
  - destruct Hshape as (_ & objs & -> & _). rewrite Hdead. reflexivity.
  - destruct Hshape as (_ & ->). rewrite Hdead. reflexivity.
  - destruct Hshape as (_ & ->). reflexivity.
  - destruct Hshape as (_ & ->). rewrite Hdead. reflexivity.
Qed.

(** C5, as the code has it.  Channel validation succeeds exactly when the
    upper-cased tag is on the allow-list; for a tag off the list, every tool
    invocation made with the API key and the user identifier configured
    returns an error that reads [Unknown channel: TAG] and leaves the trace
    as it found it.  (Without one of the two, the invocation already fails
    on that earlier check.)  The same holds in the remote variant, with its
    longer list. *)
Theorem channel_validation :
  forall (rt : Runtime) (env : Env) (tag : string)
         (i : Canonical.Invocation) (j : Remote.Invocation) (w : World),
    env_MEMOS_CHANNEL env = Some tag ->
    ((Js.includes Canonical.candidateChannelId
        (Canonical.MEMOS_CHANNEL_ID rt env) = true
      <-> In (toUpperCase rt tag) Canonical.candidateChannelId)
     /\ (~ In (toUpperCase rt tag) Canonical.candidateChannelId ->
         Js.falsy (env_MEMOS_API_KEY env) = false ->
         Js.falsy (env_MEMOS_USER_ID env) = false ->
         Canonical.invoke rt env i w
         = (inr (Spec.failure ("Unknown channel: " ++ toUpperCase rt tag)),
            w)))
    /\ ((Js.includes Remote.candidateChannelId (Remote.MEMOS_CHANNEL rt env)
         = true
         <-> In (toUpperCase rt tag) Remote.candidateChannelId)
        /\ (~ In (toUpperCase rt tag) Remote.candidateChannelId ->
            Js.falsy (env_MEMOS_API_KEY env) = false ->
            Js.falsy (env_MEMOS_USER_ID env) = false ->
            exists text,
              Remote.invoke rt env j w = (inr (Spec.failure text), w)
              /\ Str.contains ("Unknown channel: " ++ toUpperCase rt tag)
                              text)).
Proof.
  intros rt env tag i j w Htag.
  assert (Hch : Canonical.MEMOS_CHANNEL_ID rt env = toUpperCase rt tag).
  { unfold Canonical.MEMOS_CHANNEL_ID. now rewrite Htag. }
  assert (Hrch : Remote.MEMOS_CHANNEL rt env = toUpperCase rt tag).
  { unfold Remote.MEMOS_CHANNEL. now rewrite Htag. }
  split; split.
  - rewrite Hch. apply includes_In.
  - intros Hout H1 H2.
    destruct (invoke_guarded rt env i) as (rest & ->).
    rewrite guarded_unknown_channel; [now rewrite Hch | assumption..|].
    destruct (Js.includes _ _) eqn:E; [|reflexivity].
    rewrite Hch in E. apply includes_In in E. contradiction.
  - rewrite Hrch. apply includes_In.
  - intros Hout H1 H2.
    assert (H3 : Js.includes Remote.candidateChannelId
                   (Remote.MEMOS_CHANNEL rt env) = false).
    { destruct (Js.includes _ _) eqn:E; [|reflexivity].
      rewrite Hrch in E. apply includes_In in E. contradiction. }
    destruct j as [c ms | q c n | c]; cbn [Remote.invoke];
      unfold Remote.add_message, Remote.search_memory, Remote.get_message;
      rewrite H1, H2, H3, Hrch;
      (eexists; split; [reflexivity|]).
    + exists "", (", candidates: "
                  ++ String.concat ", " Remote.candidateChannelId).
      now rewrite append_assoc.
    + apply contains_refl.
    + apply contains_refl.
Qed.

Lemma channel_validation_witness :
  Canonical.invoke (Sample.server true 200 "OK" "null") Sample.env_bogus
    (Canonical.SearchMemory "tea" "hello" None) fresh
  = (inr (Spec.failure "Unknown channel: BOGUS"), fresh)
  /\ exists text,
       Remote.invoke (Sample.server true 200 "OK" "null") Sample.env_bogus
         (Remote.GetMessage "hello") fresh
       = (inr (Spec.failure text), fresh)
       /\ Str.contains "Unknown channel: BOGUS" text.
Proof.
  destruct (channel_validation (Sample.server true 200 "OK" "null")
              Sample.env_bogus "bogus"
              (Canonical.SearchMemory "tea" "hello" None)
              (Remote.GetMessage "hello") fresh eq_refl)
    as ((_ & Hc) & (_ & Hr)).
  split.
  - apply Hc; [simpl; intuition discriminate | reflexivity | reflexivity].
  - apply Hr; [simpl; intuition discriminate | reflexivity | reflexivity].
Defined.

(** Against C5 as worded: a tag off the list, no API key; the invocation
    fails, but on the key, and its error names neither the unknown channel
    nor the tag. *)
Lemma unknown_channel_unreported_without_key :
  ~ In (toUpperCase (Sample.server true 200 "OK" "null") "bogus")
       Canonical.candidateChannelId
  /\ exists text,
       fst (Canonical.invoke (Sample.server true 200 "OK" "null")
              Sample.env_no_key (Canonical.DeleteMemory ["m1"]) fresh)
       = inr (mk_tool_response (Some text) None true)
       /\ ~ Str.contains "Unknown channel" text
       /\ ~ Str.contains "BOGUS" text.
Proof.
  split; [simpl; intuition discriminate|].
  eexists. split; [reflexivity|].
  split; intros H; apply includes_spec in H; vm_compute in H; discriminate.
Qed.

Section RemoteRuns.

Variable rt : Runtime.
Variable env : Env.

Lemma remote_queryMemos_queries (path : string) (body : JsObject)
    (apiKey : option string) (source : string) (w : World) :
  queries (snd (Remote.queryMemos rt env path body apiKey source w))
  = (queries w ++ [mk_query path body apiKey])%list.
Proof.
  unfold Remote.queryMemos, res_json, res_text, try_catch, bind,
    log_query, log_request, settle, throw, ret. simpl.
  destruct (global_fetch rt) as [f|]; simpl; [|reflexivity].
  match goal with |- context [f ?r] => destruct (f r) as [e|res] end; simpl;
    [reflexivity|].
  destruct (negb (res_ok res)); simpl.
  - now destruct (res_body res).
  - destruct (res_body res) as [e|txt]; simpl; [reflexivity|].
    now destruct (JSON_parse rt txt).
Qed.

(** A valid invocation of the remote variant makes one query, whose
    [user_id] is the configured one. *)
Lemma remote_invoke_valid_trace (j : Remote.Invocation) (w : World) :
  Spec.valid_remote_config rt env ->
  exists path body,
    queries (snd (Remote.invoke rt env j w))
    = (queries w ++ [mk_query path body (env_MEMOS_API_KEY env)])%list
    /\ Obj.get "user_id" body = Some (Js.val (env_MEMOS_USER_ID env)).
Proof.
  intros (H1 & H2 & H3).
  destruct j as [c ms | q c n | c]; cbn [Remote.invoke].
  - destruct (mapM_stamp_run rt ms w) as (objs & hi & Hrun & Hhi & Hall).
    exists "/add/message". eexists.
    unfold Remote.add_message. rewrite H1, H2, H3.
    unfold throw_if, negb.
    change (try_catch _ on_error w)
      with (try_catch
              (newMessages <- mapM (stamp rt) ms ;;
               data <- Remote.queryMemos rt env "/add/message"
                         [("user_id", Js.val (env_MEMOS_USER_ID env));
                          ("conversation_id",
                           Js.val (Remote.actualConversationId env c));
                          ("messages", JArr newMessages)]
                         (env_MEMOS_API_KEY env)
                         (Remote.MEMOS_CHANNEL rt env) ;;
               on_success rt data)
              on_error w).
    rewrite (try_catch_bind_run _ _ _ _ _ _ Hrun), call_then_respond.
    cbn [snd]. rewrite remote_queryMemos_queries. split; reflexivity.
  - exists "/search/memory". eexists.
    unfold Remote.search_memory. rewrite H1, H2, H3.
    unfold throw_if, negb.
    change (try_catch _ on_error w)
      with (try_catch
              (data <- Remote.queryMemos rt env "/search/memory"
                         [("query", JStr q);
                          ("user_id", Js.val (env_MEMOS_USER_ID env));
                          ("conversation_id",
                           Js.val (Remote.actualConversationId env c));
                          ("memory_limit_number",
                           JNum (Num.or_else n (Num.of_Z 6)))]
                         (env_MEMOS_API_KEY env)
                         (Remote.MEMOS_CHANNEL rt env) ;;
               on_success rt data)
              on_error w).
    rewrite call_then_respond. cbn [snd].
    rewrite remote_queryMemos_queries. split; reflexivity.
  - exists "/get/message". eexists.
    unfold Remote.get_message. rewrite H1, H2, H3.
    unfold throw_if, negb.
    change (try_catch _ on_error w)
      with (try_catch
              (data <- Remote.queryMemos rt env "/get/message"
                         [("user_id", Js.val (env_MEMOS_USER_ID env));
                          ("conversation_id",
                           Js.val (Remote.actualConversationId env c))]
                         (env_MEMOS_API_KEY env)
                         (Remote.MEMOS_CHANNEL rt env) ;;
               on_success rt data)
              on_error w).
    rewrite call_then_respond. cbn [snd].
    rewrite remote_queryMemos_queries. split; reflexivity.
Qed.

End RemoteRuns.

(** C3, as the code has it.  In the canonical adapter, every tool invocation
    that passes the configuration checks hands the dispatcher a body whose
    user identifier is the configured one when the channel tag is [MEMOS]
    (the tag taken when none is configured), and the configured one followed
    by [-] and the channel tag otherwise; the two never coincide.  In the
    remote variant the body always carries the configured identifier. *)
Theorem effective_user_id_by_variant :
  forall (rt : Runtime) (env : Env) (i : Canonical.Invocation)
         (j : Remote.Invocation) (w : World) (uid : string),
    env_MEMOS_USER_ID env = Some uid ->
    (env_MEMOS_CHANNEL env = None ->
     Canonical.MEMOS_CHANNEL_ID rt env = "MEMOS")
    /\ (Spec.valid_config rt env ->
        exists q,
          queries (snd (Canonical.invoke rt env i w))
          = (queries w ++ [q])%list
          /\ Spec.user_id_of (q_body q)
             = Some (JStr (Spec.effective_user_id "MEMOS" uid
                             (Canonical.MEMOS_CHANNEL_ID rt env)))
          /\ (Spec.effective_user_id "MEMOS" uid
                (Canonical.MEMOS_CHANNEL_ID rt env) = uid
              <-> Canonical.MEMOS_CHANNEL_ID rt env = "MEMOS"))
    /\ (Spec.valid_remote_config rt env ->
        exists q,
          queries (snd (Remote.invoke rt env j w)) = (queries w ++ [q])%list
          /\ Spec.user_id_of (q_body q) = Some (JStr uid)).
Proof.
  intros rt env i j w uid Huid.
  split; [intros H; unfold Canonical.MEMOS_CHANNEL_ID; now rewrite H|].
  split.
  - intros Hvalid.
    destruct (invoke_valid_trace rt env Hvalid i w)
      as (hi & path & body & _ & Hshape & _ & Hq & _).
    eexists. split; [exact Hq|]. cbn [q_body].
    assert (Hid : Js.val (Canonical.actualUserId rt env)
                  = JStr (Spec.effective_user_id "MEMOS" uid
                            (Canonical.MEMOS_CHANNEL_ID rt env))).
    { unfold Canonical.actualUserId, Spec.effective_user_id.
      rewrite Huid. now destruct (String.eqb _ "MEMOS"). }
    split.
    + destruct i as [c ms | q c n | ids | c f a p t pub kbs];
        cbn [Spec.body_shape] in Hshape.
      * destruct Hshape as (_ & objs & -> & _). rewrite <- Hid. reflexivity.
      * destruct Hshape as (_ & ->). rewrite <- Hid. reflexivity.
      * destruct Hshape as (_ & ->). rewrite <- Hid. reflexivity.
      * destruct Hshape as (_ & ->). rewrite <- Hid. reflexivity.
    + unfold Spec.effective_user_id.
      destruct (String.eqb_spec (Canonical.MEMOS_CHANNEL_ID rt env) "MEMOS")
        as [He|Hne]; [tauto|].
      split; [|contradiction]. intros H. exfalso.
      revert H. apply append_tail_neq. discriminate.
  - intros Hvalid.
    destruct (remote_invoke_valid_trace rt env j w Hvalid)
      as (path & body & Hq & Hget).
    eexists. split; [exact Hq|]. cbn [q_body].
    unfold Spec.user_id_of. rewrite Hget, Huid. reflexivity.
Qed.

Lemma effective_user_id_witness :
  (exists q,
      queries (snd (Canonical.invoke (Sample.server true 200 "OK" "null")
                      Sample.env_mcpso (Canonical.DeleteMemory ["m1"]) fresh))
      = [q]
      /\ Spec.user_id_of (q_body q) = Some (JStr "alice-MCPSO"))
  /\ (exists q,
         queries (snd (Remote.invoke (Sample.server true 200 "OK" "null")
                         Sample.env_mcpso (Remote.GetMessage "hello") fresh))
         = [q]
         /\ Spec.user_id_of (q_body q) = Some (JStr "alice")).
Proof.
  destruct (effective_user_id_by_variant
              (Sample.server true 200 "OK" "null") Sample.env_mcpso
              (Canonical.DeleteMemory ["m1"]) (Remote.GetMessage "hello")
              fresh "alice" eq_refl) as (_ & Hc & Hr).
  split.
  - destruct Hc as (q & Hq & Hid & _).
    + repeat split; reflexivity.
    + exists q. split; [exact Hq | exact Hid].
  - destruct Hr as (q & Hq & Hid).
    + repeat split; reflexivity.
    + exists q. split; [exact Hq | exact Hid].
Defined.

(** Against C3 as worded: the remote variant on the channel [MCPSO], which
    is not its default, still sends the bare configured identifier. *)
Lemma remote_sends_bare_user_id :
  let rt := Sample.server true 200 "OK" "null" in
  let default_channel :=
    Remote.MEMOS_CHANNEL rt (mk_env None None None None None) in
  Remote.MEMOS_CHANNEL rt Sample.env_mcpso = "MCPSO"
  /\ default_channel <> "MCPSO"
  /\ exists q,
       queries (snd (Remote.invoke rt Sample.env_mcpso
                       (Remote.AddMessage "hello" []) fresh)) = [q]
       /\ Spec.user_id_of (q_body q) = Some (JStr "alice")
       /\ Spec.user_id_of (q_body q)
          <> Some (JStr (Spec.effective_user_id default_channel
                           "alice" "MCPSO")).
Proof.
  cbv zeta. split; [reflexivity|]. split; [discriminate|].
  eexists. split; [vm_compute; reflexivity|].
  split; [reflexivity | discriminate].
Qed.

Section JsonValueFacts.

(** Induction on values that reaches inside arrays and objects. *)
Lemma JsVal_nested_ind (P : JsVal -> Prop) :
  P JUndefined -> P JNull -> (forall b, P (JBool b)) ->
  (forall n, P (JNum n)) -> (forall s, P (JStr s)) ->
  (forall items, Forall P items -> P (JArr items)) ->
  (forall members, Forall (fun kv => P (snd kv)) members -> P (JObj members)) ->
  forall v, P v.
Proof.
  intros Hu Hn Hb Hnum Hs Harr Hobj. fix IH 1. intros [| |b|n|s|items|members].
  - exact Hu.
  - exact Hn.
  - apply Hb.
  - apply Hnum.
  - apply Hs.
  - apply Harr. induction items as [|x items IHl]; constructor;
      [apply IH | exact IHl].
  - apply Hobj. induction members as [|[k x] members IHl]; constructor;
      [apply IH | exact IHl].
Qed.

(** JSON writes a JSON value as itself. *)
Lemma toJSON_json_value (v : JsVal) :
  Spec.json_value v = true -> JSON.toJSON v = Some v.
Proof.
  induction v as [| |b|n|s|items IH|members IH] using JsVal_nested_ind;
    cbn [Spec.json_value JSON.toJSON]; try discriminate; try reflexivity.
  - intros ->. reflexivity.
  - intros H. do 2 f_equal.
    induction IH as [|x items Hx _ IHl]; [reflexivity|].
    cbn [forallb] in H. apply andb_true_iff in H as [H1 H2].
    cbn [map]. now rewrite (Hx H1), (IHl H2).
  - intros H. do 2 f_equal.
    induction IH as [|[k x] members Hx _ IHl]; [reflexivity|].
    apply andb_true_iff in H as [H1 H2]. cbn [snd] in Hx.
    now rewrite (Hx H1), (IHl H2).
Qed.

End JsonValueFacts.

(* ===================================================================== *)
(** * Facts: a written document reads back *)
(* ===================================================================== *)

Section WireFacts.

Lemma read_string_escape (c : ascii) (text t out : string) :
  Wire.read_string text = Some (t, out) ->
  Wire.read_string (JSON.escape c text) = Some (String c t, out).
Proof.
  intros H.
  destruct c as [[] [] [] [] [] [] [] []]; simpl; rewrite H; reflexivity.
Qed.

Lemma read_string_escapes (s rest : string) :
  Wire.read_string
    (fold_right JSON.escape (String Str.dquote rest) (Str.to_list s))
  = Some (s, rest).
Proof.
  induction s as [|c s IH]; [reflexivity|].
  cbn [Str.to_list fold_right]. now apply read_string_escape.
Qed.

Lemma escape_append (c : ascii) (t rest : string) :
  JSON.escape c t ++ rest = JSON.escape c (t ++ rest).
Proof.
  unfold JSON.escape.
  repeat match goal with
         | |- context [if ?b then _ else _] => destruct b
         end; reflexivity.
Qed.

Lemma quote_append (s rest : string) :
  JSON.quote s ++ rest
  = String Str.dquote
      (fold_right JSON.escape (String Str.dquote rest) (Str.to_list s)).
Proof.
  unfold JSON.quote. cbn [append]. f_equal.
  induction (Str.to_list s) as [|c l IH]; [reflexivity|].
  cbn [fold_right]. now rewrite escape_append, IH.
Qed.

Variable show : spec_float -> string.
Variable reader : string -> option (spec_float * string).

Lemma number_start_not_close (c : ascii) :
  Wire.number_start c = true -> Ascii.eqb c "]" = false.
Proof.
  destruct c as [[] [] [] [] [] [] [] []]; try discriminate; reflexivity.
Qed.

Lemma json_value_arr (x : JsVal) (l : list JsVal) :
  Spec.json_value (JArr (x :: l)) = true ->
  Spec.json_value x = true /\ Spec.json_value (JArr l) = true.
Proof. cbn [Spec.json_value forallb]. apply andb_true_iff. Qed.

Lemma json_value_obj (k : string) (x : JsVal) (ms : JsObject) :
  Spec.json_value (JObj ((k, x) :: ms)) = true ->
  Spec.json_value x = true /\ Spec.json_value (JObj ms) = true.
Proof. cbn [Spec.json_value]. apply andb_true_iff. Qed.

Lemma write_head (v : JsVal) :
  Spec.json_value v = true ->
  Forall (Wire.readable show reader) (Wire.numbers v) ->
  exists c s, JSON.write show v = String c s /\ Ascii.eqb c "]" = false.
Proof.
  destruct v as [| |[]|n|s|items|members]; cbn [Spec.json_value JSON.write];
    intros Hv Hn; try discriminate; try (eexists _, _; split; reflexivity).
  rewrite Hv. inversion Hn as [|? ? [(c & s & Hs & Hc) _] _]; subst.
  exists c, s. split; [exact Hs|]. now apply number_start_not_close.
Qed.

Lemma read_number (n : spec_float) (fuel : nat) (rest : string) :
  Wire.readable show reader n -> Wire.boundary rest = true ->
  Wire.read reader (S fuel) (show n ++ rest) = Some (JNum n, rest).
Proof.
  intros [(c & s & Hs & Hc) Hread] Hrest.
  specialize (Hread rest Hrest). rewrite Hs in *.
  cbn [append Wire.read]. cbn [append] in Hread. now rewrite Hc, Hread.
Qed.

Lemma read_array (fuel : nat) (c : ascii) (t : string) :
  Ascii.eqb c "]" = false ->
  Wire.read reader (S fuel) (String "[" (String c t))
  = match Wire.read_items reader fuel (String c t) with
    | Some (items, out) => Some (JArr items, out)
    | None => None
    end.
Proof. intros H. simpl. now rewrite H. Qed.

Lemma read_object (fuel : nat) (t : string) :
  Wire.read reader (S fuel) (String "{" (String Str.dquote t))
  = match Wire.read_members reader fuel (String Str.dquote t) with
    | Some (members, out) => Some (JObj members, out)
    | None => None
    end.
Proof. reflexivity. Qed.

Lemma read_items_last (fuel : nat) (text out : string) (v : JsVal) :
  Wire.read reader fuel text = Some (v, "]" ++ out) ->
  Wire.read_items reader (S fuel) text = Some ([v], out).
Proof. intros H. cbn [Wire.read_items]. now rewrite H. Qed.

Lemma read_items_more (fuel : nat) (text more out : string) (v : JsVal)
    (vs : list JsVal) :
  Wire.read reader fuel text = Some (v, "," ++ more) ->
  Wire.read_items reader fuel more = Some (vs, out) ->
  Wire.read_items reader (S fuel) text = Some (v :: vs, out).
Proof. intros H1 H2. cbn [Wire.read_items]. rewrite H1. cbn. now rewrite H2. Qed.

Lemma read_members_last (fuel : nat) (k text out : string) (v : JsVal) :
  Wire.read reader fuel text = Some (v, "}" ++ out) ->
  Wire.read_members reader (S fuel) (JSON.quote k ++ ":" ++ text)
  = Some ([(k, v)], out).
Proof.
  intros H. rewrite quote_append. cbn [Wire.read_members].
  change (Ascii.eqb Str.dquote Str.dquote) with true. cbv iota.
  rewrite read_string_escapes. cbn [append]. 
  change (Ascii.eqb ":" ":") with true. cbv iota. now rewrite H.
Qed.

Lemma read_members_more (fuel : nat) (k text more out : string) (v : JsVal)
    (ms : JsObject) :
  Wire.read reader fuel text = Some (v, "," ++ more) ->
  Wire.read_members reader fuel more = Some (ms, out) ->
  Wire.read_members reader (S fuel) (JSON.quote k ++ ":" ++ text)
  = Some ((k, v) :: ms, out).
Proof.
  intros H1 H2. rewrite quote_append. cbn [Wire.read_members].
  change (Ascii.eqb Str.dquote Str.dquote) with true. cbv iota.
  rewrite read_string_escapes. cbn [append]. 
  change (Ascii.eqb ":" ":") with true. cbv iota. rewrite H1. cbn. now rewrite H2.
Qed.

Lemma read_write (v : JsVal) :
  Spec.json_value v = true ->
  Forall (Wire.readable show reader) (Wire.numbers v) ->
  forall fuel rest,
    (Wire.size v <= fuel)%nat -> Wire.boundary rest = true ->
    Wire.read reader fuel (JSON.write show v ++ rest) = Some (v, rest).
Proof.
  induction v as [| |b|n|s|items IH|members IH] using JsVal_nested_ind;
    intros Hv Hn fuel rest Hfuel Hrest;
    (destruct fuel as [|fuel]; [cbn in Hfuel; lia|]).
  - discriminate.
  - reflexivity.
  - now destruct b.
  - cbn [Spec.json_value] in Hv. cbn [JSON.write]. rewrite Hv.
    inversion Hn; subst. now apply read_number.
  - cbn [JSON.write]. rewrite quote_append. cbn [Wire.read].
    change (Wire.number_start Str.dquote) with false.
    change (Ascii.eqb Str.dquote Str.dquote) with true. cbv iota.
    now rewrite read_string_escapes.
  - cbn [JSON.write]. rewrite !append_assoc. cbn [append].
    destruct items as [|x items]; [reflexivity|].
    assert (Hitems : forall f out,
               (fold_right (fun x n => S (Wire.size x + n)) O (x :: items)
                <= f)%nat ->
               Wire.read_items reader f
                 (String.concat "," (map (JSON.write show) (x :: items))
                    ++ "]" ++ out)
               = Some (x :: items, out)).
    { clear fuel rest Hfuel Hrest.
      revert x IH Hv Hn.
      induction items as [|y items IHl]; intros x IH Hv Hn f out Hf;
        apply json_value_arr in Hv as [Hx Hl];
        cbn [Wire.numbers flat_map] in Hn; apply Forall_app in Hn as [Hnx Hnl];
        inversion IH as [|? ? Px Pl]; subst;
        (destruct f as [|f]; [cbn in Hf; lia|]); cbn [fold_right] in Hf.
      - cbn [map String.concat]. apply read_items_last.
        apply Px; try assumption; try reflexivity. lia.
      - change (String.concat "," (map (JSON.write show) (x :: y :: items)))
          with (JSON.write show x ++ "," ++
                String.concat "," (map (JSON.write show) (y :: items))).
        rewrite !append_assoc.
        eapply read_items_more.
        + apply Px; try assumption; try reflexivity. lia.
        + apply IHl; try assumption. cbn [fold_right]. lia. }
    destruct (write_head x) as (c & t & Hhead & Hc).
    { now apply json_value_arr in Hv. }
    { cbn [Wire.numbers flat_map] in Hn. now apply Forall_app in Hn. }
    assert (Hh : exists t',
               String.concat "," (map (JSON.write show) (x :: items))
                 ++ "]" ++ rest = String c t').
    { destruct items; cbn [String.concat map]; rewrite Hhead;
        cbn [append]; eauto. }
    destruct Hh as (t' & Hh).
    specialize (Hitems fuel rest). cbn [append] in Hh, Hitems.
    rewrite Hh in *.
    rewrite (read_array _ _ _ Hc), Hitems; [reflexivity|].
    cbn [Wire.size] in Hfuel. lia.
  - cbn [JSON.write]. rewrite !append_assoc. cbn [append].
    destruct members as [|[k x] members]; [reflexivity|].
    assert (Hmembers : forall f out,
               (fold_right (fun kv n => S (Wire.size (snd kv) + n)) O
                  ((k, x) :: members) <= f)%nat ->
               Wire.read_members reader f
                 (String.concat ","
                    (map (fun kv => JSON.quote (fst kv) ++ ":"
                                    ++ JSON.write show (snd kv))
                       ((k, x) :: members))
                    ++ "}" ++ out)
               = Some ((k, x) :: members, out)).
    { clear fuel rest Hfuel Hrest.
      revert k x IH Hv Hn.
      induction members as [|[k' y] members IHl]; intros k x IH Hv Hn f out Hf;
        apply json_value_obj in Hv as [Hx Hl];
        cbn [Wire.numbers flat_map snd] in Hn;
        apply Forall_app in Hn as [Hnx Hnl];
        inversion IH as [|? ? Px Pl]; subst; cbn [snd] in Px;
        (destruct f as [|f]; [cbn in Hf; lia|]); cbn [fold_right snd] in Hf.
      - cbn [map String.concat fst snd]. rewrite !append_assoc.
        apply read_members_last.
        apply Px; try assumption; try reflexivity. lia.
      - change (String.concat ","
                  (map (fun kv => JSON.quote (fst kv) ++ ":"
                                  ++ JSON.write show (snd kv))
                     ((k, x) :: (k', y) :: members)))
          with ((JSON.quote k ++ ":" ++ JSON.write show x) ++ "," ++
                String.concat ","
                  (map (fun kv => JSON.quote (fst kv) ++ ":"
                                  ++ JSON.write show (snd kv))
                     ((k', y) :: members))).
        rewrite !append_assoc.
        eapply read_members_more.
        + apply Px; try assumption; try reflexivity. lia.
        + apply IHl; try assumption. cbn [fold_right snd]. lia. }
    assert (Hh : exists t',
               String.concat ","
                 (map (fun kv => JSON.quote (fst kv) ++ ":"
                                 ++ JSON.write show (snd kv))
                    ((k, x) :: members))
                 ++ "}" ++ rest = String Str.dquote t').
    { destruct members; cbn [String.concat map fst]; unfold JSON.quote;
        cbn [append]; eauto. }
    destruct Hh as (t' & Hh).
    specialize (Hmembers fuel rest). cbn [append] in Hh, Hmembers.
    rewrite Hh in *.
    rewrite read_object, Hmembers; [reflexivity|].
    cbn [Wire.size] in Hfuel. lia.
Qed.

End WireFacts.

Section DocFacts.

Lemma toJSON_clean (v j : JsVal) :
  JSON.toJSON v = Some j ->
  Spec.json_value j = true /\ incl (Wire.numbers j) (Wire.numbers v).
Proof.
  revert j.
  induction v as [| |b|n|s|items IH|members IH] using JsVal_nested_ind;
    intros j; cbn [JSON.toJSON]; intros [= <-];
    try (split; [reflexivity | apply incl_refl]).
  - destruct (Num.is_finite n) eqn:E; cbn [Spec.json_value Wire.numbers].
    + split; [exact E | apply incl_refl].
    + split; [reflexivity | intros x []].
  - induction IH as [|x items Hx _ IHl];
      [split; [reflexivity | apply incl_refl]|].
    destruct IHl as [Hl1 Hl2].
    cbn [map Spec.json_value forallb Wire.numbers flat_map] in *.
    destruct (JSON.toJSON x) as [jx|] eqn:Ex.
    + destruct (Hx jx eq_refl) as [H1 H2]. rewrite H1, Hl1.
      split; [reflexivity|]. now apply incl_app_app.
    + cbn [Spec.json_value Wire.numbers]. rewrite Hl1.
      split; [reflexivity|]. cbn [app]. now apply incl_appr.
  - induction IH as [|[k x] members Hx _ IHl];
      [split; [reflexivity | apply incl_refl]|].
    destruct IHl as [Hl1 Hl2]. cbn [snd] in Hx.
    cbn [Wire.numbers flat_map snd] in *.
    destruct (JSON.toJSON x) as [jx|] eqn:Ex.
    + destruct (Hx jx eq_refl) as [H1 H2].
      cbn [Spec.json_value] in *. rewrite H1, Hl1.
      split; [reflexivity|]. cbn [flat_map snd]. now apply incl_app_app.
    + split; [exact Hl1|]. now apply incl_appr.
Qed.

Lemma props_clean (o : JsObject) :
  Spec.json_value (JObj (JSON.props o)) = true
  /\ incl (Wire.numbers (JObj (JSON.props o))) (Wire.numbers (JObj o)).
Proof. apply toJSON_clean, toJSON_obj. Qed.

Variable show : spec_float -> string.
Variable reader : string -> option (spec_float * string).

(** A document has no more nodes than its text has characters. *)
Lemma quote_length (s : string) : (1 <= String.length (JSON.quote s))%nat.
Proof. unfold JSON.quote. cbn [String.length]. lia. Qed.

Lemma size_le_length (v : JsVal) :
  Spec.json_value v = true ->
  Forall (Wire.readable show reader) (Wire.numbers v) ->
  (Wire.size v <= String.length (JSON.write show v))%nat.
Proof.
  induction v as [| |b|n|s|items IH|members IH] using JsVal_nested_ind;
    intros Hv Hn.
  - discriminate.
  - cbn. lia.
  - destruct b; cbn; lia.
  - cbn [Spec.json_value] in Hv. cbn [JSON.write Wire.size]. rewrite Hv.
    inversion Hn as [|? ? [(c & s & Hs & _) _] _]; subst.
    rewrite Hs. cbn [String.length]. lia.
  - cbn [JSON.write Wire.size]. apply quote_length.
  - cbn [JSON.write Wire.size]. rewrite !length_append.
    cbn [String.length].
    enough (fold_right (fun x n => S (Wire.size x + n)) O items
            <= S (String.length
                    (String.concat "," (map (JSON.write show) items))))%nat
      by lia.
    revert Hv Hn.
    induction IH as [|x items Hx Hall IHl]; intros Hv Hn;
      [cbn; lia|].
    apply json_value_arr in Hv as [Hvx Hvl].
    cbn [Wire.numbers flat_map] in Hn. apply Forall_app in Hn as [Hnx Hnl].
    specialize (Hx Hvx Hnx). specialize (IHl Hvl Hnl).
    cbn [fold_right map].
    destruct items as [|y items].
    + cbn [String.concat fold_right map]. lia.
    + change (String.concat "," (JSON.write show x
                                   :: map (JSON.write show) (y :: items)))
        with (JSON.write show x ++ "," ++
              String.concat "," (map (JSON.write show) (y :: items))).
      rewrite !length_append. cbn [String.length]. lia.
  - cbn [JSON.write Wire.size]. rewrite !length_append.
    cbn [String.length].
    enough (fold_right (fun kv n => S (Wire.size (snd kv) + n)) O members
            <= S (String.length
                    (String.concat ","
                       (map (fun kv => JSON.quote (fst kv) ++ ":"
                                       ++ JSON.write show (snd kv))
                          members))))%nat
      by lia.
    revert Hv Hn.
    induction IH as [|[k x] members Hx Hall IHl]; intros Hv Hn;
      [cbn; lia|].
    apply json_value_obj in Hv as [Hvx Hvl].
    cbn [Wire.numbers flat_map snd] in Hn.
    apply Forall_app in Hn as [Hnx Hnl].
    cbn [snd] in Hx.
    specialize (Hx Hvx Hnx). specialize (IHl Hvl Hnl).
    cbn [fold_right map fst snd].
    pose proof (quote_length k) as Hk.
    destruct members as [|[k' y] members].
    + cbn [String.concat fold_right map]. rewrite !length_append.
      cbn [String.length]. lia.
    + change (String.concat ","
                ((JSON.quote k ++ ":" ++ JSON.write show x)
                   :: map (fun kv => JSON.quote (fst kv) ++ ":"
                                     ++ JSON.write show (snd kv))
                        ((k', y) :: members)))
        with ((JSON.quote k ++ ":" ++ JSON.write show x) ++ "," ++
              String.concat ","
                (map (fun kv => JSON.quote (fst kv) ++ ":"
                                ++ JSON.write show (snd kv))
                   ((k', y) :: members))).
      rewrite !length_append. cbn [String.length]. lia.
Qed.

Lemma written_reads_back (doc : JsVal) :
  Spec.json_value doc = true ->
  Forall (Wire.readable show reader) (Wire.numbers doc) ->
  Wire.parse reader (JSON.write show doc) = Some doc.
Proof.
  intros Hv Hn. unfold Wire.parse.
  pose proof (size_le_length doc Hv Hn) as Hfuel.
  rewrite <- (append_nil_r (JSON.write show doc)) at 2.
  now rewrite (read_write show reader _ Hv Hn _ "" Hfuel eq_refl).
Qed.

End DocFacts.

(** The sample reader reads the sample printer's [6]. *)
Lemma six_reads_back :
  Wire.readable Sample.show_integer Bench.read_integer (Num.of_Z 6).
Proof.
  split; [exists "6"%char, ""; split; reflexivity|].
  intros [|c rest] Hrest; [reflexivity|].
  destruct c as [[] [] [] [] [] [] [] []]; try discriminate Hrest;
    reflexivity.
Qed.

(** C6.  When the configuration is valid and the remote endpoint answers
    with a status outside 200..299, every tool invocation returns (it does
    not throw) an error-flagged response whose text contains the status
    code and the text of the response body. *)
Theorem remote_error_is_reported :
  forall (rt : Runtime) (env : Env) (i : Canonical.Invocation) (w : World)
         (status : Z) (statusText body : string),
    Spec.valid_config rt env ->
    Spec.answers rt status statusText body ->
    ~ Spec.is_2xx status ->
    exists text,
      fst (Canonical.invoke rt env i w)
      = inr (mk_tool_response (Some text) None true)
      /\ Str.contains (Str.of_Z status) text
      /\ Str.contains body text.
Proof.
  intros rt env i w status statusText body Hvalid Hans Hbad.
  destruct (invoke_valid_trace rt env Hvalid i w)
    as (hi & path & qbody & _ & _ & _ & _ & ->).
  rewrite call_then_respond. cbn [fst].
  rewrite (queryMemos_remote_error rt env path qbody _ _ status statusText
             body Hans Hbad).
  eexists. split; [reflexivity|]. split.
  - apply (contains_app_l _ "Error: "), (contains_app_l _ "HTTP ").
    apply contains_app_r, contains_refl.
  - apply (contains_app_l _ "Error: "), (contains_app_l _ "HTTP ").
    apply contains_app_l, (contains_app_l _ " "), contains_app_l.
    apply (contains_app_l _ ": "), contains_refl.
Qed.

Lemma remote_error_witness :
  exists text,
    fst (Canonical.invoke
           (Sample.server true 500 "Internal Server Error" "server error")
           Sample.env (Canonical.SearchMemory "tea" "hello" None) fresh)
    = inr (mk_tool_response (Some text) None true)
    /\ Str.contains "500" text
    /\ Str.contains "server error" text.
Proof.
  apply (remote_error_is_reported
           (Sample.server true 500 "Internal Server Error" "server error")
           Sample.env (Canonical.SearchMemory "tea" "hello" None) fresh
           500 "Internal Server Error" "server error").
  - repeat split; reflexivity.
  - intros req. reflexivity.
  - unfold Spec.is_2xx. lia.
Defined.

(** C8.  A valid [add_message] invocation hands the dispatcher a body whose
    [messages] are the given ones in order, each with its [role] and
    [content].  A message without [chat_time] gets a text of the shape
    [YYYY-MM-DD HH:mm:ss.SSS] that shows the clock as it was read while the
    invocation was handled: read as a date, the text is that reading, to
    the millisecond.  A message with a non-empty [chat_time] keeps it.
    (The clock is taken to show a four-digit year.) *)
Theorem missing_chat_time_is_generated :
  forall (rt : Runtime) (env : Env) (c : string) (ms : list Message)
         (w : World),
    Spec.valid_config rt env ->
    (forall k, Dayjs.in_range (now rt k)) ->
    exists body objs,
      queries (snd (Canonical.add_message rt env c ms w))
      = (queries w
           ++ [mk_query "/add/message" body (env_MEMOS_API_KEY env)])%list
      /\ Obj.get "messages" body = Some (JArr objs)
      /\ Forall2 (Terms.clock_stamped rt (clock_reads w)
                    (clock_reads (snd (Canonical.add_message rt env c ms w))))
                 ms objs.
Proof.
  intros rt env c ms w Hvalid Hclock.
  destruct (invoke_valid_trace rt env Hvalid (Canonical.AddMessage c ms) w)
    as (hi & path & body & _ & (-> & objs & -> & Hall) & Hhi & Hq & _).
  cbn [Canonical.invoke] in Hhi, Hq.
  eexists _, objs. split; [exact Hq|]. split; [reflexivity|].
  rewrite Hhi. eapply Forall2_impl; [|exact Hall].
  intros m o (t & Ho & Hkeep & Hgen). exists t.
  split; [exact Ho|]. split; [exact Hkeep|].
  intros Hnone. destruct (Hgen (or_introl Hnone)) as (k & Hk & ->).
  split; [apply format_is_chat_time, Hclock|]. exists k.
  split; [exact Hk|]. split; [reflexivity|].
  apply format_reads_back, Hclock.
Qed.

Lemma missing_chat_time_witness :
  exists body,
    queries (snd (Canonical.add_message Bench.ticking Sample.env "hello"
                    [mk_message "assistant" "hi"
                       (Some "2026-01-01 08:00:00.000");
                     mk_message "user" "hello" None]
                    fresh))
    = [mk_query "/add/message" body (Some "key")]
    /\ Obj.get "messages" body
       = Some (JArr [JObj [("role", JStr "assistant"); ("content", JStr "hi");
                           ("chat_time", JStr "2026-01-01 08:00:00.000")];
                     JObj [("role", JStr "user"); ("content", JStr "hello");
                           ("chat_time", JStr "2026-11-02 12:00:07.000")]])
    /\ Timestamp.read "2026-11-02 12:00:07.000" = Some (Bench.tick 0).
Proof.
  destruct (missing_chat_time_is_generated
              Bench.ticking Sample.env "hello"
              [mk_message "assistant" "hi"
                 (Some "2026-01-01 08:00:00.000");
               mk_message "user" "hello" None]
              fresh)
    as (body & objs & Hq & Hget & Hall).
  - repeat split; reflexivity.
  - intros k. unfold Dayjs.in_range, Bench.ticking, Bench.tick.
    cbn [now getFullYear getMonth getDate getHours getMinutes getSeconds
         getMilliseconds].
    pose proof (Nat.mod_upper_bound k 50 ltac:(discriminate)). lia.
  - inversion Hall as [|m1 o1 ms1 os1 H1 Hrest]; subst.
    inversion Hrest as [|m2 o2 ms2 os2 H2 Hnil]; subst.
    inversion Hnil; subst.
    destruct H1 as (t1 & -> & Hkeep & _), H2 as (t2 & -> & _ & Hgen).
    destruct (Hgen eq_refl) as (_ & k & Hk & -> & Hread).
    assert (k = 0%nat) as -> by (vm_compute in Hk; lia).
    exists body. split; [exact Hq|]. split; [|exact Hread].
    rewrite Hget. now rewrite (Hkeep _ eq_refl) by discriminate.
Defined.

(** C10 as it is worded fails on an ordinary call: [add_feedback] without
    its optional parameters hands the dispatcher a body with [agent_id]
    (and four more) [undefined], and the payload on the wire has no such
    field: it is the text of the four remaining properties. *)
Lemma omitted_option_is_not_in_the_payload :
  let rt := Sample.server true 200 "OK" "null" in
  let run := Canonical.invoke rt Sample.env
               (Canonical.AddFeedback "hello" "no sugar"
                  None None None None None) fresh in
  exists body r,
    queries (snd run) = [mk_query "/add/feedback" body (Some "key")]
    /\ requests (snd run) = [r]
    /\ req_body r = Canonical.payload_of rt body
    /\ Obj.get "agent_id" body = Some JUndefined
    /\ Str.includes "agent_id" (req_body r) = false
    /\ forall reader,
         Wire.parse reader (req_body r)
         = Some (JObj [("user_id", JStr "alice");
                       ("conversation_id",
                        JStr "436fbc0a382e7fcf5ed6d8ca07772ac0");
                       ("feedback_content", JStr "no sugar");
                       ("source", JStr "MCP")]).
Proof.
  cbv zeta. eexists _, _.
  split; [vm_compute; reflexivity|]. split; [vm_compute; reflexivity|].
  split; [vm_compute; reflexivity|]. split; [reflexivity|].
  split; [vm_compute; reflexivity|].
  intros reader. vm_compute. reflexivity.
Qed.

(** C10, amended.  The payload the canonical dispatcher sends is the JSON
    text of one document: the text is what [JSON.stringify] writes for the
    document, and reading the text gives the document back.  In that
    document [source] is the string [MCP], whether or not the body had a
    [source] of its own.  Every other property of the body whose value JSON
    can carry is there unchanged; a property whose value is [undefined] is
    left out; a number that is not finite is there as [null]; and nothing
    is there that the body did not have.  Every request of the call carries
    exactly that payload. *)
Theorem payload_source_is_MCP :
  forall (rt : Runtime) (env : Env) (path : string) (body : JsObject)
         (apiKey : option string) (w : World),
    Obj.wf body ->
    let doc := Terms.document body in
    Canonical.payload_of rt body = JSON.write (Number_toString rt) (JObj doc)
    /\ (forall reader,
          Forall (Wire.readable (Number_toString rt) reader)
                 (Wire.numbers (JObj doc)) ->
          Wire.parse reader (Canonical.payload_of rt body) = Some (JObj doc))
    /\ Obj.wf doc
    /\ Obj.get "source" doc = Some (JStr "MCP")
    /\ (forall k v, k <> "source" -> Obj.get k body = Some v ->
           Spec.json_value v = true -> Obj.get k doc = Some v)
    /\ (forall k, k <> "source" -> Obj.get k body = Some JUndefined ->
           Obj.get k doc = None)
    /\ (forall k n, k <> "source" -> Obj.get k body = Some (JNum n) ->
           Num.is_finite n = false -> Obj.get k doc = Some JNull)
    /\ (forall k, k <> "source" -> Obj.get k body = None ->
           Obj.get k doc = None)
    /\ (forall k, k <> "source" ->
           Obj.get k doc = match Obj.get k body with
                           | Some v => JSON.toJSON v
                           | None => None
                           end)
    /\ exists sent,
         requests (snd (Canonical.queryMemos rt env path body apiKey w))
         = (requests w ++ sent)%list
         /\ Forall (fun r => req_body r = Canonical.payload_of rt body) sent.
Proof.
  intros rt env path body apiKey w Hwf. cbv zeta. unfold Terms.document.
  assert (Hwf' : Obj.wf (Obj.set "source" (JStr "MCP") body))
    by now apply set_wf.
  assert (Hother : forall k, k <> "source" ->
            Obj.get k (JSON.props (Obj.set "source" (JStr "MCP") body))
            = match Obj.get k body with
              | Some v => JSON.toJSON v
              | None => None
              end).
  { intros k Hk. rewrite get_props by exact Hwf'.
    now rewrite get_set_other. }
  split; [reflexivity|]. split; [|split; [now apply props_wf|]].
  { intros reader Hn.
    destruct (props_clean (Obj.set "source" (JStr "MCP") body)) as [Hv _].
    now apply written_reads_back. }
  split; [|split; [|split; [|split; [|split; [|split]]]]].
  - rewrite get_props by exact Hwf'. now rewrite get_set_same.
  - intros k v Hk Hget Hv. rewrite (Hother k Hk), Hget.
    now apply toJSON_json_value.
  - intros k Hk Hget. now rewrite (Hother k Hk), Hget.
  - intros k n Hk Hget Hfin. rewrite (Hother k Hk), Hget.
    cbn [JSON.toJSON]. now rewrite Hfin.
  - intros k Hk Hget. now rewrite (Hother k Hk), Hget.
  - exact Hother.
  - destruct (queryMemos_trace rt env path body apiKey w)
      as (_ & _ & sent & Hsent & Hall).
    exists sent. split; [exact Hsent | exact Hall].
Qed.

Lemma payload_source_witness :
  Wire.parse Bench.read_integer
    (Canonical.payload_of (Sample.server true 200 "OK" "null")
       [("source", JStr "caller"); ("query", JStr "tea");
        ("memory_limit_number", JNum (Num.of_Z 6));
        ("agent_id", JUndefined)])
  = Some (JObj [("source", JStr "MCP"); ("query", JStr "tea");
                ("memory_limit_number", JNum (Num.of_Z 6))]).
Proof.
  destruct (payload_source_is_MCP
              (Sample.server true 200 "OK" "null") Sample.env "/search/memory"
              [("source", JStr "caller"); ("query", JStr "tea");
               ("memory_limit_number", JNum (Num.of_Z 6));
               ("agent_id", JUndefined)]
              (Some "key") fresh)
    as (_ & Hread & _).
  - unfold Obj.wf. cbn. repeat constructor; cbn; intuition discriminate.
  - apply (Hread Bench.read_integer).
    lazymatch goal with
    | |- Forall _ ?l =>
        replace l with [Num.of_Z 6] by (vm_compute; reflexivity)
    end.
    constructor; [exact six_reads_back | constructor].
Defined.

(** C4, where the code departs from it.  The server answers 200 with a body
    that is no JSON.  On the [fetch] transport [res.json()] throws, the
    dispatcher fails with the parse error and the tool reports an error; on
    the [https] transport of the same function the literal text is
    returned.  The remote variant, which has the [fetch] transport only,
    throws as well. *)
Theorem fetch_throws_on_malformed_success_body :
  let body := [("query", JStr "tea")] in
  let with_fetch := Sample.server true 200 "OK" "<html>" in
  let without_fetch := Sample.server false 200 "OK" "<html>" in
  Spec.malformed with_fetch "<html>"
  /\ fst (Canonical.queryMemos with_fetch Sample.env "/search/memory" body
            (Some "key") fresh)
     = inl (Error "Unexpected token in JSON at position 0")
  /\ fst (Canonical.invoke with_fetch Sample.env
            (Canonical.SearchMemory "tea" "hello" None) fresh)
     = inr (Spec.failure "Unexpected token in JSON at position 0")
  /\ fst (Canonical.queryMemos without_fetch Sample.env "/search/memory" body
            (Some "key") fresh)
     = inr (JStr "<html>")
  /\ fst (Remote.queryMemos with_fetch Sample.env "/search/memory" body
            (Some "key") "MEMOS" fresh)
     = inl (Error "Unexpected token in JSON at position 0").
Proof.
  cbv zeta. split; [eexists; reflexivity|].
  split; [reflexivity|]. split; [vm_compute; reflexivity|].
  split; reflexivity.
Qed.

Section Samples.

Example six_is_binary64 :
  Num.of_Z 6 = S754_finite false 6755399441055744 (-50).
Proof. reflexivity. Qed.

(** A search on the default channel, as it goes on the wire. *)
Example search_on_the_wire :
  map req_body
    (requests (snd (Canonical.invoke (Sample.server true 200 "OK" "null")
                      Sample.env
                      (Canonical.SearchMemory "tea" "hello" None) fresh)))
  = [JSON.write Sample.show_integer
       (JObj [("query", JStr "tea"); ("user_id", JStr "alice");
              ("conversation_id", JStr "436fbc0a382e7fcf5ed6d8ca07772ac0");
              ("memory_limit_number", JNum (Num.of_Z 6));
              ("source", JStr "MCP")])].
Proof. vm_compute. reflexivity. Qed.

(** The same search, answered with the JSON text [null]. *)
Example search_answered :
  fst (Canonical.invoke (Sample.server true 200 "OK" "null") Sample.env
         (Canonical.SearchMemory "tea" "hello" None) fresh)
  = inr (mk_tool_response (Some "null") (Some JNull) false).
Proof. vm_compute. reflexivity. Qed.

(** On the other transport the request names its length. *)
Example search_without_fetch :
  map req_headers
    (requests (snd (Canonical.invoke (Sample.server false 200 "OK" "null")
                      Sample.env
                      (Canonical.SearchMemory "tea" "hello" None) fresh)))
  = [[("Content-Type", "application/json");
      ("Authorization", "Token key");
      ("Content-Length", "125")]].
Proof. vm_compute. reflexivity. Qed.

End Samples.

(* ===================================================================== *)
(** * Facts: every run of the dispatcher and of a handler *)
(* ===================================================================== *)

Section EveryRun.

Variable rt : Runtime.
Variable env : Env.

Lemma config_ok_valid :
  Extra.config_ok rt env = true <-> Spec.valid_config rt env.
Proof.
  unfold Extra.config_ok, Spec.valid_config.
  rewrite !andb_true_iff, !negb_true_iff. tauto.
Qed.

(** With a check failing, the handler answers with that check's error and
    touches nothing. *)
Lemma invoke_invalid (i : Canonical.Invocation) (w : World) :
  Extra.config_ok rt env = false ->
  exists m, Canonical.invoke rt env i w = (inr (Spec.failure m), w).
Proof.
  unfold Extra.config_ok. intros H.
  destruct (invoke_guarded rt env i) as (rest & ->).
  destruct (Js.falsy (env_MEMOS_API_KEY env)) eqn:H1;
    [eexists; now apply guarded_no_key|].
  destruct (Js.falsy (env_MEMOS_USER_ID env)) eqn:H2;
    [eexists; now apply guarded_no_user|].
  simpl in H. eexists. now apply guarded_unknown_channel.
Qed.

(** The dispatcher on the [fetch] transport, as one equation: the request
    it hands to [fetch], and what it makes of the answer. *)
Lemma queryMemos_fetch (f : Request -> Exn + FetchResponse)
    (path : string) (body : JsObject) (apiKey : option string) (w : World) :
  global_fetch rt = Some f ->
  let req := mk_request (MEMOS_BASE_URL env ++ path) "POST"
               [("Content-Type", "application/json");
                ("Authorization", "Token " ++ Js.str apiKey)]
               (Canonical.payload_of rt body) in
  Canonical.queryMemos rt env path body apiKey w
  = (match f req with
     | inl e => inl e
     | inr res =>
         if res_ok res then
           match res_body res with
           | inl e => inl e
           | inr txt => JSON_parse rt txt
           end
         else
           inl (Error ("HTTP " ++ Str.of_Z (res_status res) ++ " "
                         ++ res_statusText res ++ ": "
                         ++ match res_body res with
                            | inl _ => ""
                            | inr txt => txt
                            end))
     end,
     mk_world (clock_reads w)
       (queries w ++ [mk_query path body apiKey])
       (requests w ++ [req])).
Proof.
  intros Hf req.
  unfold Canonical.queryMemos, res_json, res_text, try_catch, bind,
    log_query, log_request, settle, throw, ret. rewrite Hf.
  cbn [clock_reads queries requests]. fold req.
  destruct (f req) as [e|res]; [reflexivity|].
  destruct (res_ok res); cbn [negb].
  - destruct (res_body res) as [e|txt]; [reflexivity|].
    now destruct (JSON_parse rt txt).
  - now destruct (res_body res).
Qed.

(** The same on the [https] transport. *)
Lemma queryMemos_https (path : string) (body : JsObject)
    (apiKey : option string) (w : World) :
  global_fetch rt = None ->
  let logged := mk_world (clock_reads w)
                  (queries w ++ [mk_query path body apiKey]) (requests w) in
  Canonical.queryMemos rt env path body apiKey w
  = match new_URL rt (MEMOS_BASE_URL env ++ path) with
    | inl e => (inl e, logged)
    | inr u =>
        let req := mk_request u "POST"
                     [("Content-Type", "application/json");
                      ("Authorization", "Token " ++ Js.str apiKey);
                      ("Content-Length",
                       Str.of_Z (Z.of_nat (String.length
                                             (Canonical.payload_of rt body))))]
                     (Canonical.payload_of rt body) in
        (match https_request rt req with
         | inl e => inl e
         | inr res =>
             let txt := String.concat "" (data_chunks res) in
             let sc := match statusCode res with
                       | Some n => n
                       | None => 0
                       end in
             if (200 <=? sc) && (sc <? 300) then
               inr match JSON_parse rt txt with
                   | inr v => v
                   | inl _ => JStr txt
                   end
             else
               inl (Error ("HTTP " ++ Str.of_Z sc ++ " "
                             ++ match statusMessage res with
                                | Some m => m
                                | None => ""
                                end ++ ": " ++ txt))
         end,
         mk_world (clock_reads w)
           (queries w ++ [mk_query path body apiKey])
           (requests w ++ [req]))
    end.
Proof.
  intros Hf logged.
  unfold Canonical.queryMemos, res_json, res_text, try_catch, bind,
    log_query, log_request, settle, throw, ret. rewrite Hf.
  cbn [clock_reads queries requests]. subst logged.
  destruct (new_URL rt (MEMOS_BASE_URL env ++ path)) as [e|u];
    [reflexivity|].
  cbv zeta.
  match goal with
  | |- context [https_request rt ?r] => destruct (https_request rt r) as [e|res]
  end; [reflexivity|].
  assert (Hsc : match statusCode res with
                | Some n => if n =? 0 then 0 else n
                | None => 0
                end
                = match statusCode res with
                  | Some n => n
                  | None => 0
                  end).
  { destruct (statusCode res) as [n|]; [apply status_or_zero | reflexivity]. }
  assert (Hmsg : Js.str (Js.or_else (statusMessage res) (Some ""))
                 = match statusMessage res with
                   | Some m => m
                   | None => ""
                   end).
  { destruct (statusMessage res) as [[|c m]|]; reflexivity. }
  rewrite Hsc, Hmsg.
  match goal with |- context [if ?c then _ else _] => destruct c end;
    [|reflexivity].
  now destruct (JSON_parse rt _).
Qed.

(** Stamping reads the clock once for each message without a time. *)
Lemma mapM_stamp_count (ms : list Message) (w : World) :
  exists objs,
    mapM (stamp rt) ms w
    = (inr objs,
       mk_world
         (clock_reads w
          + List.length (filter (fun m => Js.falsy (chat_time m)) ms))
         (queries w) (requests w)).
Proof.
  revert w. induction ms as [|m ms IH]; intros w.
  - exists []. destruct w. cbn. now rewrite Nat.add_0_r.
  - cbn [mapM filter]. unfold bind at 1.
    unfold stamp at 1. unfold generateChatTime, read_clock, bind, ret.
    destruct (Js.falsy (chat_time m)) eqn:E.
    + destruct (IH (mk_world (S (clock_reads w)) (queries w) (requests w)))
        as (objs & Hobjs).
      cbn [clock_reads queries requests] in Hobjs.
      unfold bind in Hobjs. cbn [List.length].
      eexists. fold (@bind (list JsVal) (list JsVal)).
      unfold bind. rewrite Hobjs. f_equal. f_equal. lia.
    + destruct (IH w) as (objs & Hobjs).
      eexists. unfold bind. rewrite Hobjs. reflexivity.
Qed.

End EveryRun.

Section EveryHandler.

Variable rt : Runtime.
Variable env : Env.

(** A valid invocation, as one equation: the clock readings it needs, then
    one call of the dispatcher at the tool's endpoint, then [return] or
    [catch]. *)
Lemma invoke_valid_at (i : Canonical.Invocation) (w : World) :
  Spec.valid_config rt env ->
  exists body,
    Spec.body_shape rt env i (clock_reads w)
      (clock_reads w + Extra.generated i) (Extra.endpoint i) body
    /\ let w1 := mk_world (clock_reads w + Extra.generated i)
                   (queries w) (requests w) in
       let call := Canonical.queryMemos rt env (Extra.endpoint i) body
                     (env_MEMOS_API_KEY env) in
       Canonical.invoke rt env i w
       = (inr match fst (call w1) with
              | inr data => Extra.returned rt data
              | inl e => Extra.caught e
              end,
          snd (call w1)).
Proof.
  intros (H1 & H2 & H3).
  destruct i as [c ms | q c n | ids | c f a p t pub kbs];
    cbn [Canonical.invoke Extra.generated Extra.endpoint Spec.body_shape].
  - destruct (mapM_stamp_run rt ms w) as (objs & hi & Hrun & _ & Hall).
    destruct (mapM_stamp_count rt ms w) as (objs' & Hcount).
    rewrite Hrun in Hcount. injection Hcount as <- ->.
    eexists. split; [split; [reflexivity|]; exists objs;
                     split; [reflexivity | exact Hall]|].
    cbv zeta. unfold Canonical.add_message. rewrite H1, H2, H3.
    unfold throw_if, negb.
    change (try_catch _ on_error w)
      with (try_catch
              (newMessages <- mapM (stamp rt) ms ;;
               data <- Canonical.queryMemos rt env "/add/message"
                         [("user_id", Js.val (Canonical.actualUserId rt env));
                          ("conversation_id",
                           Js.val (Canonical.actualConversationId env c));
                          ("messages", JArr newMessages)]
                         (env_MEMOS_API_KEY env) ;;
               on_success rt data)
              on_error w).
    rewrite (try_catch_bind_run _ _ _ _ _ _ Hrun).
    apply call_then_respond.
  - eexists. split; [split; reflexivity|]. cbv zeta.
    rewrite Nat.add_0_r. unfold Canonical.search_memory.
    rewrite H1, H2, H3. destruct w. exact (call_then_respond rt _ _).
  - eexists. split; [split; reflexivity|]. cbv zeta.
    rewrite Nat.add_0_r. unfold Canonical.delete_memory.
    rewrite H1, H2, H3. destruct w. exact (call_then_respond rt _ _).
  - eexists. split; [split; reflexivity|]. cbv zeta.
    rewrite Nat.add_0_r. unfold Canonical.add_feedback.
    rewrite H1, H2, H3. destruct w. exact (call_then_respond rt _ _).
Qed.

(** The dispatcher of the remote variant, as one equation. *)
Lemma remote_queryMemos_eq (path : string) (body : JsObject)
    (apiKey : option string) (source : string) (w : World) :
  Remote.queryMemos rt env path body apiKey source w
  = match global_fetch rt with
    | None =>
        (inl (Error "fetch is not defined"),
         mk_world (clock_reads w)
           (queries w ++ [mk_query path body apiKey]) (requests w))
    | Some f =>
        let req := mk_request (MEMOS_BASE_URL env ++ path) "POST"
                     [("Content-Type", "application/json");
                      ("Authorization", "Token " ++ Js.str apiKey)]
                     (Remote.payload_of rt body source) in
        (match f req with
         | inl e => inl e
         | inr res =>
             if res_ok res then
               match res_body res with
               | inl e => inl e
               | inr txt => JSON_parse rt txt
               end
             else
               inl (Error ("HTTP " ++ Str.of_Z (res_status res) ++ " "
                             ++ res_statusText res ++ ": "
                             ++ match res_body res with
                                | inl _ => ""
                                | inr txt => txt
                                end))
         end,
         mk_world (clock_reads w)
           (queries w ++ [mk_query path body apiKey])
           (requests w ++ [req]))
    end.
Proof.
  unfold Remote.queryMemos, res_json, res_text, try_catch, bind,
    log_query, log_request, settle, throw, ret.
  destruct (global_fetch rt) as [f|]; [|reflexivity].
  cbn [clock_reads queries requests]. cbv zeta.
  match goal with |- context [f ?r] => destruct (f r) as [e|res] end;
    [reflexivity|].
  destruct (res_ok res); cbn [negb].
  - destruct (res_body res) as [e|txt]; [reflexivity|].
    now destruct (JSON_parse rt txt).
  - now destruct (res_body res).
Qed.

(** A valid invocation of the remote variant, as one equation. *)
Lemma remote_invoke_valid_at (j : Remote.Invocation) (w : World) :
  Spec.valid_remote_config rt env ->
  exists hi path body,
    Extra.remote_body_shape rt env j (clock_reads w) hi path body
    /\ let w1 := mk_world hi (queries w) (requests w) in
       let call := Remote.queryMemos rt env path body
                     (env_MEMOS_API_KEY env) (Remote.MEMOS_CHANNEL rt env) in
       Remote.invoke rt env j w
       = (inr match fst (call w1) with
              | inr data => Extra.returned rt data
              | inl e => Extra.caught e
              end,
          snd (call w1)).
Proof.
  intros (H1 & H2 & H3).
  destruct j as [c ms | q c n | c];
    cbn [Remote.invoke Extra.remote_body_shape].
  - destruct (mapM_stamp_run rt ms w) as (objs & hi & Hrun & _ & Hall).
    exists hi. eexists _, _.
    split; [split; [reflexivity|]; exists objs;
            split; [reflexivity | exact Hall]|].
    cbv zeta. unfold Remote.add_message. rewrite H1, H2, H3.
    unfold throw_if, negb.
    change (try_catch _ on_error w)
      with (try_catch
              (newMessages <- mapM (stamp rt) ms ;;
               data <- Remote.queryMemos rt env "/add/message"
                         [("user_id", Js.val (env_MEMOS_USER_ID env));
                          ("conversation_id",
                           Js.val (Remote.actualConversationId env c));
                          ("messages", JArr newMessages)]
                         (env_MEMOS_API_KEY env)
                         (Remote.MEMOS_CHANNEL rt env) ;;
               on_success rt data)
              on_error w).
    rewrite (try_catch_bind_run _ _ _ _ _ _ Hrun).
    apply call_then_respond.
  - exists (clock_reads w). eexists _, _. split; [split; reflexivity|].
    cbv zeta. unfold Remote.search_memory.
    rewrite H1, H2, H3. destruct w. exact (call_then_respond rt _ _).
  - exists (clock_reads w). eexists _, _. split; [split; reflexivity|].
    cbv zeta. unfold Remote.get_message.
    rewrite H1, H2, H3. destruct w. exact (call_then_respond rt _ _).
Qed.

(** With a check failing, a handler of the remote variant answers with an
    error and touches nothing. *)
Lemma remote_invoke_invalid (j : Remote.Invocation) (w : World) :
  ~ Spec.valid_remote_config rt env ->
  exists m, Remote.invoke rt env j w = (inr (Spec.failure m), w).
Proof.
  unfold Spec.valid_remote_config. intros H.
  destruct (Js.falsy (env_MEMOS_API_KEY env)) eqn:H1;
    [|destruct (Js.falsy (env_MEMOS_USER_ID env)) eqn:H2;
      [|destruct (Js.includes Remote.candidateChannelId
                    (Remote.MEMOS_CHANNEL rt env)) eqn:H3;
        [exfalso; apply H; auto|]]];
    destruct j as [c ms | q c n | c]; cbn [Remote.invoke];
    unfold Remote.add_message, Remote.search_memory, Remote.get_message;
    rewrite ?H1, ?H2, ?H3; eexists; reflexivity.
Qed.

Lemma format_nonempty (d : JsDate) : Dayjs.format d <> "".
Proof.
  unfold Dayjs.format. intros H. apply (f_equal String.length) in H.
  rewrite length_append in H. cbn in H. lia.
Qed.

Lemma toJSON_strings (l : list string) :
  JSON.toJSON (JArr (map JStr l)) = Some (JArr (map JStr l)).
Proof.
  apply toJSON_json_value. cbn [Spec.json_value].
  induction l as [|x l IH]; [reflexivity | exact IH].
Qed.

End EveryHandler.

Section WorldFacts.

Variable rt : Runtime.
Variable env : Env.

(** The trace after one call of the dispatcher: the call, and at most one
    request. *)
Lemma queryMemos_world (path : string) (body : JsObject)
    (apiKey : option string) (w : World) :
  exists sent,
    snd (Canonical.queryMemos rt env path body apiKey w)
    = mk_world (clock_reads w)
        (queries w ++ [mk_query path body apiKey]) (requests w ++ sent)
    /\ (List.length sent <= 1)%nat.
Proof.
  destruct (global_fetch rt) as [f|] eqn:Hf.
  - rewrite (queryMemos_fetch rt env f path body apiKey w Hf).
    eexists [_]. split; [reflexivity | cbn; lia].
  - rewrite (queryMemos_https rt env path body apiKey w Hf).
    destruct (new_URL rt _) as [e|u].
    + exists []. rewrite app_nil_r. split; [reflexivity | cbn; lia].
    + eexists [_]. split; [reflexivity | cbn; lia].
Qed.

Lemma remote_valid_dec :
  Spec.valid_remote_config rt env \/ ~ Spec.valid_remote_config rt env.
Proof.
  unfold Spec.valid_remote_config.
  destruct (Js.falsy (env_MEMOS_API_KEY env));
    [right; intros (H & _); discriminate|].
  destruct (Js.falsy (env_MEMOS_USER_ID env));
    [right; intros (_ & H & _); discriminate|].
  destruct (Js.includes _ _);
    [left; auto | right; intros (_ & _ & H); discriminate].
Qed.

End WorldFacts.

(* ===================================================================== *)
(** * Facts: payloads read back *)
(* ===================================================================== *)

Section PayloadFacts.

Variable rt : Runtime.
Variable reader : string -> option (spec_float * string).

Lemma object_reads_back (o : JsObject) :
  Forall (Wire.readable (Number_toString rt) reader)
         (Wire.numbers (JObj (JSON.props o))) ->
  Wire.parse reader (JSON.stringify_object (Number_toString rt) o)
  = Some (JObj (JSON.props o)).
Proof.
  intros Hn. destruct (props_clean o) as [Hv _].
  now apply written_reads_back.
Qed.

Lemma payload_reads_back (body : JsObject) :
  Forall (Wire.readable (Number_toString rt) reader)
         (Wire.numbers (JObj (Terms.document body))) ->
  Wire.parse reader (Canonical.payload_of rt body)
  = Some (JObj (Terms.document body)).
Proof. apply object_reads_back. Qed.

Lemma numbers_val (s : option string) : Wire.numbers (Js.val s) = [].
Proof. now destruct s. Qed.

Lemma numbers_val_bool (b : option bool) : Wire.numbers (Js.val_bool b) = [].
Proof. now destruct b. Qed.

Lemma numbers_strings (l : list string) :
  Wire.numbers (JArr (map JStr l)) = [].
Proof. cbn [Wire.numbers]. induction l; [reflexivity | assumption]. Qed.

Lemma numbers_val_strings (l : option (list string)) :
  Wire.numbers (Js.val_strings l) = [].
Proof. destruct l; [apply numbers_strings | reflexivity]. Qed.

Lemma no_numbers_props (o : JsObject) :
  Wire.numbers (JObj o) = [] -> Wire.numbers (JObj (JSON.props o)) = [].
Proof.
  intros H. destruct (props_clean o) as [_ Hincl]. rewrite H in Hincl.
  now apply incl_l_nil.
Qed.

Lemma no_numbers_readable (show : spec_float -> string) (v : JsVal) :
  Wire.numbers v = [] -> Forall (Wire.readable show reader) (Wire.numbers v).
Proof. intros ->. constructor. Qed.

End PayloadFacts.

(* ===================================================================== *)
(** * The claim about the search limit, at the registered tool *)
(* ===================================================================== *)

(** The queries of the [search_memory] handler, whatever limit it is
    called with: one, with [memory_limit_number || 6] as the limit, when
    the configuration passes the checks, and none otherwise. *)
Lemma search_memory_queries (rt : Runtime) (env : Env) (query c : string)
    (limit : option spec_float) (w : World) :
  queries (snd (Canonical.search_memory rt env query c limit w))
  = (queries w
       ++ if Extra.config_ok rt env
          then [mk_query "/search/memory"
                  [("query", JStr query);
                   ("user_id", Js.val (Canonical.actualUserId rt env));
                   ("conversation_id",
                    Js.val (Canonical.actualConversationId env c));
                   ("memory_limit_number",
                    JNum (Num.or_else limit (Num.of_Z 6)))]
                  (env_MEMOS_API_KEY env)]
          else [])%list.
Proof.
  change (Canonical.search_memory rt env query c limit)
    with (Canonical.invoke rt env (Canonical.SearchMemory query c limit)).
  destruct (Extra.config_ok rt env) eqn:Hok.
  - apply config_ok_valid in Hok.
    destruct (invoke_valid_at rt env (Canonical.SearchMemory query c limit)
                w Hok) as (body & (_ & ->) & Hrun).
    cbv zeta in Hrun. rewrite Hrun. cbn [snd Extra.endpoint].
    match goal with
    | |- context [Canonical.queryMemos rt env ?q ?b ?k ?w1] =>
        destruct (queryMemos_world rt env q b k w1) as (sent & -> & _)
    end.
    reflexivity.
  - destruct (invoke_invalid rt env (Canonical.SearchMemory query c limit)
                w Hok) as (m & ->).
    cbn [snd]. now rewrite app_nil_r.
Qed.

(** C7, where the code departs from it.  The schema of [search_memory]
    declares [memory_limit_number] as [z.number()], without the
    [.optional()] that the optional parameters of the other tools carry
    (index.ts 304 against 231 and 430-434).  So every call whose arguments
    leave the limit out, or give it as [undefined], is answered with a
    validation error before the handler runs, and nothing is dispatched:
    no body with limit 6 exists.  The handler itself, whose parameter is
    typed [number | undefined], does send 6 when it is called without a
    limit, as the tool's description promises; and [add_feedback], called
    without its optional parameters, reaches its handler. *)
Theorem omitted_search_limit_is_rejected :
  forall (rt : Runtime) (env : Env) (args : JsObject)
         (query c feedback : string) (w : World),
    (Registry.field args "memory_limit_number" = JUndefined ->
     Registry.call rt env "search_memory" (JObj args) w
     = (Registry.InvalidArguments, w))
    /\ queries (snd (Canonical.search_memory rt env query c None w))
       = (queries w
            ++ if Extra.config_ok rt env
               then [mk_query "/search/memory"
                       [("query", JStr query);
                        ("user_id", Js.val (Canonical.actualUserId rt env));
                        ("conversation_id",
                         Js.val (Canonical.actualConversationId env c));
                        ("memory_limit_number", JNum (Num.of_Z 6))]
                       (env_MEMOS_API_KEY env)]
               else [])%list
    /\ Registry.call rt env "add_feedback"
         (JObj [("conversation_first_message", JStr c);
                ("feedback_content", JStr feedback)]) w
       = match Canonical.add_feedback rt env c feedback
                 None None None None None w with
         | (inr response, w') => (Registry.Answered response, w')
         | (inl e, w') => (Registry.Thrown e, w')
         end.
Proof.
  intros rt env args query c feedback w.
  split; [|split; [apply search_memory_queries | reflexivity]].
  intros Hlimit. unfold Registry.call.
  cbn [Registry.schema String.eqb Ascii.eqb Bool.eqb].
  unfold Registry.search_memory. rewrite Hlimit.
  destruct (Registry.z_string (Registry.field args "query")); [|reflexivity].
  cbn [Opt.and_then].
  now destruct (Registry.z_string
                  (Registry.field args "conversation_first_message")).
Qed.

Lemma omitted_search_limit_witness :
  Registry.call (Sample.server true 200 "OK" "null") Sample.env
    "search_memory"
    (JObj [("query", JStr "tea");
           ("conversation_first_message", JStr "hello")]) fresh
  = (Registry.InvalidArguments, fresh)
  /\ Registry.call (Sample.server true 200 "OK" "null") Sample.env
       "search_memory"
       (JObj [("query", JStr "tea");
              ("conversation_first_message", JStr "hello");
              ("memory_limit_number", JUndefined)]) fresh
     = (Registry.InvalidArguments, fresh).
Proof.
  split.
  - apply (omitted_search_limit_is_rejected
             (Sample.server true 200 "OK" "null") Sample.env
             [("query", JStr "tea");
              ("conversation_first_message", JStr "hello")]
             "tea" "hello" "no sugar" fresh).
    reflexivity.
  - apply (omitted_search_limit_is_rejected
             (Sample.server true 200 "OK" "null") Sample.env
             [("query", JStr "tea");
              ("conversation_first_message", JStr "hello");
              ("memory_limit_number", JUndefined)]
             "tea" "hello" "no sugar" fresh).
    reflexivity.
Defined.

(* ===================================================================== *)
(** * Further properties of the code *)
(* ===================================================================== *)

(** How an invocation ends in either variant: with the response of the
    [catch], or with the response of the [return]. *)
Lemma invoke_outcome (rt : Runtime) (env : Env) (i : Canonical.Invocation)
    (j : Remote.Invocation) (w : World) :
  ((exists m, fst (Canonical.invoke rt env i w) = inr (Spec.failure m))
   \/ (exists data,
          fst (Canonical.invoke rt env i w)
          = inr (mk_tool_response
                   (JSON.stringify (Number_toString rt) data)
                   (Some data) false)))
  /\ ((exists m, fst (Remote.invoke rt env j w) = inr (Spec.failure m))
      \/ (exists data,
             fst (Remote.invoke rt env j w)
             = inr (mk_tool_response
                      (JSON.stringify (Number_toString rt) data)
                      (Some data) false))).
Proof.
  split.
  - destruct (Extra.config_ok rt env) eqn:Hok.
    + apply config_ok_valid in Hok.
      destruct (invoke_valid_at rt env i w Hok) as (body & _ & Hrun).
      cbv zeta in Hrun. rewrite Hrun. cbn [fst].
      destruct (fst (Canonical.queryMemos _ _ _ _ _ _)) as [[m|v]|data].
      * left. now exists m.
      * left. now exists "Unknown error".
      * right. now exists data.
    + destruct (invoke_invalid rt env i w Hok) as (m & ->).
      left. now exists m.
  - destruct (remote_valid_dec rt env) as [Hok|Hbad].
    + destruct (remote_invoke_valid_at rt env j w Hok)
        as (hi & path & body & _ & Hrun).
      cbv zeta in Hrun. rewrite Hrun. cbn [fst].
      destruct (fst (Remote.queryMemos _ _ _ _ _ _ _)) as [[m|v]|data].
      * left. now exists m.
      * left. now exists "Unknown error".
      * right. now exists data.
    + destruct (remote_invoke_invalid rt env j w Hbad) as (m & ->).
      left. now exists m.
Qed.

(** X1.  No handler, of either variant, lets anything it or the dispatcher
    throws escape to the protocol layer: whatever the configuration, the
    arguments and the outside do, an invocation does not end by throwing,
    and a response it returns is either an error text without structured
    content, or the received data with its JSON text and no error flag.
    (That it ends at all is the transport's affair: the runs considered
    are those in which the transport settles.) *)
Theorem handlers_never_throw :
  forall (rt : Runtime) (env : Env) (i : Canonical.Invocation)
         (j : Remote.Invocation) (w : World),
    (forall e, fst (Canonical.invoke rt env i w) <> inl e)
    /\ (forall e, fst (Remote.invoke rt env j w) <> inl e)
    /\ (forall response,
          fst (Canonical.invoke rt env i w) = inr response
          \/ fst (Remote.invoke rt env j w) = inr response ->
          (exists m, response = Spec.failure m)
          \/ (exists data, response = Extra.returned rt data)).
Proof.
  intros rt env i j w.
  destruct (invoke_outcome rt env i j w) as [Hc Hr].
  split; [|split].
  - intros e He. destruct Hc as [(m & H)|(d & H)]; congruence.
  - intros e He. destruct Hr as [(m & H)|(d & H)]; congruence.
  - intros response [H|H].
    + destruct Hc as [(m & Hm)|(d & Hd)].
      * left. exists m. congruence.
      * right. exists d. unfold Extra.returned. congruence.
    + destruct Hr as [(m & Hm)|(d & Hd)].
      * left. exists m. congruence.
      * right. exists d. unfold Extra.returned. congruence.
Qed.

Lemma handlers_never_throw_witness :
  fst (Canonical.invoke (Probe.offline false (NotAnError JNull)) Sample.env
         (Canonical.DeleteMemory ["m1"]) fresh)
  = inr (Spec.failure "Unknown error")
  /\ ((exists m, Spec.failure "Unknown error" = Spec.failure m)
      \/ (exists data,
             Spec.failure "Unknown error"
             = Extra.returned (Probe.offline false (NotAnError JNull)) data)).
Proof.
  split; [vm_compute; reflexivity|].
  destruct (handlers_never_throw
              (Probe.offline false (NotAnError JNull)) Sample.env
              (Canonical.DeleteMemory ["m1"]) (Remote.GetMessage "hello")
              fresh) as (_ & _ & Hshape).
  apply Hshape. left. vm_compute. reflexivity.
Defined.

(** X2.  With an API key but no user identifier (unset or empty), every
    tool invocation of either variant returns the error that names
    [MEMOS_USER_ID] and leaves the trace as it found it, whatever the
    channel tag is. *)
Theorem no_user_id_fails_before_any_call :
  forall (rt : Runtime) (env : Env) (i : Canonical.Invocation)
         (j : Remote.Invocation) (w : World),
    Js.falsy (env_MEMOS_API_KEY env) = false ->
    Js.falsy (env_MEMOS_USER_ID env) = true ->
    Canonical.invoke rt env i w
    = (inr (Spec.failure (not_set "MEMOS_USER_ID")), w)
    /\ Remote.invoke rt env j w
       = (inr (Spec.failure (not_set "MEMOS_USER_ID")), w)
    /\ Str.contains "MEMOS_USER_ID" ("Error: " ++ not_set "MEMOS_USER_ID").
Proof.
  intros rt env i j w H1 H2. split; [|split].
  - destruct (invoke_guarded rt env i) as (rest & ->).
    now apply guarded_no_user.
  - destruct j as [c ms | q c n | c]; cbn [Remote.invoke];
      unfold Remote.add_message, Remote.search_memory, Remote.get_message;
      rewrite H1, H2; reflexivity.
  - exists "Error: ",
      " is not set, please set it in the environment variables or mcp.json file".
    reflexivity.
Qed.

Lemma no_user_id_witness :
  Canonical.invoke (Sample.server true 200 "OK" "null") Probe.env_no_user
    (Canonical.AddMessage "hello" [mk_message "user" "hello" None]) fresh
  = (inr (Spec.failure (not_set "MEMOS_USER_ID")), fresh)
  /\ Remote.invoke (Sample.server true 200 "OK" "null") Probe.env_no_user
       (Remote.GetMessage "hello") fresh
     = (inr (Spec.failure (not_set "MEMOS_USER_ID")), fresh).
Proof.
  destruct (no_user_id_fails_before_any_call
              (Sample.server true 200 "OK" "null") Probe.env_no_user
              (Canonical.AddMessage "hello" [mk_message "user" "hello" None])
              (Remote.GetMessage "hello") fresh eq_refl eq_refl)
    as (Hc & Hr & _).
  split; [exact Hc | exact Hr].
Defined.

(** X3.  An invocation calls the dispatcher once when the configuration
    passes the checks and not at all otherwise, and the dispatcher puts at
    most one request on the network: nothing is retried, whatever the
    answer. *)
Theorem one_call_no_retry :
  forall (rt : Runtime) (env : Env) (i : Canonical.Invocation) (w : World),
    exists calls sent,
      queries (snd (Canonical.invoke rt env i w)) = (queries w ++ calls)%list
      /\ requests (snd (Canonical.invoke rt env i w))
         = (requests w ++ sent)%list
      /\ List.length calls = (if Extra.config_ok rt env then 1 else 0)%nat
      /\ (List.length sent <= List.length calls)%nat.
Proof.
  intros rt env i w. destruct (Extra.config_ok rt env) eqn:Hok.
  - apply config_ok_valid in Hok.
    destruct (invoke_valid_at rt env i w Hok) as (body & _ & Hrun).
    cbv zeta in Hrun. rewrite Hrun. cbn [snd].
    destruct (queryMemos_world rt env (Extra.endpoint i) body
                (env_MEMOS_API_KEY env)
                (mk_world (clock_reads w + Extra.generated i)
                   (queries w) (requests w))) as (sent & -> & Hlen).
    cbn [queries requests]. eexists [_], sent.
    repeat split; cbn; auto.
  - destruct (invoke_invalid rt env i w Hok) as (m & ->).
    exists [], []. cbn [snd]. rewrite !app_nil_r. repeat split; cbn; lia.
Qed.

(** X4.  Only [add_message] reads the clock, only after the configuration
    checks, and once for each message whose [chat_time] is missing or
    empty: a message that brings its time costs no reading. *)
Theorem clock_is_read_per_missing_time :
  forall (rt : Runtime) (env : Env) (i : Canonical.Invocation) (w : World),
    clock_reads (snd (Canonical.invoke rt env i w))
    = (clock_reads w
       + (if Extra.config_ok rt env then Extra.generated i else 0))%nat.
Proof.
  intros rt env i w. destruct (Extra.config_ok rt env) eqn:Hok.
  - apply config_ok_valid in Hok.
    destruct (invoke_valid_at rt env i w Hok) as (body & _ & Hrun).
    cbv zeta in Hrun. rewrite Hrun. cbn [snd].
    destruct (queryMemos_world rt env (Extra.endpoint i) body
                (env_MEMOS_API_KEY env)
                (mk_world (clock_reads w + Extra.generated i)
                   (queries w) (requests w))) as (sent & -> & _).
    reflexivity.
  - destruct (invoke_invalid rt env i w Hok) as (m & ->).
    cbn [snd]. lia.
Qed.

(** X5.  Where [fetch] exists, a valid invocation hands it exactly one
    request: a POST to the configured base URL (the public endpoint when
    [MEMOS_BASE_URL] is unset or empty) followed by the tool's path, with
    the JSON content type and the API key as [Token] authorization, and
    with the payload of the body as its body: a text that reads back as
    the document of the body the handler built. *)
Theorem fetch_request_shape :
  forall (rt : Runtime) (env : Env) (i : Canonical.Invocation) (w : World)
         (f : Request -> Exn + FetchResponse),
    Spec.valid_config rt env ->
    global_fetch rt = Some f ->
    exists r body,
      requests (snd (Canonical.invoke rt env i w)) = (requests w ++ [r])%list
      /\ queries (snd (Canonical.invoke rt env i w))
         = (queries w
              ++ [mk_query (Extra.endpoint i) body (env_MEMOS_API_KEY env)])%list
      /\ req_url r
         = (if Js.falsy (env_MEMOS_BASE_URL env)
            then "https://memos.memtensor.cn/api/openmem/v1"
            else Js.str (env_MEMOS_BASE_URL env)) ++ Extra.endpoint i
      /\ req_method r = "POST"
      /\ req_headers r
         = [("Content-Type", "application/json");
            ("Authorization", "Token " ++ Js.str (env_MEMOS_API_KEY env))]
      /\ req_body r = Canonical.payload_of rt body
      /\ forall reader,
           Forall (Wire.readable (Number_toString rt) reader)
                  (Wire.numbers (JObj (Terms.document body))) ->
           Wire.parse reader (req_body r)
           = Some (JObj (Terms.document body)).
Proof.
  intros rt env i w f Hok Hf.
  destruct (invoke_valid_at rt env i w Hok) as (body & _ & Hrun).
  cbv zeta in Hrun. rewrite Hrun. cbn [snd].
  rewrite (queryMemos_fetch rt env f _ _ _ _ Hf).
  cbn [snd queries requests]. eexists _, body.
  split; [reflexivity|]. split; [reflexivity|].
  cbn [req_url req_method req_headers req_body].
  split; [|split; [reflexivity|split; [reflexivity|split; [reflexivity|]]]].
  - f_equal. unfold MEMOS_BASE_URL, Js.or_else.
    now destruct (Js.falsy (env_MEMOS_BASE_URL env)).
  - intros reader. apply payload_reads_back.
Qed.

Lemma fetch_request_witness :
  exists r,
    requests (snd (Canonical.invoke (Sample.server true 200 "OK" "null")
                     Probe.env_local (Canonical.DeleteMemory ["m1"]) fresh))
    = [r]
    /\ req_url r = "http://localhost:8000/delete/memory"
    /\ req_method r = "POST"
    /\ req_headers r = [("Content-Type", "application/json");
                        ("Authorization", "Token key")]
    /\ Wire.parse (fun _ => None) (req_body r)
       = Some (JObj [("user_ids", JArr [JStr "alice"]);
                     ("memory_ids", JArr [JStr "m1"]);
                     ("source", JStr "MCP")]).
Proof.
  destruct (fetch_request_shape
              (Sample.server true 200 "OK" "null") Probe.env_local
              (Canonical.DeleteMemory ["m1"]) fresh
              (fun _ => inr (mk_response 200 "OK" (inr "null"))))
    as (r & body & Hr & Hq & Hurl & Hm & Hh & _ & Hread).
  - repeat split; reflexivity.
  - reflexivity.
  - exists r. vm_compute in Hq. injection Hq as <-.
    repeat split; try assumption.
    apply (Hread (fun _ => None)), no_numbers_readable. reflexivity.
Defined.

(** X6.  Where [fetch] is missing and the address parses, a valid
    invocation hands [https.request] exactly one request: a POST to the
    parsed address, with the same content type and authorization, and with
    a [Content-Length] that is the length in bytes of the body it
    writes. *)
Theorem https_request_shape :
  forall (rt : Runtime) (env : Env) (i : Canonical.Invocation) (w : World)
         (u : string),
    Spec.valid_config rt env ->
    global_fetch rt = None ->
    new_URL rt (MEMOS_BASE_URL env ++ Extra.endpoint i) = inr u ->
    exists r,
      requests (snd (Canonical.invoke rt env i w)) = (requests w ++ [r])%list
      /\ req_url r = u
      /\ req_method r = "POST"
      /\ req_headers r
         = [("Content-Type", "application/json");
            ("Authorization", "Token " ++ Js.str (env_MEMOS_API_KEY env));
            ("Content-Length",
             Str.of_Z (Z.of_nat (String.length (req_body r))))].
Proof.
  intros rt env i w u Hok Hf Hu.
  destruct (invoke_valid_at rt env i w Hok) as (body & _ & Hrun).
  cbv zeta in Hrun. rewrite Hrun. cbn [snd].
  rewrite (queryMemos_https rt env _ _ _ _ Hf). cbv zeta. rewrite Hu.
  cbn [snd requests]. eexists. split; [reflexivity|].
  repeat split.
Qed.

Lemma https_request_witness :
  exists r,
    requests (snd (Canonical.invoke (Sample.server false 200 "OK" "null")
                     Sample.env (Canonical.DeleteMemory ["m1"]) fresh))
    = [r]
    /\ req_url r = "https://memos.memtensor.cn/api/openmem/v1/delete/memory"
    /\ In ("Content-Length", "57") (req_headers r)
    /\ String.length (req_body r) = 57%nat.
Proof.
  destruct (https_request_shape
              (Sample.server false 200 "OK" "null") Sample.env
              (Canonical.DeleteMemory ["m1"]) fresh
              "https://memos.memtensor.cn/api/openmem/v1/delete/memory")
    as (r & Hr & Hurl & _ & Hh).
  - repeat split; reflexivity.
  - reflexivity.
  - reflexivity.
  - exists r. split; [exact Hr|]. split; [exact Hurl|].
    assert (Hlen : String.length (req_body r) = 57%nat).
    { vm_compute in Hr. injection Hr as <-. reflexivity. }
    split; [|exact Hlen]. rewrite Hh, Hlen. cbn. auto.
Defined.

(** X7.  Where [fetch] is missing and the address does not parse, a valid
    invocation sends nothing and reports what [new URL] threw. *)
Theorem invalid_url_sends_nothing :
  forall (rt : Runtime) (env : Env) (i : Canonical.Invocation) (w : World)
         (e : Exn),
    Spec.valid_config rt env ->
    global_fetch rt = None ->
    new_URL rt (MEMOS_BASE_URL env ++ Extra.endpoint i) = inl e ->
    requests (snd (Canonical.invoke rt env i w)) = requests w
    /\ fst (Canonical.invoke rt env i w) = inr (Extra.caught e).
Proof.
  intros rt env i w e Hok Hf Hu.
  destruct (invoke_valid_at rt env i w Hok) as (body & _ & Hrun).
  cbv zeta in Hrun. rewrite Hrun. cbn [fst snd].
  rewrite (queryMemos_https rt env _ _ _ _ Hf). cbv zeta. rewrite Hu.
  split; reflexivity.
Qed.

Lemma invalid_url_witness :
  requests (snd (Canonical.invoke Probe.bad_url Sample.env
                   (Canonical.SearchMemory "tea" "hello" None) fresh)) = []
  /\ fst (Canonical.invoke Probe.bad_url Sample.env
            (Canonical.SearchMemory "tea" "hello" None) fresh)
     = inr (Spec.failure "Invalid URL").
Proof.
  apply (invalid_url_sends_nothing Probe.bad_url Sample.env
           (Canonical.SearchMemory "tea" "hello" None) fresh
           (Error "Invalid URL")).
  - repeat split; reflexivity.
  - reflexivity.
  - reflexivity.
Defined.

(** X8.  When the remote endpoint answers a valid invocation with a
    success status and a body that parses, on either transport, the tool
    returns the parsed value as its structured content, no error flag, and
    as its text what [JSON.stringify] writes for that value: a text that
    reads back as the value's JSON document. *)
Theorem success_is_returned :
  forall (rt : Runtime) (env : Env) (i : Canonical.Invocation) (w : World)
         (status : Z) (statusText txt : string) (data : JsVal),
    Spec.valid_config rt env ->
    Spec.answers rt status statusText txt ->
    Spec.is_2xx status ->
    JSON_parse rt txt = inr data ->
    fst (Canonical.invoke rt env i w)
    = inr (mk_tool_response (JSON.stringify (Number_toString rt) data)
                            (Some data) false)
    /\ forall doc reader,
         JSON.toJSON data = Some doc ->
         Forall (Wire.readable (Number_toString rt) reader)
                (Wire.numbers doc) ->
         exists text,
           JSON.stringify (Number_toString rt) data = Some text
           /\ Wire.parse reader text = Some doc.
Proof.
  intros rt env i w status statusText txt data Hok Hans H2xx Hparse.
  split.
  - destruct (invoke_valid_at rt env i w Hok) as (body & _ & Hrun).
    cbv zeta in Hrun. rewrite Hrun. cbn [fst].
    unfold Spec.answers, Spec.is_2xx in *.
    destruct (global_fetch rt) as [f|] eqn:Hf.
    + rewrite (queryMemos_fetch rt env f _ _ _ _ Hf). cbv zeta. cbn [fst].
      rewrite Hans. unfold res_ok. cbn [res_status res_body].
      replace ((200 <=? status) && (status <=? 299)) with true
        by (symmetry; apply andb_true_iff; split; apply Z.leb_le; lia).
      now rewrite Hparse.
    + rewrite (queryMemos_https rt env _ _ _ _ Hf). cbv zeta.
      destruct Hans as (Hurl & Hres).
      destruct (Hurl (MEMOS_BASE_URL env ++ Extra.endpoint i)) as (u & ->).
      match goal with
      | |- context [https_request rt ?r] =>
          destruct (Hres r) as (chunks & -> & Hcat)
      end.
      cbn [fst statusCode data_chunks]. rewrite Hcat.
      replace ((200 <=? status) && (status <? 300)) with true
        by (symmetry; apply andb_true_iff; split;
            [apply Z.leb_le | apply Z.ltb_lt]; lia).
      now rewrite Hparse.
  - intros doc reader Hdoc Hn.
    exists (JSON.write (Number_toString rt) doc).
    unfold JSON.stringify. rewrite Hdoc. split; [reflexivity|].
    destruct (toJSON_clean _ _ Hdoc) as [Hv _].
    now apply written_reads_back.
Qed.

Lemma success_witness :
  fst (Canonical.invoke (Sample.server false 200 "OK" "true") Sample.env
         (Canonical.DeleteMemory ["m1"]) fresh)
  = inr (mk_tool_response (Some "true") (Some (JBool true)) false)
  /\ Wire.parse (fun _ => None) "true" = Some (JBool true).
Proof.
  destruct (success_is_returned
              (Sample.server false 200 "OK" "true") Sample.env
              (Canonical.DeleteMemory ["m1"]) fresh 200 "OK" "true"
              (JBool true)) as (Hrun & Hread).
  - repeat split; reflexivity.
  - split; [intros url; now exists url|].
    intros req. exists ["true"]. split; reflexivity.
  - unfold Spec.is_2xx. lia.
  - reflexivity.
  - split; [exact Hrun|].
    destruct (Hread (JBool true) (fun _ => None) eq_refl)
      as (text & Htext & Hback); [constructor|].
    injection Htext as <-. exact Hback.
Defined.

(** X9.  When the transport itself fails (the request never gets an
    answer), a valid invocation still makes its one call and reports the
    failure in-band: the message of the error thrown, or [Unknown error]
    when what was thrown is no [Error]. *)
Theorem transport_failure_is_reported :
  forall (rt : Runtime) (env : Env) (i : Canonical.Invocation) (w : World)
         (e : Exn),
    Spec.valid_config rt env ->
    Extra.unreachable rt e ->
    fst (Canonical.invoke rt env i w)
    = inr (mk_tool_response
             (Some ("Error: " ++ match e with
                                 | Error message => message
                                 | NotAnError _ => "Unknown error"
                                 end))
             None true).
Proof.
  intros rt env i w e Hok Hun.
  destruct (invoke_valid_at rt env i w Hok) as (body & _ & Hrun).
  cbv zeta in Hrun. rewrite Hrun. cbn [fst].
  unfold Extra.unreachable in Hun.
  destruct (global_fetch rt) as [f|] eqn:Hf.
  - rewrite (queryMemos_fetch rt env f _ _ _ _ Hf). cbv zeta. cbn [fst].
    now rewrite Hun.
  - rewrite (queryMemos_https rt env _ _ _ _ Hf). cbv zeta.
    destruct Hun as (Hurl & Hres).
    destruct (Hurl (MEMOS_BASE_URL env ++ Extra.endpoint i)) as (u & ->).
    cbn [fst]. now rewrite Hres.
Qed.

Lemma transport_failure_witness :
  fst (Canonical.invoke (Probe.offline true (NotAnError (JStr "ECONNRESET")))
         Sample.env (Canonical.SearchMemory "tea" "hello" None) fresh)
  = inr (Spec.failure "Unknown error")
  /\ fst (Canonical.invoke (Probe.offline false (Error "socket hang up"))
            Sample.env (Canonical.SearchMemory "tea" "hello" None) fresh)
     = inr (Spec.failure "socket hang up").
Proof.
  split.
  - apply (transport_failure_is_reported
             (Probe.offline true (NotAnError (JStr "ECONNRESET"))) Sample.env
             (Canonical.SearchMemory "tea" "hello" None) fresh
             (NotAnError (JStr "ECONNRESET"))).
    + repeat split; reflexivity.
    + intros req. reflexivity.
  - apply (transport_failure_is_reported
             (Probe.offline false (Error "socket hang up")) Sample.env
             (Canonical.SearchMemory "tea" "hello" None) fresh
             (Error "socket hang up")).
    + repeat split; reflexivity.
    + split; [intros url; now exists url | intros req; reflexivity].
Defined.

(** X10.  When [fetch] delivers a response whose body cannot be read, a
    valid invocation reports, for a non-success status, the status line
    with an empty body text (the reading error is swallowed), and for a
    success status the reading error itself. *)
Theorem unreadable_body_is_reported :
  forall (rt : Runtime) (env : Env) (i : Canonical.Invocation) (w : World)
         (f : Request -> Exn + FetchResponse)
         (status : Z) (statusText : string) (e : Exn),
    Spec.valid_config rt env ->
    global_fetch rt = Some f ->
    (forall req, f req = inr (mk_response status statusText (inl e))) ->
    fst (Canonical.invoke rt env i w)
    = inr (if (200 <=? status) && (status <=? 299)
           then Extra.caught e
           else Spec.failure ("HTTP " ++ Str.of_Z status ++ " "
                                ++ statusText ++ ": ")).
Proof.
  intros rt env i w f status statusText e Hok Hf Hres.
  destruct (invoke_valid_at rt env i w Hok) as (body & _ & Hrun).
  cbv zeta in Hrun. rewrite Hrun. cbn [fst].
  rewrite (queryMemos_fetch rt env f _ _ _ _ Hf). cbv zeta. cbn [fst].
  rewrite Hres. unfold res_ok. cbn [res_status res_statusText res_body].
  destruct ((200 <=? status) && (status <=? 299)); reflexivity.
Qed.

Lemma unreadable_body_witness :
  fst (Canonical.invoke (Probe.unreadable 502 "Bad Gateway" (Error "aborted"))
         Sample.env (Canonical.SearchMemory "tea" "hello" None) fresh)
  = inr (Spec.failure "HTTP 502 Bad Gateway: ").
Proof.
  apply (unreadable_body_is_reported
           (Probe.unreadable 502 "Bad Gateway" (Error "aborted")) Sample.env
           (Canonical.SearchMemory "tea" "hello" None) fresh
           (fun _ => inr (mk_response 502 "Bad Gateway"
                            (inl (Error "aborted"))))
           502 "Bad Gateway" (Error "aborted")).
  - repeat split; reflexivity.
  - reflexivity.
  - intros req. reflexivity.
Defined.

(** X11.  On the [https] transport a response that carries no status code
    counts as status 0: a valid invocation reports [HTTP 0] with the body
    text, even when that body is well-formed JSON. *)
Theorem response_without_status_is_an_error :
  forall (rt : Runtime) (env : Env) (i : Canonical.Invocation) (w : World)
         (u : string) (message : option string) (chunks : list string),
    Spec.valid_config rt env ->
    global_fetch rt = None ->
    new_URL rt (MEMOS_BASE_URL env ++ Extra.endpoint i) = inr u ->
    (forall req, https_request rt req = inr (mk_incoming None message chunks)) ->
    fst (Canonical.invoke rt env i w)
    = inr (Spec.failure ("HTTP 0 " ++ match message with
                                      | Some m => m
                                      | None => ""
                                      end ++ ": "
                           ++ String.concat "" chunks)).
Proof.
  intros rt env i w u message chunks Hok Hf Hu Hres.
  destruct (invoke_valid_at rt env i w Hok) as (body & _ & Hrun).
  cbv zeta in Hrun. rewrite Hrun. cbn [fst].
  rewrite (queryMemos_https rt env _ _ _ _ Hf). cbv zeta. rewrite Hu.
  cbn [fst]. rewrite Hres. reflexivity.
Qed.

Lemma response_without_status_witness :
  fst (Canonical.invoke (Probe.no_status "null") Sample.env
         (Canonical.SearchMemory "tea" "hello" None) fresh)
  = inr (Spec.failure "HTTP 0 : null").
Proof.
  apply (response_without_status_is_an_error
           (Probe.no_status "null") Sample.env
           (Canonical.SearchMemory "tea" "hello" None) fresh
           "https://memos.memtensor.cn/api/openmem/v1/search/memory"
           None ["null"]).
  - repeat split; reflexivity.
  - reflexivity.
  - reflexivity.
  - intros req. reflexivity.
Defined.

(** X12.  No message leaves [add_message] with an empty [chat_time]: in a
    valid invocation every message is sent with its [role] and [content]
    and a non-empty time, which is the supplied one when that is non-empty
    and a formatted clock reading otherwise; an empty supplied time is
    treated like a missing one. *)
Theorem sent_chat_time_is_never_empty :
  forall (rt : Runtime) (env : Env) (c : string) (ms : list Message)
         (w : World),
    Spec.valid_config rt env ->
    exists body objs,
      queries (snd (Canonical.add_message rt env c ms w))
      = (queries w
           ++ [mk_query "/add/message" body (env_MEMOS_API_KEY env)])%list
      /\ Obj.get "messages" body = Some (JArr objs)
      /\ Forall2
           (fun m o =>
              exists t,
                o = JObj [("role", JStr (role m));
                          ("content", JStr (content m));
                          ("chat_time", JStr t)]
                /\ t <> ""
                /\ (Js.falsy (chat_time m) = false -> chat_time m = Some t)
                /\ (Js.falsy (chat_time m) = true ->
                    exists k, t = Dayjs.format (now rt k)))
           ms objs.
Proof.
  intros rt env c ms w Hok.
  destruct (invoke_valid_at rt env (Canonical.AddMessage c ms) w Hok)
    as (body & (_ & objs & -> & Hall) & Hrun).
  cbv zeta in Hrun. cbn [Canonical.invoke Extra.endpoint] in Hrun.
  rewrite Hrun. cbn [snd].
  match goal with
  | |- context [Canonical.queryMemos rt env ?p ?b ?k ?w1] =>
      destruct (queryMemos_world rt env p b k w1) as (sent & -> & _)
  end.
  cbn [queries]. eexists _, objs. split; [reflexivity|].
  split; [reflexivity|].
  eapply Forall2_impl; [|exact Hall].
  intros m o (t & Ho & Hkeep & Hgen). exists t. split; [exact Ho|].
  destruct (chat_time m) as [[|ch s]|] eqn:E; cbn [Js.falsy].
  - destruct (Hgen (or_intror eq_refl)) as (k & _ & ->).
    split; [apply format_nonempty|]. split; [discriminate|].
    intros _. now exists k.
  - rewrite (Hkeep _ eq_refl) by discriminate.
    split; [discriminate|]. split; [reflexivity | discriminate].
  - destruct (Hgen (or_introl eq_refl)) as (k & _ & ->).
    split; [apply format_nonempty|]. split; [discriminate|].
    intros _. now exists k.
Qed.

Lemma sent_chat_time_witness :
  exists body,
    queries (snd (Canonical.add_message (Sample.server true 200 "OK" "null")
                    Sample.env "hello" [mk_message "user" "hello" (Some "")]
                    fresh))
    = [mk_query "/add/message" body (Some "key")]
    /\ Obj.get "messages" body
       = Some (JArr [JObj [("role", JStr "user"); ("content", JStr "hello");
                           ("chat_time", JStr "2026-11-02 12:00:00.000")]]).
Proof.
  destruct (sent_chat_time_is_never_empty
              (Sample.server true 200 "OK" "null") Sample.env "hello"
              [mk_message "user" "hello" (Some "")] fresh)
    as (body & objs & Hq & Hget & Hall).
  - repeat split; reflexivity.
  - exists body. split; [exact Hq|]. rewrite Hget. do 2 f_equal.
    inversion Hall as [|m1 o1 ms1 os1 H1 Hnil]; subst.
    inversion Hnil; subst.
    destruct H1 as (t & -> & _ & _ & Hgen).
    destruct (Hgen eq_refl) as (k & ->). reflexivity.
Defined.

(** X13.  An optional parameter of [add_feedback] that the caller leaves
    out is left out of the payload (it is not sent as [null]), and one
    that the caller supplies is sent as supplied; the feedback text is
    always sent.  The payload is the text of that document and reads back
    as it. *)
Theorem feedback_options_are_sent_only_if_supplied :
  forall (rt : Runtime) (env : Env) (c f : string)
         (a p t : option string) (pub : option bool)
         (kbs : option (list string)) (w : World),
    Spec.valid_config rt env ->
    exists body,
      let doc := Terms.document body in
      queries (snd (Canonical.add_feedback rt env c f a p t pub kbs w))
      = (queries w
           ++ [mk_query "/add/feedback" body (env_MEMOS_API_KEY env)])%list
      /\ Canonical.payload_of rt body
         = JSON.write (Number_toString rt) (JObj doc)
      /\ (forall reader,
            Wire.parse reader (Canonical.payload_of rt body)
            = Some (JObj doc))
      /\ Obj.get "feedback_content" doc = Some (JStr f)
      /\ Obj.get "agent_id" doc = option_map JStr a
      /\ Obj.get "app_id" doc = option_map JStr p
      /\ Obj.get "feedback_time" doc = option_map JStr t
      /\ Obj.get "allow_public" doc = option_map JBool pub
      /\ Obj.get "allow_knowledgebase_ids" doc
         = option_map (fun ids => JArr (map JStr ids)) kbs.
Proof.
  intros rt env c f a p t pub kbs w Hok.
  destruct (invoke_valid_at rt env
              (Canonical.AddFeedback c f a p t pub kbs) w Hok)
    as (body & Hshape & Hrun).
  pose proof (body_shape_wf rt env _ _ _ _ _ Hshape) as Hwf.
  destruct Hshape as (_ & Hbody).
  cbv zeta in Hrun. cbn [Canonical.invoke Extra.endpoint] in Hrun.
  rewrite Hrun. cbn [snd].
  match goal with
  | |- context [Canonical.queryMemos rt env ?q ?b ?k ?w1] =>
      destruct (queryMemos_world rt env q b k w1) as (sent & -> & _)
  end.
  cbn [queries].
  exists body. cbv zeta.
  split; [reflexivity|]. split; [reflexivity|]. split.
  { intros reader. apply payload_reads_back.
    apply no_numbers_readable, no_numbers_props. subst body.
    cbn [Obj.set String.eqb Ascii.eqb Bool.eqb andb Wire.numbers flat_map
         snd].
    now rewrite !numbers_val, numbers_val_bool, numbers_val_strings. }
  assert (Hget : forall k, k <> "source" ->
            Obj.get k (Terms.document body)
            = match Obj.get k body with
              | Some v => JSON.toJSON v
              | None => None
              end).
  { intros k Hk. unfold Terms.document.
    rewrite get_props by now apply set_wf.
    now rewrite get_set_other. }
  rewrite !Hget by discriminate. subst body.
  cbn [Obj.get String.eqb Ascii.eqb Bool.eqb andb].
  repeat split.
  - now destruct a.
  - now destruct p.
  - now destruct t.
  - now destruct pub.
  - destruct kbs as [ids|]; [apply toJSON_strings | reflexivity].
Qed.

Lemma feedback_options_witness :
  Wire.parse (fun _ => None)
    (Canonical.payload_of (Sample.server true 200 "OK" "null")
       [("user_id", JStr "alice");
        ("conversation_id", JStr "436fbc0a382e7fcf5ed6d8ca07772ac0");
        ("feedback_content", JStr "no sugar"); ("agent_id", JUndefined);
        ("app_id", JStr "tea-app"); ("feedback_time", JUndefined);
        ("allow_public", JBool false); ("allow_knowledgebase_ids", JUndefined)])
  = Some (JObj [("user_id", JStr "alice");
                ("conversation_id", JStr "436fbc0a382e7fcf5ed6d8ca07772ac0");
                ("feedback_content", JStr "no sugar");
                ("app_id", JStr "tea-app");
                ("allow_public", JBool false);
                ("source", JStr "MCP")]).
Proof.
  destruct (feedback_options_are_sent_only_if_supplied
              (Sample.server true 200 "OK" "null") Sample.env
              "hello" "no sugar" None (Some "tea-app") None (Some false) None
              fresh)
    as (body & Hq & Hpay & Hread & _).
  - repeat split; reflexivity.
  - vm_compute in Hq. injection Hq as <-.
    apply Hread.
Defined.

(** X14.  The payload of a valid [delete_memory] is exactly three
    properties: [user_ids] with the one effective user identifier,
    [memory_ids] with the given identifiers, all of them and in their
    order (none for an empty list), and [source]; no conversation
    identifier is derived or sent.  The payload is the text of those three
    properties and reads back as them. *)
Theorem delete_payload_is_exact :
  forall (rt : Runtime) (env : Env) (ids : list string) (w : World),
    Spec.valid_config rt env ->
    exists body user,
      let doc := JObj [("user_ids", JArr [JStr user]);
                       ("memory_ids", JArr (map JStr ids));
                       ("source", JStr "MCP")] in
      queries (snd (Canonical.delete_memory rt env ids w))
      = (queries w
           ++ [mk_query "/delete/memory" body (env_MEMOS_API_KEY env)])%list
      /\ Canonical.actualUserId rt env = Some user
      /\ Canonical.payload_of rt body = JSON.write (Number_toString rt) doc
      /\ forall reader,
           Wire.parse reader (Canonical.payload_of rt body) = Some doc.
Proof.
  intros rt env ids w Hok.
  destruct (invoke_valid_at rt env (Canonical.DeleteMemory ids) w Hok)
    as (body & (_ & ->) & Hrun).
  cbv zeta in Hrun. cbn [Canonical.invoke Extra.endpoint] in Hrun.
  rewrite Hrun. cbn [snd].
  match goal with
  | |- context [Canonical.queryMemos rt env ?q ?b ?k ?w1] =>
      destruct (queryMemos_world rt env q b k w1) as (sent & -> & _)
  end.
  cbn [queries].
  assert (Huser : exists user, Canonical.actualUserId rt env = Some user).
  { destruct Hok as (_ & H2 & _). unfold Canonical.actualUserId.
    destruct (String.eqb _ _); [|eauto].
    destruct (env_MEMOS_USER_ID env) as [u|]; [eauto | discriminate]. }
  destruct Huser as (user & Huser). eexists _, user. cbv zeta.
  split; [reflexivity|]. split; [exact Huser|].
  assert (Hdoc : Terms.document
                   [("user_ids", JArr [Js.val (Canonical.actualUserId rt env)]);
                    ("memory_ids", JArr (map JStr ids))]
                 = [("user_ids", JArr [JStr user]);
                    ("memory_ids", JArr (map JStr ids));
                    ("source", JStr "MCP")]).
  { unfold Terms.document. rewrite Huser.
    cbn [Obj.set String.eqb Ascii.eqb Bool.eqb andb JSON.props Js.val].
    change (JArr [JStr user]) with (JArr (map JStr [user])).
    rewrite !toJSON_strings. reflexivity. }
  rewrite <- Hdoc. split; [reflexivity|].
  intros reader. apply payload_reads_back.
  rewrite Hdoc. apply no_numbers_readable.
  cbn [Wire.numbers flat_map snd app].
  change (flat_map Wire.numbers (map JStr ids))
    with (Wire.numbers (JArr (map JStr ids))).
  now rewrite numbers_strings.
Qed.

Lemma delete_payload_witness :
  Wire.parse (fun _ => None)
    (Canonical.payload_of (Sample.server true 200 "OK" "null")
       [("user_ids", JArr [JStr "alice-MCPSO"]); ("memory_ids", JArr [])])
  = Some (JObj [("user_ids", JArr [JStr "alice-MCPSO"]);
                ("memory_ids", JArr []); ("source", JStr "MCP")]).
Proof.
  destruct (delete_payload_is_exact
              (Sample.server true 200 "OK" "null") Sample.env_mcpso [] fresh)
    as (body & user & Hq & Huser & Hpay & Hread).
  - repeat split; reflexivity.
  - vm_compute in Hq. injection Hq as <-.
    vm_compute in Huser. injection Huser as <-.
    apply Hread.
Defined.

(** X15.  In the remote variant too the API key is checked first: without
    it every one of its three tools, [get_message] included, returns the
    error that names [MEMOS_API_KEY] and leaves the trace as it found
    it. *)
Theorem remote_no_api_key_fails_before_any_call :
  forall (rt : Runtime) (env : Env) (j : Remote.Invocation) (w : World),
    Js.falsy (env_MEMOS_API_KEY env) = true ->
    Remote.invoke rt env j w
    = (inr (Spec.failure (not_set "MEMOS_API_KEY")), w)
    /\ Str.contains "MEMOS_API_KEY" ("Error: " ++ not_set "MEMOS_API_KEY").
Proof.
  intros rt env j w H1. split.
  - destruct j as [c ms | q c n | c]; cbn [Remote.invoke];
      unfold Remote.add_message, Remote.search_memory, Remote.get_message;
      rewrite H1; reflexivity.
  - exists "Error: ",
      " is not set, please set it in the environment variables or mcp.json file".
    reflexivity.
Qed.

Lemma remote_no_api_key_witness :
  Remote.invoke (Sample.server true 200 "OK" "null") Sample.env_no_key
    (Remote.GetMessage "hello") fresh
  = (inr (Spec.failure (not_set "MEMOS_API_KEY")), fresh).
Proof.
  apply (remote_no_api_key_fails_before_any_call
           (Sample.server true 200 "OK" "null") Sample.env_no_key
           (Remote.GetMessage "hello") fresh).
  reflexivity.
Defined.

Section RemoteBodies.

Lemma remote_body_shape_wf (rt : Runtime) (env : Env)
    (j : Remote.Invocation) (lo hi : nat) (path : string)
    (body : JsObject) :
  Extra.remote_body_shape rt env j lo hi path body ->
  Obj.wf body
  /\ Obj.get "user_id" body = Some (Js.val (env_MEMOS_USER_ID env)).
Proof.
  unfold Obj.wf.
  destruct j as [c ms | q c n | c]; cbn [Extra.remote_body_shape].
  - intros (_ & objs & -> & _).
    split; [repeat constructor; cbn; intuition discriminate | reflexivity].
  - intros (_ & ->).
    split; [repeat constructor; cbn; intuition discriminate | reflexivity].
  - intros (_ & ->).
    split; [repeat constructor; cbn; intuition discriminate | reflexivity].
Qed.

End RemoteBodies.

(** X16.  In the remote variant the provenance field is the channel tag:
    the one request of a valid invocation carries the JSON text of a
    document whose [source] is the upper-cased configured tag, a member of
    that variant's allow-list, and whose [user_id] is the configured user
    identifier, unchanged; read back, the text gives that document. *)
Theorem remote_source_is_the_channel :
  forall (rt : Runtime) (env : Env) (j : Remote.Invocation) (w : World)
         (f : Request -> Exn + FetchResponse) (uid : string),
    Spec.valid_remote_config rt env ->
    global_fetch rt = Some f ->
    env_MEMOS_USER_ID env = Some uid ->
    exists r path body,
      let doc := JSON.props
                   (Obj.set "source" (JStr (Remote.MEMOS_CHANNEL rt env))
                      body) in
      requests (snd (Remote.invoke rt env j w)) = (requests w ++ [r])%list
      /\ queries (snd (Remote.invoke rt env j w))
         = (queries w ++ [mk_query path body (env_MEMOS_API_KEY env)])%list
      /\ req_body r = JSON.write (Number_toString rt) (JObj doc)
      /\ (forall reader,
            Forall (Wire.readable (Number_toString rt) reader)
                   (Wire.numbers (JObj doc)) ->
            Wire.parse reader (req_body r) = Some (JObj doc))
      /\ Obj.get "source" doc = Some (JStr (Remote.MEMOS_CHANNEL rt env))
      /\ In (Remote.MEMOS_CHANNEL rt env) Remote.candidateChannelId
      /\ Obj.get "user_id" doc = Some (JStr uid).
Proof.
  intros rt env j w f uid Hok Hf Huid.
  destruct (remote_invoke_valid_at rt env j w Hok)
    as (hi & path & body & Hshape & Hrun).
  destruct (remote_body_shape_wf rt env j _ _ _ _ Hshape) as (Hwf & Hget).
  cbv zeta in Hrun. rewrite Hrun. cbn [snd].
  rewrite remote_queryMemos_eq, Hf. cbv zeta. cbn [snd requests queries].
  eexists _, path, body.
  split; [reflexivity|]. split; [reflexivity|]. split; [reflexivity|].
  assert (Hwf' : Obj.wf (Obj.set "source"
                           (JStr (Remote.MEMOS_CHANNEL rt env)) body))
    by now apply set_wf.
  split; [|split; [|split]].
  - intros reader. cbn [req_body]. apply object_reads_back.
  - rewrite get_props by exact Hwf'. now rewrite get_set_same.
  - destruct Hok as (_ & _ & H3). now apply includes_In.
  - rewrite get_props by exact Hwf'.
    rewrite get_set_other by discriminate. now rewrite Hget, Huid.
Qed.

Lemma remote_source_witness :
  exists r,
    requests (snd (Remote.invoke (Sample.server true 200 "OK" "null")
                     Sample.env_mcpso
                     (Remote.SearchMemory "tea" "hello"
                        (Some (S754_zero false))) fresh))
    = [r]
    /\ Wire.parse Bench.read_integer (req_body r)
       = Some (JObj [("query", JStr "tea"); ("user_id", JStr "alice");
                     ("conversation_id",
                      JStr "436fbc0a382e7fcf5ed6d8ca07772ac0");
                     ("memory_limit_number", JNum (Num.of_Z 6));
                     ("source", JStr "MCPSO")]).
Proof.
  destruct (remote_source_is_the_channel
              (Sample.server true 200 "OK" "null") Sample.env_mcpso
              (Remote.SearchMemory "tea" "hello" (Some (S754_zero false)))
              fresh
              (fun _ => inr (mk_response 200 "OK" (inr "null"))) "alice")
    as (r & path & body & Hr & Hq & _ & Hread & _).
  - repeat split; reflexivity.
  - reflexivity.
  - reflexivity.
  - exists r. split; [exact Hr|].
    vm_compute in Hq. injection Hq as <- <-.
    apply (Hread Bench.read_integer).
    lazymatch goal with
    | |- Forall _ ?l =>
        replace l with [Num.of_Z 6] by (vm_compute; reflexivity)
    end.
    constructor; [exact six_reads_back | constructor].
Defined.

(** X17.  The remote variant has no second transport: where [fetch] is
    missing, a valid invocation calls the dispatcher, sends nothing, and
    reports that [fetch] is not defined. *)
Theorem remote_needs_fetch :
  forall (rt : Runtime) (env : Env) (j : Remote.Invocation) (w : World),
    Spec.valid_remote_config rt env ->
    global_fetch rt = None ->
    fst (Remote.invoke rt env j w)
    = inr (Spec.failure "fetch is not defined")
    /\ requests (snd (Remote.invoke rt env j w)) = requests w
    /\ List.length (queries (snd (Remote.invoke rt env j w)))
       = S (List.length (queries w)).
Proof.
  intros rt env j w Hok Hf.
  destruct (remote_invoke_valid_at rt env j w Hok)
    as (hi & path & body & _ & Hrun).
  cbv zeta in Hrun. rewrite Hrun. cbn [fst snd].
  rewrite remote_queryMemos_eq, Hf. cbn [fst snd requests queries].
  repeat split. rewrite length_app. cbn. lia.
Qed.

Lemma remote_needs_fetch_witness :
  fst (Remote.invoke (Sample.server false 200 "OK" "null") Sample.env_mcpso
         (Remote.SearchMemory "tea" "hello" None) fresh)
  = inr (Spec.failure "fetch is not defined")
  /\ requests (snd (Remote.invoke (Sample.server false 200 "OK" "null")
                      Sample.env_mcpso
                      (Remote.SearchMemory "tea" "hello" None) fresh)) = [].
Proof.
  destruct (remote_needs_fetch
              (Sample.server false 200 "OK" "null") Sample.env_mcpso
              (Remote.SearchMemory "tea" "hello" None) fresh)
    as (Hres & Hreq & _).
  - repeat split; reflexivity.
  - reflexivity.
  - split; [exact Hres | exact Hreq].
Defined.

(** X18.  [getPackageVersion] never throws and never returns an empty
    string.  A non-empty [npm_package_version] wins; otherwise the result
    is the [version] of the parsed [package.json] when that is a non-empty
    string, and [0.0.0] in every other case: file unreadable, text
    malformed, [null], no [version], a [version] that is empty or no
    string. *)
Theorem package_version_is_never_empty :
  forall (rt : Runtime) (npm : option string) (package_json : Exn + string),
    Startup.getPackageVersion rt npm package_json <> ""
    /\ (Js.falsy npm = false ->
        npm = Some (Startup.getPackageVersion rt npm package_json))
    /\ (Js.falsy npm = true ->
        forall raw o v,
          package_json = inr raw -> JSON_parse rt raw = inr (JObj o) ->
          Obj.get "version" o = Some (JStr v) -> v <> "" ->
          Startup.getPackageVersion rt npm package_json = v)
    /\ (Js.falsy npm = true ->
        Startup.getPackageVersion rt npm package_json = "0.0.0"
        \/ exists raw o,
             package_json = inr raw /\ JSON_parse rt raw = inr (JObj o)
             /\ Obj.get "version" o
                = Some (JStr (Startup.getPackageVersion rt npm package_json))).
Proof.
  intros rt npm package_json.
  assert (Hcases :
            Js.falsy npm = true ->
            Startup.getPackageVersion rt npm package_json = "0.0.0"
            \/ exists raw o,
                 package_json = inr raw /\ JSON_parse rt raw = inr (JObj o)
                 /\ Obj.get "version" o
                    = Some (JStr (Startup.getPackageVersion rt npm
                                    package_json))
                 /\ Startup.getPackageVersion rt npm package_json <> "").
  { intros Hnpm. unfold Startup.getPackageVersion, Startup.read_version.
    rewrite Hnpm. cbn [negb].
    destruct package_json as [e|raw]; [now left|].
    destruct (JSON_parse rt raw) as [e|parsed] eqn:Hparse; [now left|].
    destruct parsed as [| |b|n|s|items|o]; cbn [Startup.member];
      try (now left).
    destruct (Obj.get "version" o) as [[| |b|n|[|ch s]|items|o']|] eqn:Hv;
      try (now left).
    right. exists raw, o. repeat split; auto. discriminate. }
  split; [|split; [|split]].
  - destruct (Js.falsy npm) eqn:Hnpm.
    + destruct (Hcases eq_refl) as [-> | (raw & o & _ & _ & _ & H)];
        [discriminate | exact H].
    + unfold Startup.getPackageVersion. rewrite Hnpm. cbn [negb].
      destruct npm as [[|c s]|]; discriminate.
  - intros Hnpm. unfold Startup.getPackageVersion. rewrite Hnpm. cbn [negb].
    destruct npm as [s|]; [reflexivity | discriminate].
  - intros Hnpm raw o v -> Hparse Hv Hne.
    unfold Startup.getPackageVersion, Startup.read_version.
    rewrite Hnpm, Hparse. cbn [negb Startup.member]. rewrite Hv.
    destruct v; [contradiction | reflexivity].
  - intros Hnpm. destruct (Hcases Hnpm) as [H | (raw & o & H1 & H2 & H3 & _)];
      [now left | right; now exists raw, o].
Qed.

Lemma package_version_witness :
  Startup.getPackageVersion Probe.reads_package (Some "2.3.4")
    (inr Probe.package_text) = "2.3.4"
  /\ Startup.getPackageVersion Probe.reads_package (Some "")
       (inr Probe.package_text) = "1.0.0".
Proof.
  destruct (package_version_is_never_empty Probe.reads_package
              (Some "2.3.4") (inr Probe.package_text)) as (_ & H1 & _).
  destruct (package_version_is_never_empty Probe.reads_package
              (Some "") (inr Probe.package_text)) as (_ & _ & H2 & _).
  split.
  - specialize (H1 eq_refl). congruence.
  - apply (H2 eq_refl Probe.package_text Probe.package "1.0.0");
      [reflexivity | vm_compute; reflexivity | reflexivity | discriminate].
Defined.

(** X19.  Start-up ends the process exactly when connecting the transport
    fails: then two diagnostics are written, one by [startServer] and one
    by the caller's [catch], each the JSON text of an object with its own
    [error] and the same [details] (a text that reads back as that
    object), and the exit status is 1; when connecting succeeds nothing is
    written and the process is not ended. *)
Theorem startup_exits_on_connection_failure :
  forall (rt : Runtime) (to_String : Exn -> string) (connect : Exn + unit)
         (p : Startup.Process),
    match connect with
    | inr _ => Startup.main rt to_String connect p = p
    | inl cause =>
        let first := JObj [("error",
                            JStr "Error occurred while starting server");
                           ("details", JStr (to_String cause))] in
        let second := JObj [("error", JStr "Server failed to start");
                            ("details", JStr (to_String cause))] in
        Startup.exit_code (Startup.main rt to_String connect p) = Some 1
        /\ Startup.stderr (Startup.main rt to_String connect p)
           = (Startup.stderr p
                ++ [JSON.write (Number_toString rt) first;
                    JSON.write (Number_toString rt) second])%list
        /\ forall reader,
             Wire.parse reader (JSON.write (Number_toString rt) first)
             = Some first
             /\ Wire.parse reader (JSON.write (Number_toString rt) second)
                = Some second
    end.
Proof.
  intros rt to_String [cause|[]] p; [|reflexivity]. cbv zeta.
  split; [reflexivity|]. split.
  - unfold Startup.main, Startup.startServer, Startup.process_exit,
      Startup.console_error. cbn [Startup.stderr].
    now rewrite <- app_assoc.
  - intros reader.
    split; apply written_reads_back; try reflexivity; constructor.
Qed.

Lemma startup_witness :
  Startup.stderr
    (Startup.main (Sample.server true 200 "OK" "null") Probe.to_String
       (inl (Error (String "a" (String "001" "b"))))
       (Startup.mk_process [] None))
  = [JSON.write Sample.show_integer
       (JObj [("error", JStr "Error occurred while starting server");
              ("details",
               JStr ("Error: " ++ String "a" (String "001" "b")))]);
     JSON.write Sample.show_integer
       (JObj [("error", JStr "Server failed to start");
              ("details",
               JStr ("Error: " ++ String "a" (String "001" "b")))])].
Proof.
  exact (proj1 (proj2 (startup_exits_on_connection_failure
                         (Sample.server true 200 "OK" "null") Probe.to_String
                         (inl (Error (String "a" (String "001" "b"))))
                         (Startup.mk_process [] None)))).
Defined.

(** X20.  Whatever configuration the canonical adapter accepts, the remote
    variant accepts too; and with an API key and a user identifier, leaving
    [MEMOS_CHANNEL] unset is accepted by both, the canonical adapter then
    sending the user identifier as it is configured. *)
Theorem accepted_configurations :
  forall (rt : Runtime) (env : Env),
    (Spec.valid_config rt env -> Spec.valid_remote_config rt env)
    /\ (Js.falsy (env_MEMOS_API_KEY env) = false ->
        Js.falsy (env_MEMOS_USER_ID env) = false ->
        env_MEMOS_CHANNEL env = None ->
        Spec.valid_config rt env /\ Spec.valid_remote_config rt env
        /\ Canonical.actualUserId rt env = env_MEMOS_USER_ID env).
Proof.
  intros rt env. split.
  - intros (H1 & H2 & H3). split; [exact H1|]. split; [exact H2|].
    unfold Canonical.MEMOS_CHANNEL_ID in H3. unfold Remote.MEMOS_CHANNEL.
    destruct (env_MEMOS_CHANNEL env) as [c|]; [|reflexivity].
    apply includes_In in H3. apply includes_In.
    cbn in H3. cbn. intuition.
  - intros H1 H2 Hnone.
    unfold Spec.valid_config, Spec.valid_remote_config,
      Canonical.actualUserId, Canonical.MEMOS_CHANNEL_ID,
      Remote.MEMOS_CHANNEL.
    rewrite Hnone. repeat split; auto.
Qed.

Lemma accepted_configurations_witness :
  Spec.valid_remote_config (Sample.server true 200 "OK" "null")
    Sample.env_mcpso
  /\ Spec.valid_config (Sample.server true 200 "OK" "null") Sample.env
  /\ Canonical.actualUserId (Sample.server true 200 "OK" "null") Sample.env
     = Some "alice".
Proof.
  destruct (accepted_configurations (Sample.server true 200 "OK" "null")
              Sample.env_mcpso) as (Hsub & _).
  destruct (accepted_configurations (Sample.server true 200 "OK" "null")
              Sample.env) as (_ & Hdefault).
  split; [apply Hsub; repeat split; reflexivity|].
  destruct (Hdefault eq_refl eq_refl eq_refl) as (Hc & _ & Hid).
  split; [exact Hc | exact Hid].
Defined.

(** X21.  One conversation, one identifier, whatever the tool, the channel
    and the variant: two valid invocations that name the same first
    message, one of a canonical tool and one of a remote tool, send the
    same [conversation_id]. *)
Theorem conversation_id_is_shared :
  forall (rt : Runtime) (env : Env) (i : Canonical.Invocation)
         (j : Remote.Invocation) (c : string) (w w' : World),
    Spec.valid_config rt env ->
    Spec.first_message i = Some c ->
    match j with
    | Remote.AddMessage c' _ | Remote.SearchMemory _ c' _
    | Remote.GetMessage c' => c' = c
    end ->
    exists q q' id,
      queries (snd (Canonical.invoke rt env i w)) = (queries w ++ [q])%list
      /\ queries (snd (Remote.invoke rt env j w')) = (queries w' ++ [q'])%list
      /\ Obj.get "conversation_id" (q_body q) = Some (JStr id)
      /\ Obj.get "conversation_id" (q_body q') = Some (JStr id)
      /\ String.length id = 32%nat.
Proof.
  intros rt env i j c w w' Hok Hi Hj.
  assert (Hrok : Spec.valid_remote_config rt env).
  { destruct Hok as (H1 & H2 & H3). split; [exact H1|]. split; [exact H2|].
    unfold Canonical.MEMOS_CHANNEL_ID in H3. unfold Remote.MEMOS_CHANNEL.
    destruct (env_MEMOS_CHANNEL env) as [ch|]; [|reflexivity].
    apply includes_In in H3. apply includes_In. cbn in H3. cbn. intuition. }
  destruct (invoke_valid_at rt env i w Hok) as (body & Hshape & Hrun).
  destruct (remote_invoke_valid_at rt env j w' Hrok)
    as (hi & path & rbody & Hrshape & Hrrun).
  cbv zeta in Hrun, Hrrun. rewrite Hrun, Hrrun. cbn [snd].
  match goal with
  | |- context [Canonical.queryMemos rt env ?p ?b ?k ?w1] =>
      destruct (queryMemos_world rt env p b k w1) as (sent & -> & _)
  end.
  rewrite remote_queryMemos_queries. cbn [queries].
  exists (mk_query (Extra.endpoint i) body (env_MEMOS_API_KEY env)),
         (mk_query path rbody (env_MEMOS_API_KEY env)),
         (stringToMd5 (Js.str (env_MEMOS_USER_ID env) ++ Str.nl ++ c)).
  split; [reflexivity|]. split; [reflexivity|]. cbn [q_body].
  assert (Hid : forall x,
             Js.val (Js.or_else (Some (stringToMd5 x))
                       (env_MEMOS_CONVERSATION_ID env))
             = JStr (stringToMd5 x)).
  { intros x. unfold Js.or_else. now rewrite stringToMd5_truthy. }
  split; [|split; [|apply stringToMd5_length]].
  - destruct i as [c0 ms | q0 c0 n | ids | c0 f a p t pub kbs];
      cbn [Spec.first_message Spec.body_shape] in Hi, Hshape;
      try discriminate; injection Hi as ->.
    + destruct Hshape as (_ & objs & -> & _).
      unfold Canonical.actualConversationId. rewrite Hid. reflexivity.
    + destruct Hshape as (_ & ->).
      unfold Canonical.actualConversationId. rewrite Hid. reflexivity.
    + destruct Hshape as (_ & ->).
      unfold Canonical.actualConversationId. rewrite Hid. reflexivity.
  - destruct j as [c0 ms | q0 c0 n | c0];
      cbn [Extra.remote_body_shape] in Hrshape; subst c0.
    + destruct Hrshape as (_ & objs & -> & _).
      unfold Remote.actualConversationId. rewrite Hid. reflexivity.
    + destruct Hrshape as (_ & ->).
      unfold Remote.actualConversationId. rewrite Hid. reflexivity.
    + destruct Hrshape as (_ & ->).
      unfold Remote.actualConversationId. rewrite Hid. reflexivity.
Qed.

Lemma conversation_id_shared_witness :
  exists q q',
    queries (snd (Canonical.invoke (Sample.server true 200 "OK" "null")
                    Sample.env_mcpso
                    (Canonical.SearchMemory "tea" "hello" None) fresh)) = [q]
    /\ queries (snd (Remote.invoke (Sample.server true 200 "OK" "null")
                       Sample.env_mcpso (Remote.GetMessage "hello") fresh))
       = [q']
    /\ Obj.get "conversation_id" (q_body q)
       = Obj.get "conversation_id" (q_body q').
Proof.
  destruct (conversation_id_is_shared
              (Sample.server true 200 "OK" "null") Sample.env_mcpso
              (Canonical.SearchMemory "tea" "hello" None)
              (Remote.GetMessage "hello") "hello" fresh fresh)
    as (q & q' & id & Hq & Hq' & Hc & Hc' & _).
  - repeat split; reflexivity.
  - reflexivity.
  - reflexivity.
  - exists q, q'. split; [exact Hq|]. split; [exact Hq'|].
    now rewrite Hc, Hc'.
Defined.

(** X22.  The payload of a valid [search_memory] is the JSON text of a
    document that carries the query as given and the limit as JSON can
    write it: the number when it is finite (6 when none, zero or [NaN]
    reached the handler), and [null] when the caller supplied an infinity,
    which [|| 6] lets through.  Read back, the payload gives that
    document. *)
Theorem search_payload_limit :
  forall (rt : Runtime) (env : Env) (query c : string)
         (limit : option spec_float) (w : World),
    Spec.valid_config rt env ->
    exists body,
      let doc := Terms.document body in
      queries (snd (Canonical.search_memory rt env query c limit w))
      = (queries w
           ++ [mk_query "/search/memory" body (env_MEMOS_API_KEY env)])%list
      /\ Canonical.payload_of rt body
         = JSON.write (Number_toString rt) (JObj doc)
      /\ (forall reader,
            Forall (Wire.readable (Number_toString rt) reader)
                   (Wire.numbers (JObj doc)) ->
            Wire.parse reader (Canonical.payload_of rt body)
            = Some (JObj doc))
      /\ Obj.get "query" doc = Some (JStr query)
      /\ Obj.get "memory_limit_number" doc
         = Some (match limit with
                 | Some (S754_finite s m e) => JNum (S754_finite s m e)
                 | Some (S754_infinity _) => JNull
                 | Some (S754_zero _) | Some S754_nan | None =>
                     JNum (Num.of_Z 6)
                 end).
Proof.
  intros rt env query c limit w Hok.
  destruct (invoke_valid_at rt env
              (Canonical.SearchMemory query c limit) w Hok)
    as (body & Hshape & Hrun).
  pose proof (body_shape_wf rt env _ _ _ _ _ Hshape) as Hwf.
  destruct Hshape as (_ & Hbody).
  cbv zeta in Hrun. cbn [Canonical.invoke Extra.endpoint] in Hrun.
  rewrite Hrun. cbn [snd].
  match goal with
  | |- context [Canonical.queryMemos rt env ?q ?b ?k ?w1] =>
      destruct (queryMemos_world rt env q b k w1) as (sent & -> & _)
  end.
  cbn [queries].
  exists body. cbv zeta.
  split; [reflexivity|]. split; [reflexivity|].
  split; [intros reader; apply payload_reads_back|].
  assert (Hget : forall k, k <> "source" ->
            Obj.get k (Terms.document body)
            = match Obj.get k body with
              | Some v => JSON.toJSON v
              | None => None
              end).
  { intros k Hk. unfold Terms.document.
    rewrite get_props by now apply set_wf.
    now rewrite get_set_other. }
  rewrite !Hget by discriminate. subst body.
  cbn [Obj.get String.eqb Ascii.eqb Bool.eqb andb].
  split; [reflexivity|].
  destruct limit as [[s|s| |s m e]|]; reflexivity.
Qed.

Lemma search_payload_limit_witness :
  Wire.parse Bench.read_integer
    (Canonical.payload_of (Sample.server true 200 "OK" "null")
       [("query", JStr (String "a" (String "001" "b")));
        ("user_id", JStr "alice");
        ("conversation_id", JStr "436fbc0a382e7fcf5ed6d8ca07772ac0");
        ("memory_limit_number", JNum (Num.of_Z 6))])
  = Some (JObj [("query", JStr (String "a" (String "001" "b")));
                ("user_id", JStr "alice");
                ("conversation_id", JStr "436fbc0a382e7fcf5ed6d8ca07772ac0");
                ("memory_limit_number", JNum (Num.of_Z 6));
                ("source", JStr "MCP")])
  /\ String.length
       (Canonical.payload_of (Sample.server true 200 "OK" "null")
          [("query", JStr (String "a" (String "001" "b")));
           ("user_id", JStr "alice");
           ("conversation_id", JStr "436fbc0a382e7fcf5ed6d8ca07772ac0");
           ("memory_limit_number", JNum (Num.of_Z 6))])
     = 130%nat.
Proof.
  destruct (search_payload_limit
              (Sample.server true 200 "OK" "null") Sample.env
              (String "a" (String "001" "b")) "hello"
              (Some (S754_zero false)) fresh)
    as (body & Hq & Hpay & Hread & _).
  - repeat split; reflexivity.
  - vm_compute in Hq. injection Hq as <-. split.
    + apply Hread.
      lazymatch goal with
      | |- Forall _ ?l =>
          replace l with [Num.of_Z 6] by (vm_compute; reflexivity)
      end.
      constructor; [exact six_reads_back | constructor].
    + vm_compute. reflexivity.
Defined.

(** X23.  Through the registered tool the limit of [search_memory] is
    always a number, and never [NaN]: the schema answers a [NaN] and
    anything that is no number with a validation error, before the
    handler and with nothing dispatched.  A number it lets through
    reaches the handler, which under a valid configuration dispatches one
    query whose limit is 6 when that number is zero, and the number itself
    otherwise. *)
Theorem supplied_search_limit_is_sent :
  forall (rt : Runtime) (env : Env) (query c : string) (w : World),
    (forall v,
        (forall n, v = JNum n -> Num.is_nan n = true) ->
        Registry.call rt env "search_memory"
          (JObj (Terms.search_arguments query c (Some v))) w
        = (Registry.InvalidArguments, w))
    /\ (forall n,
          Spec.valid_config rt env ->
          Num.is_nan n = false ->
          exists response w' body,
            Registry.call rt env "search_memory"
              (JObj (Terms.search_arguments query c (Some (JNum n)))) w
            = (Registry.Answered response, w')
            /\ queries w'
               = (queries w
                    ++ [mk_query "/search/memory" body
                          (env_MEMOS_API_KEY env)])%list
            /\ Obj.get "query" body = Some (JStr query)
            /\ Obj.get "memory_limit_number" body
               = Some (JNum (if Num.is_zero n then Num.of_Z 6 else n))).
Proof.
  intros rt env query c w. split.
  - intros v Hv. unfold Registry.call.
    cbn [Registry.schema String.eqb Ascii.eqb Bool.eqb].
    unfold Registry.search_memory, Terms.search_arguments, Registry.field.
    cbn [app Obj.get String.eqb Ascii.eqb Bool.eqb Registry.z_string
         Opt.and_then].
    destruct v as [| |b|n|s|items|members]; try reflexivity.
    cbn [Registry.z_number]. now rewrite (Hv n eq_refl).
  - intros n Hok Hnan. unfold Registry.call.
    cbn [Registry.schema String.eqb Ascii.eqb Bool.eqb].
    unfold Registry.search_memory, Terms.search_arguments, Registry.field.
    cbn [app Obj.get String.eqb Ascii.eqb Bool.eqb Registry.z_string
         Registry.z_number Opt.and_then].
    rewrite Hnan. cbn [Opt.and_then Canonical.invoke].
    pose proof (search_memory_queries rt env query c (Some n) w) as Hq.
    rewrite (proj2 (config_ok_valid rt env) Hok) in Hq.
    destruct (invoke_outcome rt env (Canonical.SearchMemory query c (Some n))
                (Remote.GetMessage c) w) as [Hout _].
    cbn [Canonical.invoke] in Hout.
    destruct (Canonical.search_memory rt env query c (Some n) w)
      as [[e|response] w'] eqn:Hrun.
    + cbn [fst] in Hout. destruct Hout as [(m & H)|(d & H)]; discriminate.
    + eexists response, w', _. split; [reflexivity|].
      split; [exact Hq|]. split; [reflexivity|].
      cbn [Obj.get String.eqb Ascii.eqb Bool.eqb]. do 2 f_equal.
      now destruct n.
Qed.

Lemma supplied_search_limit_witness :
  exists response w' body,
    Registry.call (Sample.server true 200 "OK" "null") Sample.env
      "search_memory"
      (JObj [("query", JStr "tea");
             ("conversation_first_message", JStr "hello");
             ("memory_limit_number", JNum (S754_zero false))]) fresh
    = (Registry.Answered response, w')
    /\ queries w' = [mk_query "/search/memory" body (Some "key")]
    /\ Obj.get "memory_limit_number" body = Some (JNum (Num.of_Z 6)).
Proof.
  destruct (supplied_search_limit_is_sent
              (Sample.server true 200 "OK" "null") Sample.env
              "tea" "hello" fresh) as (_ & Hsent).
  destruct (Hsent (S754_zero false)) as (response & w' & body & Hcall & Hq
                                         & _ & Hlimit).
  - repeat split; reflexivity.
  - reflexivity.
  - exists response, w', body.
    split; [exact Hcall|]. split; [exact Hq | exact Hlimit].
Defined.

(* ===================================================================== *)
(** * The [https] exchange *)
(* ===================================================================== *)

Section ExchangeFacts.

Variable rt : Runtime.

Lemma settled_stays (outcome : Exn + JsVal) (events : list Https.Event) :
  fold_left (Https.on rt) events (Https.Settled outcome)
  = Https.Settled outcome.
Proof. induction events as [|e events IH]; [reflexivity | exact IH]. Qed.

Lemma pending_stays (events : list Https.Event) :
  forallb (fun e => negb (Https.settles e)) events = true ->
  forall response chunks,
    exists response' chunks',
      fold_left (Https.on rt) events (Https.Pending response chunks)
      = Https.Pending response' chunks'.
Proof.
  induction events as [|e events IH]; intros Hall response chunks;
    [now exists response, chunks|].
  cbn [forallb] in Hall. apply andb_true_iff in Hall as [He Hall].
  cbn [fold_left].
  destruct e as [sc sm|chunk| |error]; try discriminate He;
    cbn [Https.on]; [|destruct response]; now apply IH.
Qed.

Lemma data_accumulates (response : option Z * option string)
    (chunks more : list string) :
  fold_left (Https.on rt) (map Https.Data more)
    (Https.Pending (Some response) chunks)
  = Https.Pending (Some response) (chunks ++ more).
Proof.
  revert chunks. induction more as [|chunk more IH]; intros chunks.
  - now rewrite app_nil_r.
  - cbn [map fold_left Https.on]. rewrite IH. now rewrite <- app_assoc.
Qed.

End ExchangeFacts.

(** X24.  The second transport sets no timeout and listens to nothing but
    the response's ["data"] and ["end"] and the request's ["error"]: its
    promise stays pending as long as neither an ["end"] nor an ["error"]
    has come, however many chunks arrive; the first ["error"] rejects it
    with that error; and a response, its chunks and its ["end"] settle it
    with what the ["end"] listener makes of status and text, whatever
    comes later.  That settled outcome is what the dispatcher returns or
    throws when the runtime answers with that response. *)
Theorem https_promise_settles_on_end_or_error :
  forall (rt : Runtime) (events later : list Https.Event),
    (forallb (fun e => negb (Https.settles e)) events = true ->
     (exists response chunks,
         Https.exchange rt events = Https.Pending response chunks)
     /\ forall error,
          Https.exchange rt (events ++ Https.RequestError error :: later)
          = Https.Settled (inl error))
    /\ (forall sc sm chunks,
          Https.exchange rt
            (Https.Response sc sm :: map Https.Data chunks
               ++ Https.Ended :: later)
          = Https.Settled (Https.on_end rt (mk_incoming sc sm chunks)))
    /\ (forall env path body apiKey w res,
          global_fetch rt = None ->
          (forall url, exists u, new_URL rt url = inr u) ->
          (forall req, https_request rt req = inr res) ->
          fst (Canonical.queryMemos rt env path body apiKey w)
          = Https.on_end rt res).
Proof.
  intros rt events later. split; [|split].
  - intros Hall. split.
    + apply pending_stays, Hall.
    + intros error. unfold Https.exchange. rewrite fold_left_app.
      destruct (pending_stays rt events Hall None [])
        as (response & chunks & ->).
      cbn [fold_left Https.on]. apply settled_stays.
  - intros sc sm chunks. unfold Https.exchange.
    cbn [fold_left Https.on]. rewrite fold_left_app, data_accumulates.
    cbn [fold_left Https.on app]. apply settled_stays.
  - intros env path body apiKey w res Hf Hurl Hres.
    unfold Canonical.queryMemos, res_json, res_text, try_catch, bind,
      log_query, log_request, settle, throw, ret. rewrite Hf.
    cbn [clock_reads queries requests].
    destruct (Hurl (MEMOS_BASE_URL env ++ path)) as (u & ->).
    rewrite Hres. unfold Https.on_end.
    destruct ((200 <=? _) && (_ <? 300)); [|reflexivity].
    now destruct (JSON_parse rt _).
Qed.

Lemma https_promise_witness :
  Https.exchange (Sample.server false 200 "OK" "true")
    [Https.Response (Some 200) (Some "OK"); Https.Data "tr"; Https.Data "ue"]
  = Https.Pending (Some (Some 200, Some "OK")) ["tr"; "ue"]
  /\ Https.exchange (Sample.server false 200 "OK" "true")
       ([Https.Response (Some 200) (Some "OK"); Https.Data "tr";
         Https.Data "ue"]
        ++ [Https.RequestError (Error "socket hang up"); Https.Ended])
     = Https.Settled (inl (Error "socket hang up"))
  /\ Https.exchange (Sample.server false 200 "OK" "true")
       [Https.Response (Some 200) (Some "OK"); Https.Data "tr";
        Https.Data "ue"; Https.Ended; Https.Data "late"]
     = Https.Settled (inr (JBool true))
  /\ fst (Canonical.queryMemos (Sample.server false 200 "OK" "true")
            Sample.env "/delete/memory" [] (Some "key") fresh)
     = inr (JBool true).
Proof.
  destruct (https_promise_settles_on_end_or_error
              (Sample.server false 200 "OK" "true")
              [Https.Response (Some 200) (Some "OK"); Https.Data "tr";
               Https.Data "ue"]
              [Https.Ended]) as (Hpending & _ & Hlink).
  destruct (Hpending eq_refl) as ((response & chunks & Hp) & Herror).
  split; [reflexivity|]. split; [apply Herror|].
  split; [reflexivity|].
  rewrite (Hlink Sample.env "/delete/memory" [] (Some "key") fresh
             (mk_incoming (Some 200) (Some "OK") ["true"])).
  - reflexivity.
  - reflexivity.
  - intros url. now exists url.
  - reflexivity.
Defined.
